(** * vhsDecodeGUI: the decode supervisor, its telemetry and its log colouring

    A shallow embedding of [vhsDecodeGUI/vhsDecodeGUI.py]:

    - [convert_frame_to_timecode] (frame number to HH:MM:SS.FF),
    - the line analysis of [_process_output_line] (frame pattern, dropped
      field and skipped track markers, throttled dashboard updates),
    - [_update_gui_status], [_start_decoding], [_cancel_decoding],
      [_finalize_decoding] as transitions of the application state,
    - the ANSI colour splitting of [log_output],
    - the reader thread [_run_decode_process],
    - the configuration file ([_load_config], [_save_config] and the export
      arguments [_video_export] reads),
    - the paths of the decode output, the TBC file and the export base,
    - the export reader ([_run_export_process], [_update_export_status],
      [_finalize_export], [_cancel_export]).

    Conventions.  A Python [str] is a [string] whose characters are the code
    points below 256 (so [\d] is [0-9]).  A Python [int] is a [Z]; [int()]
    reads a literal of any length (CPython 3.11 and later refuse more than
    4300 digits unless that limit is lifted).  A finite Python [float] is
    the rational it stands for, a [Q].  The frame arithmetic of
    [convert_frame_to_timecode] rounds every operation to the nearest
    float, as CPython does.  Clock readings, and the rates computed from
    them, are exact rationals.  The dashboard takes its timecode from
    [timecode_of_frame]: a frame number beyond the range of floats (309
    digits or more), for which the update would raise, is not followed
    further.  Each call of [time.time()] takes the next reading of a clock
    oracle [nat -> Q]. *)

From Stdlib Require Import ZArith QArith Qround Qabs Qpower Lia Lqa.
From Stdlib Require Import List Sorted Bool Ascii String.
From Stdlib Require Import DecimalString DecimalZ.
Import ListNotations.

Open Scope string_scope.
Open Scope Z_scope.

(** ** Python values, exceptions, [int()] and float arithmetic *)

Module Py.

(** A float: a finite number, an infinity or a NaN. *)
Inductive pyfloat : Type :=
| Finite (x : Q)
| Infinity (negative : bool)
| NaN.

Inductive pyval : Type :=
| PyNone
| PyInt (n : Z)
| PyStr (s : string)
| PyFloat (x : pyfloat).

Inductive exn : Type :=
| TypeError
| ValueError
| OverflowError.

Inductive result (A : Type) : Type :=
| Ok (a : A)
| Raise (e : exn).

Arguments Ok {A} a.
Arguments Raise {A} e.

Definition is_digit (c : ascii) : bool :=
  let n := nat_of_ascii c in ((48 <=? n) && (n <=? 57))%nat.

Definition digit_val (c : ascii) : Z := Z.of_nat (nat_of_ascii c) - 48.

(** [str.isspace] on the code points below 256. *)
Definition is_space (c : ascii) : bool :=
  let n := nat_of_ascii c in
  (((9 <=? n) && (n <=? 13)) || ((28 <=? n) && (n <=? 32))
   || (n =? 133) || (n =? 160))%nat.

Fixpoint lstrip (s : string) : string :=
  match s with
  | String c t => if is_space c then lstrip t else s
  | EmptyString => EmptyString
  end.

Fixpoint all_space (s : string) : bool :=
  match s with
  | String c t => is_space c && all_space t
  | EmptyString => true
  end.

(** The white space [int()] skips around a literal: the ASCII white space,
    and the white space from code point 128 on, which it first turns into
    blanks.  The separators U+001C to U+001F, which [str.isspace] accepts,
    are not among them. *)
Definition is_int_space (c : ascii) : bool :=
  let n := nat_of_ascii c in
  (((9 <=? n) && (n <=? 13)) || (n =? 32) || (n =? 133) || (n =? 160))%nat.

Fixpoint lstrip_int (s : string) : string :=
  match s with
  | String c t => if is_int_space c then lstrip_int t else s
  | EmptyString => EmptyString
  end.

Fixpoint all_int_space (s : string) : bool :=
  match s with
  | String c t => is_int_space c && all_int_space t
  | EmptyString => true
  end.

(** The digits of a decimal literal once its first digit has been read:
    more digits, each optionally preceded by one underscore. *)
Fixpoint scan_digits (acc : Z) (s : string) : Z * string :=
  match s with
  | String c t =>
      if is_digit c then scan_digits (10 * acc + digit_val c) t
      else if Ascii.eqb c "_" then
        match t with
        | String d t' =>
            if is_digit d then scan_digits (10 * acc + digit_val d) t'
            else (acc, s)
        | EmptyString => (acc, s)
        end
      else (acc, s)
  | EmptyString => (acc, EmptyString)
  end.

Definition parse_unsigned (s : string) : option Z :=
  match s with
  | String c t =>
      if is_digit c then
        let (n, rest) := scan_digits (digit_val c) t in
        if all_int_space rest then Some n else None
      else None
  | EmptyString => None
  end.

(** [int(s)] for a string, base 10: surrounding white space, an optional
    sign, digits. *)
Definition int_of_str (s : string) : result Z :=
  let body := lstrip_int s in
  let parsed :=
    match body with
    | String c t =>
        if Ascii.eqb c "+" then parse_unsigned t
        else if Ascii.eqb c "-" then option_map Z.opp (parse_unsigned t)
        else parse_unsigned body
    | EmptyString => None
    end in
  match parsed with
  | Some n => Ok n
  | None => Raise ValueError
  end.

(** [int(x)] for a finite float: truncation. *)
Definition int_of_float (x : Q) : Z :=
  if Qle_bool 0 x then Qfloor x else Qceiling x.

(** The builtin [int(x)]. *)
Definition int (x : pyval) : result Z :=
  match x with
  | PyNone => Raise TypeError
  | PyInt n => Ok n
  | PyStr s => int_of_str s
  | PyFloat (Finite q) => Ok (int_of_float q)
  | PyFloat (Infinity _) => Raise OverflowError
  | PyFloat NaN => Raise ValueError
  end.

(** *** Float arithmetic

    A finite float is the rational it stands for.  An operation gives the
    float nearest to the exact result, ties going to the even mantissa, as
    IEEE 754 binary64 arithmetic does: 53 bits of mantissa, exponents from
    -1074 on. *)

Definition pow2 (e : Z) : Q := (2 ^ e)%Q.

(** The whole number nearest to [x], the even one of two at equal
    distance. *)
Definition round_half_even (x : Q) : Z :=
  let f := Qfloor x in
  match Qcompare (x - inject_Z f) (1 # 2) with
  | Lt => f
  | Gt => f + 1
  | Eq => if Z.even f then f else f + 1
  end.

(** The exponent [k] with [2^k <= a < 2^(k+1)], for [a] positive. *)
Definition ilog2 (a : Q) : Z :=
  let k := Z.log2 (Qnum a) - Z.log2 (Zpos (Qden a)) in
  if Qle_bool (pow2 k) a then k else k - 1.

(** The float nearest to [x], were the exponent unbounded above. *)
Definition nearest_float (x : Q) : Q :=
  if Qeq_bool x 0 then 0%Q
  else
    let a := Qabs x in
    let e := Z.max (ilog2 a - 52) (-1074) in
    let m := round_half_even (a / pow2 e) in
    let r := (inject_Z m * pow2 e)%Q in
    if Qle_bool 0 x then r else (- r)%Q.

(** The conversion of an [int] operand of a float operation: the nearest
    float, [OverflowError] when that is beyond the largest float. *)
Definition float_of_int (n : Z) : result Q :=
  let x := nearest_float (inject_Z n) in
  if Qle_bool (pow2 1024) (Qabs x) then Raise OverflowError else Ok x.

(** [x / y] on floats. *)
Definition truediv (x y : Q) : Q := nearest_float (x / y).

(** C's [fmod], which is exact: [x] minus [y] times the quotient
    truncated. *)
Definition fmod (x y : Q) : Q := (x - y * inject_Z (int_of_float (x / y)))%Q.

Definition negative (x : Q) : bool := negb (Qle_bool 0 x).

(** [x % y] on floats: [fmod], moved by [y] when its sign is not that of
    [y]. *)
Definition mod_ (x y : Q) : Q :=
  let m := fmod x y in
  if negb (Qeq_bool m 0) && xorb (negative y) (negative m)
  then nearest_float (m + y)
  else m.

(** [x // y] on floats: [(x - fmod(x, y)) / y], less one when the
    remainder was moved, then snapped to the nearest whole number. *)
Definition floordiv (x y : Q) : Q :=
  let m := fmod x y in
  let div := nearest_float (nearest_float (x - m) / y) in
  let div :=
    if negb (Qeq_bool m 0) && xorb (negative y) (negative m)
    then nearest_float (div - 1)
    else div in
  if Qeq_bool div 0 then 0%Q
  else
    let floordiv := inject_Z (Qfloor div) in
    if negb (Qle_bool (nearest_float (div - floordiv)) (1 # 2))
    then nearest_float (floordiv + 1)
    else floordiv.

(** The format specification [:02d]: decimal digits, a minus sign for a
    negative number, padded with zeros to two characters. *)
Definition format_02d (n : Z) : string :=
  let s := NilZero.string_of_int (Z.to_int n) in
  if (String.length s <? 2)%nat then String "0" s else s.

End Py.

Import Py.

(** ** Configuration constants *)

Definition FPS : Q := 25.

Definition DROPPED_FIELD_PATTERN : string := "dropping field".

Definition TRACK_SKIP_PATTERN : string := "skipped a track".

(** ** [convert_frame_to_timecode] *)

Definition zero_timecode : string := "00:00:00.00".

(** The body after [int(frame_number)] has succeeded, for a frame number
    within the range of floats; [frame] is the frame number as the float
    it is converted to in [frame_number / FPS] and [frame_number % FPS]. *)
Definition timecode_of_frame (frame_number : Z) : string :=
  let frame := nearest_float (inject_Z frame_number) in
  let total_seconds := truediv frame FPS in
  let frames := mod_ frame FPS in
  let seconds := int_of_float (mod_ total_seconds 60) in
  let minutes := int_of_float (mod_ (floordiv total_seconds 60) 60) in
  let hours := int_of_float (floordiv total_seconds 3600) in
  format_02d hours ++ ":" ++ format_02d minutes ++ ":"
  ++ format_02d seconds ++ "." ++ format_02d (int_of_float frames).

(** [convert_frame_to_timecode]: [TypeError] and [ValueError] of [int()]
    are caught; the [OverflowError] of [int()] and that of the division,
    for a frame number beyond the range of floats, are not. *)
Definition convert_frame_to_timecode (frame_number : pyval) : result string :=
  match Py.int frame_number with
  | Raise TypeError | Raise ValueError => Ok zero_timecode
  | Raise OverflowError => Raise OverflowError
  | Ok frame_number =>
      match float_of_int frame_number with
      | Ok _ => Ok (timecode_of_frame frame_number)
      | Raise e => Raise e
      end
  end.

(** ** The patterns of the output lines *)

(** [needle in hay]. *)
Fixpoint contains (needle hay : string) : bool :=
  prefix needle hay
  || match hay with
     | String _ t => contains needle t
     | EmptyString => false
     end.

Fixpoint strip_prefix (p s : string) : option string :=
  match p, s with
  | EmptyString, _ => Some s
  | String a p', String b s' => if Ascii.eqb a b then strip_prefix p' s' else None
  | String _ _, EmptyString => None
  end.

(** The longest prefix of [s] whose characters satisfy [f], and the rest. *)
Fixpoint span (f : ascii -> bool) (s : string) : string * string :=
  match s with
  | String c t =>
      if f c then let (run, rest) := span f t in (String c run, rest)
      else (EmptyString, s)
  | EmptyString => (EmptyString, EmptyString)
  end.

(** [FRAME_PATTERN = re.compile(r"File Frame (\d+): VHS")] matched at the
    start of [s]: group 1.  The digit run is the longest one, since the
    character after it has to be the colon. *)
Definition FRAME_PATTERN_match (s : string) : option string :=
  match strip_prefix "File Frame " s with
  | Some r =>
      let (digits, rest) := span is_digit r in
      match digits with
      | EmptyString => None
      | String _ _ => if prefix ": VHS" rest then Some digits else None
      end
  | None => None
  end.

(** [FRAME_PATTERN.search(line)]: group 1 of the leftmost match. *)
Fixpoint FRAME_PATTERN_search (line : string) : option string :=
  match FRAME_PATTERN_match line with
  | Some g => Some g
  | None =>
      match line with
      | String _ t => FRAME_PATTERN_search t
      | EmptyString => None
      end
  end.

(** ** The colour splitting of [log_output] *)

Definition ESC : ascii := ascii_of_nat 27.

Definition in_range (lo hi : nat) (c : ascii) : bool :=
  let n := nat_of_ascii c in ((lo <=? n) && (n <=? hi))%nat.

(** The class [[\d;]] of the SGR pattern. *)
Definition is_sgr_param (c : ascii) : bool := is_digit c || Ascii.eqb c ";".

(** [\x1B\[[\d;]*m] matched at the start of [s]: the matched text. *)
Definition sgr_match (s : string) : option string :=
  match s with
  | String e (String b r) =>
      if Ascii.eqb e ESC && Ascii.eqb b "[" then
        let (params, rest) := span is_sgr_param r in
        match rest with
        | String m _ =>
            if Ascii.eqb m "m" then
              Some (String ESC (String "[" (params ++ "m")))
            else None
        | EmptyString => None
        end
      else None
  | _ => None
  end.

(** [re.split(r'(\x1B\[[\d;]*m)', text)]: the text before the first match,
    the match, the text up to the next match, and so on; [skip] counts the
    characters of the current match still to pass, [cur] is the text
    gathered since the last match. *)
Fixpoint re_split_sgr (skip : nat) (cur : string) (s : string) : list string :=
  match s with
  | EmptyString => [cur]
  | String c t =>
      match skip with
      | S k => re_split_sgr k cur t
      | O =>
          match sgr_match s with
          | Some sep => cur :: sep :: re_split_sgr (String.length sep - 1) EmptyString t
          | None => re_split_sgr O (cur ++ String c EmptyString) t
          end
      end
  end.

(** [ANSI_ESCAPE_PATTERN = re.compile(r'\x1B\[[0-?]*[ -/]*[@-~]')] matched
    at the start of [s]: the length of the match.  The three classes are
    disjoint, so each run is the longest one. *)
Definition ANSI_ESCAPE_PATTERN_match (s : string) : option nat :=
  match s with
  | String e (String b r) =>
      if Ascii.eqb e ESC && Ascii.eqb b "[" then
        let (params, r1) := span (in_range 48 63) r in
        let (inter, r2) := span (in_range 32 47) r1 in
        match r2 with
        | String f _ =>
            if in_range 64 126 f then
              Some (2 + String.length params + String.length inter + 1)%nat
            else None
        | EmptyString => None
        end
      else None
  | _ => None
  end.

(** [ANSI_ESCAPE_PATTERN.sub('', part)]. *)
Fixpoint ANSI_ESCAPE_PATTERN_sub (skip : nat) (s : string) : string :=
  match s with
  | EmptyString => EmptyString
  | String c t =>
      match skip with
      | S k => ANSI_ESCAPE_PATTERN_sub k t
      | O =>
          match ANSI_ESCAPE_PATTERN_match s with
          | Some n => ANSI_ESCAPE_PATTERN_sub (n - 1) t
          | None => String c (ANSI_ESCAPE_PATTERN_sub O t)
          end
      end
  end.

(** [content.split(';')]. *)
Fixpoint split_on (sep : ascii) (s : string) : list string :=
  match s with
  | EmptyString => [EmptyString]
  | String c t =>
      if Ascii.eqb c sep then EmptyString :: split_on sep t
      else
        match split_on sep t with
        | h :: r => String c h :: r
        | [] => [String c EmptyString]
        end
  end.

Fixpoint drop (n : nat) (s : string) : string :=
  match n, s with
  | S k, String _ t => drop k t
  | _, _ => s
  end.

Fixpoint drop_last (s : string) : string :=
  match s with
  | EmptyString => EmptyString
  | String _ EmptyString => EmptyString
  | String c t => String c (drop_last t)
  end.

(** [part[2:-1]]. *)
Definition slice_2_m1 (part : string) : string := drop_last (drop 2 part).

Definition color_codes : list string :=
  ["30"; "31"; "32"; "33"; "34"; "35"; "36"; "37"].

Definition mem (x : string) (l : list string) : bool :=
  existsb (String.eqb x) l.

(** One turn of the loop over the codes of an SGR sequence. *)
Definition apply_code (current_tags : list string) (code : string) : list string :=
  if String.eqb code "0" || String.eqb code "" then []
  else if mem code color_codes then
    filter (fun t => negb (mem t color_codes)) current_tags ++ [code]
  else current_tags.

(** A piece of text inserted into the log area with its tags. *)
Definition segment : Type := string * list string.

(** The loop over the parts: the [insert] calls it makes, in order. *)
Fixpoint log_output_parts (parts : list string) (current_tags : list string)
  : list segment :=
  match parts with
  | [] => []
  | part :: rest =>
      if String.eqb part "" then log_output_parts rest current_tags
      else if prefix (String ESC "[") part then
        let content := slice_2_m1 part in
        let codes := split_on ";" content in
        log_output_parts rest (fold_left apply_code codes current_tags)
      else
        let clean_text := ANSI_ESCAPE_PATTERN_sub O part in
        if String.eqb clean_text "" then log_output_parts rest current_tags
        else (clean_text, current_tags) :: log_output_parts rest current_tags
  end.

(** [log_output(text)]: the styled pieces appended to the log area before
    the closing newline. *)
Definition log_output (text : string) : list segment :=
  let parts := re_split_sgr O EmptyString text in
  log_output_parts parts [].

(** ** The application state *)

(** The text of [decode_fps]: ["0.00"] at first, then a rate, or the final
    average with its suffix.  The two decimals of the format are not
    modelled. *)
Inductive fps_text : Type :=
| FpsValue (fps : Q)
| FpsFinalAvg (final_fps : Q).

(** The texts [status_message] is given. *)
Inductive status_text : Type :=
| StatusEmpty
| StatusAlreadyInProgress
| StatusInvalidInput
| StatusNoActiveProcess
| StatusError (error_message : string)
| StatusCompleted
| StatusCancelled
| StatusErrorCode (return_code : Z).

(** What is appended to the log area: a text passed to [log_output], or one
    of the fixed banners (those that print a float keep it as a number). *)
Inductive log_entry : Type :=
| LogText (text : string)
| LogStarting
| LogCancelRequested
| LogFailed
| LogComplete (total_time final_fps : Q)
| LogCompleteNoFrames
| LogCancelled (returncode : Z)
| LogNonZeroExit (return_code : Z).

(** The subprocess handle: its [returncode] attribute ([None] until
    [wait()] has returned) and the number of SIGTERM signals sent to it. *)
Record Popen : Type := mkPopen {
  returncode : option Z;
  signals_sent : nat
}.

(** One run of [_update_gui_status]: what it wrote to the dashboard and
    the time it read. *)
Record snapshot : Type := mkSnapshot {
  snap_frame : Z;
  snap_timecode : string;
  snap_dropped : Z;
  snap_skipped : Z;
  snap_time : Q
}.

(** The attributes of [VhsDecodeApp] the decode path reads and writes.
    The integer dashboard variables hold the number their text shows.
    [ticks] counts the calls of [time.time()] made so far; [updates] is the
    history of the dashboard updates since the last start, newest first. *)
Record VhsDecodeApp : Type := mkApp {
  current_frame : Z;
  timecode : string;
  decode_fps : fps_text;
  dropped_field_count : Z;
  track_skip_count : Z;
  decoding_in_progress : bool;
  process : option Popen;
  start_time : Q;
  last_frame : Z;
  last_time : Q;
  last_gui_update_time : Q;
  frame_buffer : Z;
  dropped_field_buffer : Z;
  track_skip_buffer : Z;
  status_message : status_text;
  cancel_button_enabled : bool;
  log_text_area : list log_entry;
  ticks : nat;
  updates : list snapshot
}.

Definition set_current_frame (v : Z) (st : VhsDecodeApp) : VhsDecodeApp :=
  mkApp v (timecode st) (decode_fps st) (dropped_field_count st) (track_skip_count st) (decoding_in_progress st) (process st) (start_time st) (last_frame st) (last_time st) (last_gui_update_time st) (frame_buffer st) (dropped_field_buffer st) (track_skip_buffer st) (status_message st) (cancel_button_enabled st) (log_text_area st) (ticks st) (updates st).

Definition set_timecode (v : string) (st : VhsDecodeApp) : VhsDecodeApp :=
  mkApp (current_frame st) v (decode_fps st) (dropped_field_count st) (track_skip_count st) (decoding_in_progress st) (process st) (start_time st) (last_frame st) (last_time st) (last_gui_update_time st) (frame_buffer st) (dropped_field_buffer st) (track_skip_buffer st) (status_message st) (cancel_button_enabled st) (log_text_area st) (ticks st) (updates st).

Definition set_decode_fps (v : fps_text) (st : VhsDecodeApp) : VhsDecodeApp :=
  mkApp (current_frame st) (timecode st) v (dropped_field_count st) (track_skip_count st) (decoding_in_progress st) (process st) (start_time st) (last_frame st) (last_time st) (last_gui_update_time st) (frame_buffer st) (dropped_field_buffer st) (track_skip_buffer st) (status_message st) (cancel_button_enabled st) (log_text_area st) (ticks st) (updates st).

Definition set_dropped_field_count (v : Z) (st : VhsDecodeApp) : VhsDecodeApp :=
  mkApp (current_frame st) (timecode st) (decode_fps st) v (track_skip_count st) (decoding_in_progress st) (process st) (start_time st) (last_frame st) (last_time st) (last_gui_update_time st) (frame_buffer st) (dropped_field_buffer st) (track_skip_buffer st) (status_message st) (cancel_button_enabled st) (log_text_area st) (ticks st) (updates st).

Definition set_track_skip_count (v : Z) (st : VhsDecodeApp) : VhsDecodeApp :=
  mkApp (current_frame st) (timecode st) (decode_fps st) (dropped_field_count st) v (decoding_in_progress st) (process st) (start_time st) (last_frame st) (last_time st) (last_gui_update_time st) (frame_buffer st) (dropped_field_buffer st) (track_skip_buffer st) (status_message st) (cancel_button_enabled st) (log_text_area st) (ticks st) (updates st).

Definition set_decoding_in_progress (v : bool) (st : VhsDecodeApp) : VhsDecodeApp :=
  mkApp (current_frame st) (timecode st) (decode_fps st) (dropped_field_count st) (track_skip_count st) v (process st) (start_time st) (last_frame st) (last_time st) (last_gui_update_time st) (frame_buffer st) (dropped_field_buffer st) (track_skip_buffer st) (status_message st) (cancel_button_enabled st) (log_text_area st) (ticks st) (updates st).

Definition set_process (v : option Popen) (st : VhsDecodeApp) : VhsDecodeApp :=
  mkApp (current_frame st) (timecode st) (decode_fps st) (dropped_field_count st) (track_skip_count st) (decoding_in_progress st) v (start_time st) (last_frame st) (last_time st) (last_gui_update_time st) (frame_buffer st) (dropped_field_buffer st) (track_skip_buffer st) (status_message st) (cancel_button_enabled st) (log_text_area st) (ticks st) (updates st).

Definition set_start_time (v : Q) (st : VhsDecodeApp) : VhsDecodeApp :=
  mkApp (current_frame st) (timecode st) (decode_fps st) (dropped_field_count st) (track_skip_count st) (decoding_in_progress st) (process st) v (last_frame st) (last_time st) (last_gui_update_time st) (frame_buffer st) (dropped_field_buffer st) (track_skip_buffer st) (status_message st) (cancel_button_enabled st) (log_text_area st) (ticks st) (updates st).

Definition set_last_frame (v : Z) (st : VhsDecodeApp) : VhsDecodeApp :=
  mkApp (current_frame st) (timecode st) (decode_fps st) (dropped_field_count st) (track_skip_count st) (decoding_in_progress st) (process st) (start_time st) v (last_time st) (last_gui_update_time st) (frame_buffer st) (dropped_field_buffer st) (track_skip_buffer st) (status_message st) (cancel_button_enabled st) (log_text_area st) (ticks st) (updates st).

Definition set_last_time (v : Q) (st : VhsDecodeApp) : VhsDecodeApp :=
  mkApp (current_frame st) (timecode st) (decode_fps st) (dropped_field_count st) (track_skip_count st) (decoding_in_progress st) (process st) (start_time st) (last_frame st) v (last_gui_update_time st) (frame_buffer st) (dropped_field_buffer st) (track_skip_buffer st) (status_message st) (cancel_button_enabled st) (log_text_area st) (ticks st) (updates st).

Definition set_last_gui_update_time (v : Q) (st : VhsDecodeApp) : VhsDecodeApp :=
  mkApp (current_frame st) (timecode st) (decode_fps st) (dropped_field_count st) (track_skip_count st) (decoding_in_progress st) (process st) (start_time st) (last_frame st) (last_time st) v (frame_buffer st) (dropped_field_buffer st) (track_skip_buffer st) (status_message st) (cancel_button_enabled st) (log_text_area st) (ticks st) (updates st).

Definition set_frame_buffer (v : Z) (st : VhsDecodeApp) : VhsDecodeApp :=
  mkApp (current_frame st) (timecode st) (decode_fps st) (dropped_field_count st) (track_skip_count st) (decoding_in_progress st) (process st) (start_time st) (last_frame st) (last_time st) (last_gui_update_time st) v (dropped_field_buffer st) (track_skip_buffer st) (status_message st) (cancel_button_enabled st) (log_text_area st) (ticks st) (updates st).

Definition set_dropped_field_buffer (v : Z) (st : VhsDecodeApp) : VhsDecodeApp :=
  mkApp (current_frame st) (timecode st) (decode_fps st) (dropped_field_count st) (track_skip_count st) (decoding_in_progress st) (process st) (start_time st) (last_frame st) (last_time st) (last_gui_update_time st) (frame_buffer st) v (track_skip_buffer st) (status_message st) (cancel_button_enabled st) (log_text_area st) (ticks st) (updates st).

Definition set_track_skip_buffer (v : Z) (st : VhsDecodeApp) : VhsDecodeApp :=
  mkApp (current_frame st) (timecode st) (decode_fps st) (dropped_field_count st) (track_skip_count st) (decoding_in_progress st) (process st) (start_time st) (last_frame st) (last_time st) (last_gui_update_time st) (frame_buffer st) (dropped_field_buffer st) v (status_message st) (cancel_button_enabled st) (log_text_area st) (ticks st) (updates st).

Definition set_status_message (v : status_text) (st : VhsDecodeApp) : VhsDecodeApp :=
  mkApp (current_frame st) (timecode st) (decode_fps st) (dropped_field_count st) (track_skip_count st) (decoding_in_progress st) (process st) (start_time st) (last_frame st) (last_time st) (last_gui_update_time st) (frame_buffer st) (dropped_field_buffer st) (track_skip_buffer st) v (cancel_button_enabled st) (log_text_area st) (ticks st) (updates st).

Definition set_cancel_button_enabled (v : bool) (st : VhsDecodeApp) : VhsDecodeApp :=
  mkApp (current_frame st) (timecode st) (decode_fps st) (dropped_field_count st) (track_skip_count st) (decoding_in_progress st) (process st) (start_time st) (last_frame st) (last_time st) (last_gui_update_time st) (frame_buffer st) (dropped_field_buffer st) (track_skip_buffer st) (status_message st) v (log_text_area st) (ticks st) (updates st).

Definition set_log_text_area (v : list log_entry) (st : VhsDecodeApp) : VhsDecodeApp :=
  mkApp (current_frame st) (timecode st) (decode_fps st) (dropped_field_count st) (track_skip_count st) (decoding_in_progress st) (process st) (start_time st) (last_frame st) (last_time st) (last_gui_update_time st) (frame_buffer st) (dropped_field_buffer st) (track_skip_buffer st) (status_message st) (cancel_button_enabled st) v (ticks st) (updates st).

Definition set_ticks (v : nat) (st : VhsDecodeApp) : VhsDecodeApp :=
  mkApp (current_frame st) (timecode st) (decode_fps st) (dropped_field_count st) (track_skip_count st) (decoding_in_progress st) (process st) (start_time st) (last_frame st) (last_time st) (last_gui_update_time st) (frame_buffer st) (dropped_field_buffer st) (track_skip_buffer st) (status_message st) (cancel_button_enabled st) (log_text_area st) v (updates st).

Definition set_updates (v : list snapshot) (st : VhsDecodeApp) : VhsDecodeApp :=
  mkApp (current_frame st) (timecode st) (decode_fps st) (dropped_field_count st) (track_skip_count st) (decoding_in_progress st) (process st) (start_time st) (last_frame st) (last_time st) (last_gui_update_time st) (frame_buffer st) (dropped_field_buffer st) (track_skip_buffer st) (status_message st) (cancel_button_enabled st) (log_text_area st) (ticks st) v.

(** [Popen.terminate()]: nothing is sent once the return code is known. *)
Definition terminate (p : Popen) : Popen :=
  match returncode p with
  | None => mkPopen None (S (signals_sent p))
  | Some _ => p
  end.

(** [self.log_output(text)] and the banners. *)
Definition log (e : log_entry) (st : VhsDecodeApp) : VhsDecodeApp :=
  set_log_text_area (log_text_area st ++ [e]) st.

Definition THROTTLE_INTERVAL : Q := 5.

Section Clock.

(** The readings of [time.time()], in the order of the calls. *)
Variable clock : nat -> Q.

Definition time_time (st : VhsDecodeApp) : Q * VhsDecodeApp :=
  (clock (ticks st), set_ticks (S (ticks st)) st).

Definition _update_gui_status (st : VhsDecodeApp) (current_frame : Z) : VhsDecodeApp :=
  let (current_time, st) := time_time st in
  (* 1. frame and timecode *)
  let st := set_current_frame current_frame st in
  let st := set_timecode (timecode_of_frame current_frame) st in
  (* 2. dropped field count *)
  let current_dropped := dropped_field_count st in
  let st := set_dropped_field_count (current_dropped + dropped_field_buffer st) st in
  let st := set_dropped_field_buffer 0 st in
  (* 3. track skip count *)
  let current_skip := track_skip_count st in
  let st := set_track_skip_count (current_skip + track_skip_buffer st) st in
  let st := set_track_skip_buffer 0 st in
  (* 4. frames per second *)
  let frame_diff := current_frame - last_frame st in
  let time_diff := (current_time - last_time st)%Q in
  let st :=
    if negb (Qle_bool time_diff 0)
    then set_decode_fps (FpsValue (inject_Z frame_diff / time_diff)) st
    else st in
  let st := set_last_frame current_frame st in
  let st := set_last_time current_time st in
  let st := set_last_gui_update_time current_time st in
  set_updates
    (mkSnapshot current_frame (timecode st) (dropped_field_count st)
       (track_skip_count st) current_time :: updates st) st.

(** The throttle test that ends [_process_output_line] once a frame has
    been found: [time.time() - self.last_gui_update_time >= 5.0]. *)
Definition throttled_update (st : VhsDecodeApp) : VhsDecodeApp :=
  let (now, st) := time_time st in
  if Qle_bool THROTTLE_INTERVAL (now - last_gui_update_time st)
  then _update_gui_status st (frame_buffer st)
  else st.

Definition _process_output_line (st : VhsDecodeApp) (line : string) : VhsDecodeApp :=
  if String.eqb line "" then st
  else
    match FRAME_PATTERN_search line with
    | Some group1 =>
        match Py.int (PyStr group1) with
        | Ok current_frame =>
            let st := set_frame_buffer current_frame st in
            (* frame_found *)
            throttled_update st
        | Raise _ => st
        end
    | None =>
        if contains DROPPED_FIELD_PATTERN line then
          set_dropped_field_buffer (dropped_field_buffer st + 1) st
        else if contains TRACK_SKIP_PATTERN line then
          set_track_skip_buffer (track_skip_buffer st + 1) st
        else log (LogText line) st
    end.

(** [_start_decoding]; [input_path] is the selected path and [path_exists]
    what [os.path.exists] answers for it. *)
Definition _start_decoding (st : VhsDecodeApp) (input_path : string) (path_exists : bool)
  : VhsDecodeApp :=
  if decoding_in_progress st then set_status_message StatusAlreadyInProgress st
  else if String.eqb input_path "" || negb path_exists then
    set_status_message StatusInvalidInput st
  else
    (* 1. reset state *)
    let st := set_log_text_area [] st in
    let st := set_current_frame 0 st in
    let st := set_timecode "00:00:00.00" st in
    let st := set_decode_fps (FpsValue 0) st in
    let st := set_dropped_field_count 0 st in
    let st := set_track_skip_count 0 st in
    let st := set_status_message StatusEmpty st in
    let st := set_updates [] st in
    (* 2. the command line is logged *)
    let st := log LogStarting st in
    (* 3. tracking variables, then the worker thread *)
    let (now, st) := time_time st in
    let st := set_start_time now st in
    let st := set_last_frame 0 st in
    let st := set_last_time (start_time st) st in
    let st := set_last_gui_update_time (start_time st) st in
    let st := set_frame_buffer 0 st in
    let st := set_dropped_field_buffer 0 st in
    let st := set_track_skip_buffer 0 st in
    let st := set_decoding_in_progress true st in
    set_cancel_button_enabled true st.

Definition signal_codes : list Z := [-2; -9; 143].

(** [error_message] is truthy. *)
Definition truthy (error_message : option string) : bool :=
  match error_message with
  | Some m => negb (String.eqb m "")
  | None => false
  end.

(** The first statement of [_finalize_decoding]: the buffered counts are
    shown if [self.frame_buffer > 0 and
    (time.time() - self.last_gui_update_time > 0)]. *)
Definition final_update (st : VhsDecodeApp) : VhsDecodeApp :=
  if 0 <? frame_buffer st then
    let (now, st) := time_time st in
    if negb (Qle_bool (now - last_gui_update_time st) 0)
    then _update_gui_status st (frame_buffer st)
    else st
  else st.

Definition _finalize_decoding (st : VhsDecodeApp) (return_code : Z)
    (error_message : option string) : VhsDecodeApp :=
  let st := final_update st in
  let st := set_decoding_in_progress false st in
  let st := set_cancel_button_enabled false st in
  if truthy error_message then
    let st := set_status_message
                (StatusError (match error_message with Some m => m | None => "" end)) st in
    log LogFailed st
  else if return_code =? 0 then
    let (now, st) := time_time st in
    let total_time := (now - start_time st)%Q in
    let total_frames := current_frame st in
    let st :=
      if negb (Qle_bool total_time 0) && (0 <? total_frames) then
        let final_fps := (inject_Z total_frames / total_time)%Q in
        let st := set_decode_fps (FpsFinalAvg final_fps) st in
        log (LogComplete total_time final_fps) st
      else log LogCompleteNoFrames st in
    set_status_message StatusCompleted st
  else
    match process st with
    | Some p =>
        if match returncode p with
           | Some c => existsb (Z.eqb c) signal_codes
           | None => false
           end
        then
          let st := set_status_message StatusCancelled st in
          log (LogCancelled (match returncode p with Some c => c | None => 0 end)) st
        else
          let st := set_status_message (StatusErrorCode return_code) st in
          log (LogNonZeroExit return_code) st
    | None => st
    end.

End Clock.

(** [_cancel_decoding]. *)
Definition _cancel_decoding (st : VhsDecodeApp) : VhsDecodeApp :=
  match decoding_in_progress st, process st with
  | true, Some p =>
      let st := log LogCancelRequested st in
      let st := set_process (Some (terminate p)) st in
      set_cancel_button_enabled false st
  | _, _ => set_status_message StatusNoActiveProcess st
  end.

(** The cancel button runs its command only while it is enabled. *)
Definition click_cancel (st : VhsDecodeApp) : VhsDecodeApp :=
  if cancel_button_enabled st then _cancel_decoding st else st.

(** The two steps of the worker thread that touch [self.process]:
    [self.process = subprocess.Popen(...)] and [self.process.wait()]. *)
Definition popen (st : VhsDecodeApp) : VhsDecodeApp :=
  set_process (Some (mkPopen None O)) st.

Definition wait (st : VhsDecodeApp) (return_code : Z) : VhsDecodeApp :=
  match process st with
  | Some p => set_process (Some (mkPopen (Some return_code) (signals_sent p))) st
  | None => st
  end.

(** The state [__init__] leaves, before its first clock reading. *)
Definition init (clock : nat -> Q) : VhsDecodeApp :=
  mkApp 0 "00:00:00.00" (FpsValue 0) 0 0 false None 0 0 0 (clock O) 0 0 0
    StatusEmpty false [] 1%nat [].

(** The lines of one run, handed to [_process_output_line] in order. *)
Definition run_lines (clock : nat -> Q) (st : VhsDecodeApp) (lines : list string) : VhsDecodeApp :=
  fold_left (_process_output_line clock) lines st.

(** ** The branch a line takes *)

Inductive ClassifiedEvent : Type :=
| FrameProgress (frame : Z)
| DroppedField
| TrackSkip
| PlainLine (text : string).

(** The branch of [_process_output_line] a line takes; [None] for the empty
    line, which returns at once. *)
Definition classify (line : string) : option ClassifiedEvent :=
  if String.eqb line "" then None
  else
    match FRAME_PATTERN_search line with
    | Some group1 =>
        match Py.int (PyStr group1) with
        | Ok current_frame => Some (FrameProgress current_frame)
        | Raise _ => None
        end
    | None =>
        if contains DROPPED_FIELD_PATTERN line then Some DroppedField
        else if contains TRACK_SKIP_PATTERN line then Some TrackSkip
        else Some (PlainLine line)
    end.

Definition is_dropped (line : string) : bool :=
  match classify line with Some DroppedField => true | _ => false end.

Definition is_skip (line : string) : bool :=
  match classify line with Some TrackSkip => true | _ => false end.

(** The frame numbers of the progress lines, in order. *)
Fixpoint frames_of (lines : list string) : list Z :=
  match lines with
  | [] => []
  | l :: rest =>
      match classify l with
      | Some (FrameProgress n) => n :: frames_of rest
      | _ => frames_of rest
      end
  end.

(** ** The words of the specification *)

(** A line matches the frame pattern with the digits [ds]. *)
Definition matches_frame (line ds : string) : Prop :=
  exists pre post,
    line = pre ++ "File Frame " ++ ds ++ ": VHS" ++ post
    /\ ds <> "" /\ forallb is_digit (list_ascii_of_string ds) = true.

(** The number a string of decimal digits writes. *)
Definition digits_value (ds : string) : Z :=
  fold_left (fun acc c => 10 * acc + digit_val c) (list_ascii_of_string ds) 0.


Definition count_lines (f : string -> bool) (lines : list string) : Z :=
  Z.of_nat (List.length (filter f lines)).

(** The terminal outcome [_finalize_decoding] reports in the status
    message. *)
Inductive Outcome : Type :=
| Completed
| Cancelled
| Failed (exit_code : Z)
| LaunchFailed (error_message : string).

Definition outcome (st : VhsDecodeApp) : option Outcome :=
  match status_message st with
  | StatusCompleted => Some Completed
  | StatusCancelled => Some Cancelled
  | StatusErrorCode c => Some (Failed c)
  | StatusError m => Some (LaunchFailed m)
  | _ => None
  end.

(** A cancellation has been requested in the running session:
    [_cancel_decoding] has disabled the cancel button that
    [_start_decoding] enabled. *)
Definition cancel_requested (st : VhsDecodeApp) : bool :=
  decoding_in_progress st && negb (cancel_button_enabled st).

(** The exit code a terminal session carries. *)
Definition exitCode (st : VhsDecodeApp) : option Z :=
  match process st with
  | Some p => returncode p
  | None => None
  end.

(** The signals sent to the process so far. *)
Definition signals (st : VhsDecodeApp) : nat :=
  match process st with
  | Some p => signals_sent p
  | None => O
  end.

(** Two characters read as a two-digit number. *)
Definition two_digits (a b : ascii) : option Z :=
  if is_digit a && is_digit b then Some (10 * digit_val a + digit_val b)
  else None.

(** The four fields of a string laid out as [HH:MM:SS.FF], two digits each. *)
Definition two_digit_fields (s : string) : option (Z * Z * Z * Z) :=
  match list_ascii_of_string s with
  | [h1; h2; c1; m1; m2; c2; s1; s2; c3; f1; f2] =>
      if Ascii.eqb c1 ":" && Ascii.eqb c2 ":" && Ascii.eqb c3 "." then
        match two_digits h1 h2, two_digits m1 m2, two_digits s1 s2, two_digits f1 f2 with
        | Some h, Some m, Some s, Some f => Some (h, m, s, f)
        | _, _, _, _ => None
        end
      else None
  | _ => None
  end.

Definition recombine (fields : Z * Z * Z * Z) : Z :=
  let '(hours, minutes, seconds, frames) := fields in
  hours * 3600 * 25 + minutes * 60 * 25 + seconds * 25 + frames.

(** Consecutive dashboard updates (newest first) lie at least the throttle
    interval apart. *)
Fixpoint spaced (l : list snapshot) : Prop :=
  match l with
  | a :: (b :: _) as t => (snap_time b + THROTTLE_INTERVAL <= snap_time a)%Q /\ spaced t
  | _ => True
  end.

(** The dashboard numbers do not decrease from [a] to [b]. *)
Definition counts_le (a b : VhsDecodeApp) : Prop :=
  dropped_field_count a <= dropped_field_count b
  /\ track_skip_count a <= track_skip_count b.

(** Concrete clocks for the examples: the n-th reading is [3 n], [5 n]
    seconds. *)
Definition clock3 (n : nat) : Q := inject_Z (3 * Z.of_nat n).

Definition clock5 (n : nat) : Q := inject_Z (5 * Z.of_nat n).

(** A run in progress under [clock3], its process spawned. *)
Definition running3 : VhsDecodeApp :=
  popen (_start_decoding clock3 (init clock3) "capture.flac" true).

(** [format_02d n] is two digits that read back as [n]. *)
Definition two_digit_ok (n : nat) : bool :=
  match list_ascii_of_string (format_02d (Z.of_nat n)) with
  | [a; b] =>
      match two_digits a b with
      | Some v => v =? Z.of_nat n
      | None => false
      end
  | _ => false
  end.

(** ** The reader thread *)

(** [str.rstrip()] and [str.strip()]. *)
Fixpoint rstrip (s : string) : string :=
  match s with
  | EmptyString => EmptyString
  | String c t =>
      let t' := rstrip t in
      if is_space c && String.eqb t' "" then EmptyString else String c t'
  end.

Definition strip (s : string) : string := rstrip (lstrip s).


(** What [subprocess.Popen] does in [_run_decode_process]: it starts the
    process, raises [FileNotFoundError], or raises another exception, whose
    type name and text, joined by a colon, are [description]. *)
Inductive spawn : Type :=
| Spawned
| NotFound
| OtherError (description : string).

(** The executable name. *)
Definition VHS_DECODE_COMMAND : string := "vhs-decode".

(** The message passed on [FileNotFoundError]. *)
Definition not_found_message : string :=
  "Error: '" ++ VHS_DECODE_COMMAND
  ++ "' not found. Ensure it is installed and in your system PATH.".

(** [_run_decode_process], as the sequence of its effects on the
    application: the callbacks it schedules with [self.after(0, ...)] run
    in the order they were scheduled.  [output] is the lines
    [readline()] returns before the end of the output, and [return_code]
    what [wait()] returns.  As in [_process_output_line], [int()] reads a
    run of digits of any length (Python 3.11 and later refuse more than
    4300 digits by default). *)
Definition _run_decode_process (clock : nat -> Q) (st : VhsDecodeApp)
    (outcome_of_popen : spawn) (output : list string) (return_code : Z)
  : VhsDecodeApp :=
  match outcome_of_popen with
  | Spawned =>
      let st := popen st in
      let st := fold_left (fun st line => _process_output_line clock st (strip line))
                  output st in
      let st := wait st return_code in
      _finalize_decoding clock st return_code None
  | NotFound => _finalize_decoding clock st (-1) (Some not_found_message)
  | OtherError description =>
      _finalize_decoding clock st (-1)
        (Some ("An unexpected error occurred: " ++ description))
  end.

(** The line takes the last branch: it is logged. *)
Definition is_plain (line : string) : bool :=
  match classify line with Some (PlainLine _) => true | _ => false end.

(** The frame number of a progress line. *)
Definition frame_of (line : string) : option Z :=
  match classify line with Some (FrameProgress n) => Some n | _ => None end.


(** ** Views of the log colouring *)

(** No character of the text is the escape character. *)
Definition no_escape (s : string) : bool :=
  forallb (fun c => negb (Ascii.eqb c ESC)) (list_ascii_of_string s).

(** The colour sequence that selects [code]. *)
Definition sgr (code : string) : string := String ESC ("[" ++ code ++ "m").

(** A segment for [text] under [tags], none if the text is empty. *)
Definition segment_of (text : string) (tags : list string) : list segment :=
  if String.eqb text "" then [] else [(text, tags)].

(** The tags after a line's first colour [c] and a second code [u]. *)
Definition tags_after (c u : string) : list string :=
  if String.eqb u "0" || String.eqb u "" then []
  else if mem u color_codes then [u]
  else [c].


(** ** The configuration file *)

Definition QUOTE : ascii := ascii_of_nat 34.

Definition NL : ascii := ascii_of_nat 10.

Definition CR : ascii := ascii_of_nat 13.

Definition CONFIG_KEY : string := "vhsdecodeArguments=".

(** Reading in text mode: [\r\n] and [\r] arrive as [\n]. *)
Fixpoint universal_newlines (raw : string) : string :=
  match raw with
  | EmptyString => EmptyString
  | String c t =>
      if Ascii.eqb c CR then
        match t with
        | String d t' =>
            if Ascii.eqb d NL then String NL (universal_newlines t')
            else String NL (universal_newlines t)
        | EmptyString => String NL EmptyString
        end
      else String c (universal_newlines t)
  end.

(** [f.readlines()]: the lines with their newlines; [cur] is the line
    being gathered. *)
Fixpoint readlines (cur : string) (s : string) : list string :=
  match s with
  | EmptyString => if String.eqb cur "" then [] else [cur]
  | String c t =>
      if Ascii.eqb c NL then (cur ++ String NL "") :: readlines "" t
      else readlines (cur ++ String c "") t
  end.

(** The group and the closing quote at the start of [s]: the characters
    before the first quote, none of them a newline (the group is lazy and
    the dot matches no newline). *)
Fixpoint until_quote (s : string) : option string :=
  match s with
  | EmptyString => None
  | String c t =>
      if Ascii.eqb c QUOTE then Some EmptyString
      else if Ascii.eqb c NL then None
      else option_map (String c) (until_quote t)
  end.

(** The pattern of a setting, the key followed by a quoted lazy group,
    matched at the start of [s]: group 1. *)
Definition setting_match (key s : string) : option string :=
  match strip_prefix (key ++ String QUOTE "") s with
  | Some r => until_quote r
  | None => None
  end.

(** [re.search] of that pattern in [content]: group 1 of the leftmost
    match. *)
Fixpoint setting_search (key content : string) : option string :=
  match setting_match key content with
  | Some g => Some g
  | None =>
      match content with
      | String _ t => setting_search key t
      | EmptyString => None
      end
  end.

(** [_load_config]: the value [command_args] has afterwards; [file] is the
    content of the configuration file, [None] when it does not exist. *)
Definition _load_config (file : option string) (command_args : string) : string :=
  match file with
  | Some raw =>
      match setting_search CONFIG_KEY (universal_newlines raw) with
      | Some group1 => group1
      | None => command_args
      end
  | None => command_args
  end.

(** The loop of [_save_config] that replaces the first line of the
    setting; [None] when no line holds it. *)
Fixpoint replace_setting (new_line : string) (lines : list string)
  : option (list string) :=
  match lines with
  | [] => None
  | line :: rest =>
      if prefix CONFIG_KEY (strip line) then Some (new_line :: rest)
      else option_map (cons line) (replace_setting new_line rest)
  end.

(** [f.writelines(lines)]. *)
Fixpoint writelines (lines : list string) : string :=
  match lines with
  | [] => EmptyString
  | line :: rest => line ++ writelines rest
  end.

(** The lines [_save_config] reads. *)
Definition config_lines (file : option string) : list string :=
  match file with
  | Some raw => readlines "" (universal_newlines raw)
  | None => []
  end.

(** [s.endswith('\n')]. *)
Fixpoint endswith_newline (s : string) : bool :=
  match s with
  | EmptyString => false
  | String c EmptyString => Ascii.eqb c NL
  | String _ t => endswith_newline t
  end.

Definition config_line (command_args : string) : string :=
  CONFIG_KEY ++ String QUOTE (command_args ++ String QUOTE (String NL "")).

(** [_save_config]: the content of the file afterwards, on a system
    where text mode writes a newline as it is; errors of the file system
    are not modelled. *)
Definition _save_config (command_args : string) (file : option string) : string :=
  let new_line := config_line command_args in
  let lines := config_lines file in
  let lines :=
    match replace_setting new_line lines with
    | Some updated => updated
    | None =>
        let lines :=
          match lines with
          | [] => lines
          | l :: ls =>
              if negb (endswith_newline (List.last ls l))
              then (lines ++ [String NL ""])%list
              else lines
          end in
        (lines ++ [new_line])%list
    end in
  writelines lines.


(** The key with its opening quote. *)
Definition KEYQ : string := CONFIG_KEY ++ String QUOTE "".

(** Arguments that can be written between quotes on one line. *)
Definition quotable (command_args : string) : bool :=
  forallb (fun c => negb (Ascii.eqb c QUOTE) && negb (Ascii.eqb c NL)
                    && negb (Ascii.eqb c CR))
    (list_ascii_of_string command_args).

Definition has (x : ascii) (s : string) : bool :=
  existsb (Ascii.eqb x) (list_ascii_of_string s).

(** Empty, or ending in a newline. *)
Definition whole_lines (s : string) : Prop :=
  s = "" \/ exists q, s = q ++ String NL "".


(** ** Paths ([posixpath]) *)

(** [s.rpartition(c)] without the separator: the text before the last [c]
    and the text after it; [None] when [c] does not occur. *)
Fixpoint rsplit (c : ascii) (s : string) : option (string * string) :=
  match s with
  | EmptyString => None
  | String x t =>
      match rsplit c t with
      | Some (a, b) => Some (String x a, b)
      | None => if Ascii.eqb x c then Some (EmptyString, t) else None
      end
  end.

(** [s.rstrip('/')]. *)
Fixpoint rstrip_slash (s : string) : string :=
  match s with
  | EmptyString => EmptyString
  | String c t =>
      let t' := rstrip_slash t in
      if Ascii.eqb c "/" && String.eqb t' "" then EmptyString else String c t'
  end.

(** [os.path.basename(p)]: [p[i:]] with [i = p.rfind('/') + 1]. *)
Definition basename (p : string) : string :=
  match rsplit "/" p with
  | Some (_, tail) => tail
  | None => p
  end.

(** [os.path.dirname(p)]: [p[:i]], its trailing slashes removed unless it
    is made of slashes only. *)
Definition dirname (p : string) : string :=
  match rsplit "/" p with
  | Some (before, _) =>
      let head := before ++ "/" in
      if String.eqb (rstrip_slash head) "" then head else rstrip_slash head
  | None => EmptyString
  end.

Definition all_dots (s : string) : bool :=
  forallb (fun c => Ascii.eqb c ".") (list_ascii_of_string s).

(** [os.path.splitext(p)[0]] for a name without a slash: the name up to
    its last dot, unless only dots come before that dot. *)
Definition splitext_root (name : string) : string :=
  match rsplit "." name with
  | Some (root, _) => if all_dots root then name else root
  | None => name
  end.

(** [a.endswith('/')]. *)
Fixpoint endswith_slash (a : string) : bool :=
  match a with
  | EmptyString => false
  | String c EmptyString => Ascii.eqb c "/"
  | String _ t => endswith_slash t
  end.

(** [os.path.join(a, b)]. *)
Definition join (a b : string) : string :=
  if prefix "/" b then b
  else if String.eqb a "" || endswith_slash a then a ++ b
  else a ++ "/" ++ b.

(** The output prefix [_start_decoding] passes to the decoder. *)
Definition decode_output_path (input_path : string) : string :=
  let input_dir := dirname input_path in
  let input_basename := basename input_path in
  let filename_only := splitext_root input_basename in
  let output_filename := filename_only ++ "-Decoded" in
  join input_dir output_filename.

(** The file [_open_ld_analyse] and [_video_export] open. *)
Definition tbc_path (input_path : string) : string :=
  let input_dir := dirname input_path in
  let input_basename := basename input_path in
  let filename_only := splitext_root input_basename in
  join input_dir (filename_only ++ "-Decoded.tbc").

(** The output base of [_video_export]. *)
Definition export_output_base (input_path : string) : string :=
  let input_dir := dirname input_path in
  let input_basename := basename input_path in
  let filename_only := splitext_root input_basename in
  join input_dir (filename_only ++ "-export").


Definition no_char (c : ascii) (s : string) : bool :=
  forallb (fun x => negb (Ascii.eqb x c)) (list_ascii_of_string s).


(** ** The video export *)

Definition EXPORT_KEY : string := "videoExportArguments=".

(** [export_args] as [_video_export] reads it from the configuration
    file; [file] is the content of the file, [None] when it does not
    exist. *)
Definition export_args (file : option string) : string :=
  match file with
  | Some raw =>
      match setting_search EXPORT_KEY (universal_newlines raw) with
      | Some group1 => group1
      | None => ""
      end
  | None => ""
  end.

(** [str(n)] for an integer. *)
Definition str_of_int (n : Z) : string := NilZero.string_of_int (Z.to_int n).

(** The application state with the two attributes of the export. *)
Record ExportState : Type := mkExport {
  gui : VhsDecodeApp;
  export_in_progress : bool;
  export_process : option Popen
}.

Definition set_gui (v : VhsDecodeApp) (st : ExportState) : ExportState :=
  mkExport v (export_in_progress st) (export_process st).

Definition set_export_in_progress (v : bool) (st : ExportState) : ExportState :=
  mkExport (gui st) v (export_process st).

Definition set_export_process (v : option Popen) (st : ExportState) : ExportState :=
  mkExport (gui st) (export_in_progress st) v.

(** [self.log_output(text)] from the export. *)
Definition log_export (text : string) (st : ExportState) : ExportState :=
  set_gui (log (LogText text) (gui st)) st.

(** [Popen.send_signal]: like [terminate], nothing is sent once the
    return code is known. *)
Definition send_signal (p : Popen) : Popen := terminate p.

(** The class [[\d.]]. *)
Definition is_digit_or_dot (c : ascii) : bool := is_digit c || Ascii.eqb c ".".

(** [c+] for a class of characters, at the start of [s]: the longest run
    and the rest, when the run is not empty. *)
Definition plus (f : ascii -> bool) (s : string) : option (string * string) :=
  match span f s with
  | (EmptyString, _) => None
  | (run, rest) => Some (run, rest)
  end.

(** [progress_pattern], that is
    [Info:\s+(\d+)\s+frames processed\s+-\s+([\d.]+)\s+FPS], matched at the
    start of [s]: groups 1 and 2.  Each run is the longest one, since the
    class of a run and what has to follow it are disjoint. *)
Definition progress_pattern_match (s : string) : option (string * string) :=
  match strip_prefix "Info:" s with
  | None => None
  | Some r =>
  match plus is_space r with
  | None => None
  | Some (_, r) =>
  match plus is_digit r with
  | None => None
  | Some (group1, r) =>
  match plus is_space r with
  | None => None
  | Some (_, r) =>
  match strip_prefix "frames processed" r with
  | None => None
  | Some r =>
  match plus is_space r with
  | None => None
  | Some (_, r) =>
  match strip_prefix "-" r with
  | None => None
  | Some r =>
  match plus is_space r with
  | None => None
  | Some (_, r) =>
  match plus is_digit_or_dot r with
  | None => None
  | Some (group2, r) =>
  match plus is_space r with
  | None => None
  | Some (_, r) => if prefix "FPS" r then Some (group1, group2) else None
  end end end end end end end end end end.

(** [progress_pattern.search(line)]: the groups of the leftmost match. *)
Fixpoint progress_pattern_search (line : string) : option (string * string) :=
  match progress_pattern_match line with
  | Some groups => Some groups
  | None =>
      match line with
      | String _ t => progress_pattern_search t
      | EmptyString => None
      end
  end.

(** [float(s)] for a text of digits and dots, which is what group 2
    holds: a number when the text has at most one dot and at least one
    digit, [ValueError] otherwise.  The number is the decimal fraction as
    written. *)
Definition float_of_decimal (s : string) : result Q :=
  let (whole, rest) := span is_digit s in
  match rest with
  | EmptyString =>
      if String.eqb whole "" then Raise ValueError
      else Ok (inject_Z (digits_value whole))
  | String c fraction =>
      if Ascii.eqb c "."
         && forallb is_digit (list_ascii_of_string fraction)
         && negb (String.eqb whole "" && String.eqb fraction "")
      then Ok (inject_Z (digits_value (whole ++ fraction))
               / inject_Z (10 ^ Z.of_nat (String.length fraction)))%Q
      else Raise ValueError
  end.

(** The texts of the two [ValueError]s. *)
Definition float_error (s : string) : string :=
  "could not convert string to float: '" ++ s ++ "'".

Definition int_error (s : string) : string :=
  "invalid literal for int() with base 10: '" ++ s ++ "'".

(** [_update_export_status]. *)
Definition _update_export_status (st : ExportState) (frames : Z) (fps : Q) : ExportState :=
  let g := gui st in
  let g := set_current_frame frames g in
  let g := set_decode_fps (FpsValue fps) g in
  let g := set_timecode (timecode_of_frame frames) g in
  set_gui g st.

(** [_finalize_export]. *)
Definition _finalize_export (st : ExportState) (return_code : Z) : ExportState :=
  let st := set_export_in_progress false st in
  let st := set_export_process None st in
  if return_code =? 0 then log_export "Video Export finished successfully." st
  else log_export ("Video Export finished with error code " ++ str_of_int return_code) st.

(** [_cancel_export]. *)
Definition _cancel_export (st : ExportState) : ExportState :=
  match export_in_progress st, export_process st with
  | true, Some p =>
      let st := log_export (String NL "--- User requested export cancellation... ---") st in
      set_export_process (Some (send_signal p)) st
  | _, _ => st
  end.

(** The loop of [_run_export_process] over the lines read: the state
    after the callbacks it has scheduled, and the text of the exception
    that ended it, if one did. *)
Fixpoint export_read (st : ExportState) (output : list string)
  : ExportState * option string :=
  match output with
  | [] => (st, None)
  | line :: rest =>
      if String.eqb line "" then export_read st rest
      else
        let line_stripped := strip line in
        match progress_pattern_search line_stripped with
        | Some (group1, group2) =>
            match Py.int (PyStr group1) with
            | Ok frames =>
                match float_of_decimal group2 with
                | Ok fps =>
                    let st := _update_export_status st frames fps in
                    export_read (log_export line_stripped st) rest
                | Raise _ => (st, Some (float_error group2))
                end
            | Raise _ => (st, Some (int_error group1))
            end
        | None => export_read (log_export line_stripped st) rest
        end
  end.

(** [_run_export_process], as the sequence of its effects on the
    application; [popen_error] is the text of the exception
    [subprocess.Popen] raised, [None] when the process was started. *)
Definition _run_export_process (st : ExportState) (popen_error : option string)
    (output : list string) (return_code : Z) : ExportState :=
  match popen_error with
  | Some e => _finalize_export (log_export ("Failed to run command: " ++ e) st) (-1)
  | None =>
      let st := set_export_process (Some (mkPopen None O)) st in
      match export_read st output with
      | (st, None) =>
          let st :=
            set_export_process
              (option_map (fun p => mkPopen (Some return_code) (signals_sent p))
                 (export_process st)) st in
          _finalize_export st return_code
      | (st, Some e) =>
          _finalize_export (log_export ("Failed to run command: " ++ e) st) (-1)
      end
  end.

(** What a line of the export output reports, when it is a progress line
    whose numbers can be read. *)
Definition progress_of (line : string) : option (Z * Q) :=
  match progress_pattern_search (strip line) with
  | Some (group1, group2) =>
      match Py.int (PyStr group1), float_of_decimal group2 with
      | Ok frames, Ok fps => Some (frames, fps)
      | _, _ => None
      end
  | None => None
  end.

(** The line is no progress line, or its numbers can be read. *)
Definition readable (line : string) : bool :=
  match progress_pattern_search (strip line) with
  | Some _ => match progress_of line with Some _ => true | None => false end
  | None => true
  end.


(** The lines that reach the loop body. *)
Definition nonempty (line : string) : bool := negb (String.eqb line "").

(** The last line [_finalize_export] logs. *)
Definition export_finished (return_code : Z) : string :=
  if return_code =? 0 then "Video Export finished successfully."
  else "Video Export finished with error code " ++ str_of_int return_code.


(** The lists [f.readlines()] returns: lines that end in their only
    newline, the last one possibly without a newline and then not
    empty. *)
Inductive Lines : list string -> Prop :=
| Lines_nil : Lines []
| Lines_last (p : string) : has NL p = false -> p <> "" -> Lines [p]
| Lines_cons (p : string) (rest : list string) :
    has NL p = false -> Lines rest -> Lines ((p ++ String NL "") :: rest).


(** ** Integer literals *)

(** The digits after the first one: digits, each optionally preceded by
    one underscore. *)
Inductive digit_tail : string -> Prop :=
| digit_tail_end : digit_tail ""
| digit_tail_digit (c : ascii) (t : string) :
    is_digit c = true -> digit_tail t -> digit_tail (String c t)
| digit_tail_underscore (c : ascii) (t : string) :
    is_digit c = true -> digit_tail t -> digit_tail (String "_" (String c t)).

(** A text that writes an integer in base 10: white space, an optional
    sign, a digit, more digits, white space. *)
Definition int_literal (s : string) : Prop :=
  exists lead sign d tail trail,
    s = lead ++ sign ++ String d tail ++ trail
    /\ all_int_space lead = true
    /\ (sign = "" \/ sign = "+" \/ sign = "-")
    /\ is_digit d = true
    /\ digit_tail tail
    /\ all_int_space trail = true.

(** An argument that is no number: [None], a text that is not an integer
    literal, or the float NaN. *)
Definition non_numeric (v : pyval) : Prop :=
  match v with
  | PyNone => True
  | PyInt _ => False
  | PyStr s => ~ int_literal s
  | PyFloat x => x = NaN
  end.


(** A clock reading taken and not used further. *)
Definition tick (st : VhsDecodeApp) : VhsDecodeApp := set_ticks (S (ticks st)) st.

(** Reduction of the field accessors and setters alone. *)
Ltac fields :=
  cbn [current_frame timecode decode_fps dropped_field_count track_skip_count
       decoding_in_progress process start_time last_frame last_time
       last_gui_update_time frame_buffer dropped_field_buffer track_skip_buffer
       status_message cancel_button_enabled log_text_area ticks updates
       set_current_frame set_timecode set_decode_fps set_dropped_field_count
       set_track_skip_count set_decoding_in_progress set_process set_start_time
       set_last_frame set_last_time set_last_gui_update_time set_frame_buffer
       set_dropped_field_buffer set_track_skip_buffer set_status_message
       set_cancel_button_enabled set_log_text_area set_ticks set_updates
       log tick fst snd].

Tactic Notation "fields" "in" "*" :=
  cbn [current_frame timecode decode_fps dropped_field_count track_skip_count
       decoding_in_progress process start_time last_frame last_time
       last_gui_update_time frame_buffer dropped_field_buffer track_skip_buffer
       status_message cancel_button_enabled log_text_area ticks updates
       set_current_frame set_timecode set_decode_fps set_dropped_field_count
       set_track_skip_count set_decoding_in_progress set_process set_start_time
       set_last_frame set_last_time set_last_gui_update_time set_frame_buffer
       set_dropped_field_buffer set_track_skip_buffer set_status_message
       set_cancel_button_enabled set_log_text_area set_ticks set_updates
       log tick fst snd] in *.

(** * Properties *)

(** ** The float arithmetic of the timecode *)

Section Timecode.


Lemma pow2_pos (e : Z) : (0 < pow2 e)%Q.
Proof. apply Qpower_0_lt. reflexivity. Qed.

Lemma pow2_le (e1 e2 : Z) : e1 <= e2 -> (pow2 e1 <= pow2 e2)%Q.
Proof. intros H. apply Qpower_le_compat_l; [exact H | discriminate]. Qed.

Lemma pow2_lt_inv (e1 e2 : Z) : (pow2 e1 < pow2 e2)%Q -> e1 < e2.
Proof. intros H. apply (Qpower_lt_compat_l_inv 2); [exact H | reflexivity]. Qed.

Lemma pow2_Z (e : Z) : 0 <= e -> (pow2 e == inject_Z (2 ^ e))%Q.
Proof. intros H. unfold pow2. rewrite Zpower_Qpower by exact H. reflexivity. Qed.

Lemma pow2_neg (e : Z) : e <= 0 -> (pow2 e * inject_Z (2 ^ (- e)) == 1)%Q.
Proof.
  intros H. rewrite <- (pow2_Z (- e)) by lia. unfold pow2.
  rewrite <- Qpower_plus by discriminate.
  replace (e + - e) with 0 by lia. reflexivity.
Qed.

Lemma pow2_succ (e : Z) : (pow2 (e + 1) == 2 * pow2 e)%Q.
Proof.
  unfold pow2. rewrite Qpower_plus by discriminate. change (2 ^ 1)%Q with 2%Q. ring.
Qed.

(** The exponent found is not too large. *)
Lemma ilog2_le (a : Q) : (0 < a)%Q -> (pow2 (ilog2 a) <= a)%Q.
Proof.
  intros Ha. unfold ilog2.
  set (k := Z.log2 (Qnum a) - Z.log2 (Z.pos (Qden a))).
  destruct (Qle_bool (pow2 k) a) eqn:E; [apply Qle_bool_iff, E |].
  destruct a as [n d]. cbn [Qnum Qden] in *.
  assert (Hn : 0 < n) by (unfold Qlt in Ha; cbn in Ha; lia).
  pose proof (Z.log2_spec n Hn) as (Ln & _).
  pose proof (Z.log2_spec (Z.pos d) ltac:(lia)) as (_ & Ld).
  pose proof (Z.log2_nonneg n) as Nn.
  pose proof (Z.log2_nonneg (Z.pos d)) as Nd.
  set (ln := Z.log2 n) in *. set (ld := Z.log2 (Z.pos d)) in *.
  assert (P : (pow2 (k - 1) * pow2 (ld + 1) == pow2 ln)%Q).
  { unfold pow2. rewrite <- Qpower_plus by discriminate.
    replace (k - 1 + (ld + 1)) with ln by (unfold k; lia). reflexivity. }
  rewrite (pow2_Z ln Nn), (pow2_Z (ld + 1)) in P by lia.
  pose proof (pow2_pos (k - 1)) as Pk.
  assert (Q1 : (inject_Z (2 ^ ln) <= inject_Z n)%Q) by (rewrite <- Zle_Qle; exact Ln).
  assert (Q2 : (inject_Z (Z.pos d) < inject_Z (2 ^ Z.succ ld))%Q)
    by (rewrite <- Zlt_Qlt; exact Ld).
  replace (Z.succ ld) with (ld + 1) in Q2 by lia.
  assert (Q3 : (n # d == inject_Z n / inject_Z (Z.pos d))%Q) by apply Qmake_Qdiv.
  assert (Q4 : (0 < inject_Z (Z.pos d))%Q) by (rewrite <- (Zlt_Qlt 0); lia).
  rewrite Q3. apply Qle_shift_div_l; [exact Q4 |].
  apply Qle_trans with (pow2 (k - 1) * inject_Z (2 ^ (ld + 1)))%Q.
  - apply Qmult_le_l; [exact Pk | apply Qlt_le_weak, Q2].
  - rewrite P. exact Q1.
Qed.

Lemma ilog2_lt (a : Q) (K : Z) : (0 < a)%Q -> (a < pow2 K)%Q -> ilog2 a < K.
Proof.
  intros Ha H. apply pow2_lt_inv.
  apply Qle_lt_trans with a; [apply ilog2_le, Ha | exact H].
Qed.

Lemma round_half_even_int (x : Q) (z : Z) :
  (x == inject_Z z)%Q -> round_half_even x = z.
Proof.
  intros H. unfold round_half_even.
  assert (F : Qfloor x = z) by (rewrite (Qfloor_comp _ _ H); apply Qfloor_Z).
  rewrite F.
  destruct (Qcompare_spec (x - inject_Z z) (1 # 2)) as [C | C | C];
    [exfalso; lra | reflexivity | exfalso; lra].
Qed.

Lemma round_half_even_near (x : Q) :
  (inject_Z (round_half_even x) - (1 # 2) <= x
   /\ x <= inject_Z (round_half_even x) + (1 # 2))%Q.
Proof.
  unfold round_half_even.
  pose proof (Qfloor_le x) as L. pose proof (Qlt_floor x) as U.
  rewrite inject_Z_plus in U. change (inject_Z 1) with 1%Q in U.
  set (f := Qfloor x) in *.
  destruct (Qcompare_spec (x - inject_Z f) (1 # 2)) as [C | C | C].
  - destruct (Z.even f); [| rewrite inject_Z_plus; change (inject_Z 1) with 1%Q]; lra.
  - lra.
  - rewrite inject_Z_plus. change (inject_Z 1) with 1%Q. lra.
Qed.

(** A whole number of at most 53 bits is a float. *)
Lemma nearest_float_int (x : Q) (n : Z) :
  (x == inject_Z n)%Q -> Z.abs n < 2 ^ 53 -> (nearest_float x == inject_Z n)%Q.
Proof.
  intros H Hn. unfold nearest_float.
  destruct (Qeq_bool x 0) eqn:E0.
  - apply Qeq_bool_iff in E0. rewrite <- H, E0. reflexivity.
  - apply Qeq_bool_neq in E0.
    assert (Hz : n <> 0).
    { intros ->. apply E0. rewrite H. reflexivity. }
    assert (Ha : (Qabs x == inject_Z (Z.abs n))%Q).
    { rewrite H. unfold inject_Z. rewrite <- Zabs_Qabs. reflexivity. }
    assert (Hpos : (0 < Qabs x)%Q).
    { rewrite Ha. rewrite <- (Zlt_Qlt 0). lia. }
    assert (Hlt : (Qabs x < pow2 53)%Q).
    { rewrite Ha, (pow2_Z 53) by lia. rewrite <- Zlt_Qlt. exact Hn. }
    pose proof (ilog2_lt _ 53 Hpos Hlt) as Hk.
    set (e := Z.max (ilog2 (Qabs x) - 52) (-1074)).
    assert (He : e <= 0) by (unfold e; lia).
    pose proof (pow2_neg e He) as P. pose proof (pow2_pos e) as Pp.
    assert (S : (Qabs x / pow2 e == inject_Z (Z.abs n * 2 ^ (- e)))%Q).
    { apply (Qmult_inj_r _ _ (pow2 e)); [lra |].
      rewrite (Qmult_comm (Qabs x / pow2 e)), Qmult_div_r by lra.
      rewrite Ha, inject_Z_mult.
      transitivity (inject_Z (Z.abs n) * (pow2 e * inject_Z (2 ^ (- e))))%Q;
        [rewrite P; ring | ring]. }
    rewrite (round_half_even_int _ _ S).
    assert (R : (inject_Z (Z.abs n * 2 ^ (- e)) * pow2 e == inject_Z (Z.abs n))%Q).
    { rewrite inject_Z_mult, <- Qmult_assoc, (Qmult_comm _ (pow2 e)), P. ring. }
    destruct (Qle_bool 0 x) eqn:Es.
    + apply Qle_bool_iff in Es. rewrite R. rewrite H in Es.
      rewrite <- (Zle_Qle 0) in Es. rewrite Z.abs_eq by exact Es. reflexivity.
    + assert (Hneg : ~ (0 <= x)%Q) by (rewrite <- Qle_bool_iff, Es; discriminate).
      rewrite R. rewrite H in Hneg. rewrite <- (Zle_Qle 0) in Hneg.
      rewrite Z.abs_neq by lia. rewrite inject_Z_opp. ring.
Qed.

(** Below [2^49] the nearest float is within [1/32]. *)
Lemma nearest_float_near (x : Q) :
  (0 < x)%Q -> (x < pow2 49)%Q -> (x - (1 # 32) <= nearest_float x /\ nearest_float x <= x + (1 # 32))%Q.
Proof.
  intros Hx Hlt. unfold nearest_float.
  assert (E0 : Qeq_bool x 0 = false).
  { destruct (Qeq_bool x 0) eqn:E; [| reflexivity].
    apply Qeq_bool_iff in E. lra. }
  rewrite E0.
  assert (Es : Qle_bool 0 x = true) by (apply Qle_bool_iff; lra).
  rewrite Es.
  assert (Ha : (Qabs x == x)%Q) by (apply Qabs_pos; lra).
  assert (Hpos : (0 < Qabs x)%Q) by (rewrite Ha; exact Hx).
  assert (Hlt' : (Qabs x < pow2 49)%Q) by (rewrite Ha; exact Hlt).
  pose proof (ilog2_lt _ 49 Hpos Hlt') as Hk.
  set (e := Z.max (ilog2 (Qabs x) - 52) (-1074)).
  assert (He : e <= -4) by (unfold e; lia).
  pose proof (pow2_pos e) as Pp.
  pose proof (pow2_le e (-4) He) as Pl. change (pow2 (-4)) with (1 # 16)%Q in Pl.
  set (p := pow2 e) in *.
  pose proof (round_half_even_near (Qabs x / p)) as (N1 & N2).
  set (m := inject_Z (round_half_even (Qabs x / p))) in *.
  assert (S : (Qabs x / p * p == x)%Q).
  { rewrite Ha. field. lra. }
  set (s := (Qabs x / p)%Q) in *.
  split; nra.
Qed.


Lemma Qfloor_unique (y : Q) (k : Z) :
  (inject_Z k <= y)%Q -> (y < inject_Z (k + 1))%Q -> Qfloor y = k.
Proof.
  intros L U.
  pose proof (Qfloor_resp_le _ _ L) as H1. rewrite Qfloor_Z in H1.
  pose proof (Qfloor_le y) as H2.
  assert (H3 : (inject_Z (Qfloor y) < inject_Z (k + 1))%Q) by lra.
  rewrite <- Zlt_Qlt in H3. lia.
Qed.

Lemma int_of_float_int (x : Q) (z : Z) : (x == inject_Z z)%Q -> int_of_float x = z.
Proof.
  intros H. unfold int_of_float. destruct (Qle_bool 0 x).
  - rewrite (Qfloor_comp _ _ H). apply Qfloor_Z.
  - rewrite (Qceiling_comp _ _ H). apply Qceiling_Z.
Qed.

Lemma Qfloor_div_pos (x : Q) (m : positive) :
  Qfloor (x / inject_Z (Zpos m)) = Qfloor x / Zpos m.
Proof.
  destruct x as [n d]. unfold Qdiv, Qinv, Qmult, Qfloor, inject_Z. simpl.
  rewrite Z.mul_1_r, Pos2Z.inj_mul, Z.div_div by lia. reflexivity.
Qed.

Lemma Qfloor_sub_Z (x : Q) (k : Z) :
  Qfloor (x - inject_Z k) = Qfloor x - k.
Proof.
  destruct x as [n d]. unfold Qminus, Qplus, Qopp, Qfloor, inject_Z. simpl.
  rewrite Z.mul_1_r, Pos.mul_1_r.
  replace (n + - k * Z.pos d) with (n + (- k) * Z.pos d) by lia.
  rewrite Z.div_add by lia. lia.
Qed.

(** The remainder [fmod] leaves for a dividend that is not negative and a
    positive whole divisor. *)
Lemma fmod_nonneg (x : Q) (m : positive) :
  (0 <= x)%Q ->
  (fmod x (inject_Z (Zpos m)) == x - inject_Z (Zpos m * (Qfloor x / Zpos m)))%Q
  /\ (0 <= fmod x (inject_Z (Zpos m)))%Q
  /\ Qfloor (fmod x (inject_Z (Zpos m))) = Qfloor x mod Zpos m.
Proof.
  intros Hx. unfold fmod.
  assert (Hm : (0 < inject_Z (Z.pos m))%Q) by (rewrite <- (Zlt_Qlt 0); lia).
  assert (Hd : (0 <= x / inject_Z (Z.pos m))%Q) by (apply Qle_shift_div_l; lra).
  assert (T : int_of_float (x / inject_Z (Z.pos m)) = Qfloor x / Z.pos m).
  { unfold int_of_float. apply Qle_bool_iff in Hd. rewrite Hd. apply Qfloor_div_pos. }
  rewrite T.
  assert (E : (x - inject_Z (Z.pos m) * inject_Z (Qfloor x / Z.pos m)
               == x - inject_Z (Z.pos m * (Qfloor x / Z.pos m)))%Q).
  { rewrite inject_Z_mult. reflexivity. }
  assert (F : Qfloor (x - inject_Z (Z.pos m) * inject_Z (Qfloor x / Z.pos m))
              = Qfloor x mod Z.pos m).
  { rewrite (Qfloor_comp _ _ E), Qfloor_sub_Z, Z.mod_eq by lia. reflexivity. }
  split; [exact E |]. split; [| exact F].
  rewrite E.
  pose proof (Z.mul_div_le (Qfloor x) (Z.pos m) ltac:(lia)) as H1.
  pose proof (Qfloor_le x) as H2.
  assert (H3 : (inject_Z (Z.pos m * (Qfloor x / Z.pos m)) <= inject_Z (Qfloor x))%Q)
    by (rewrite <- Zle_Qle; exact H1).
  lra.
Qed.

Lemma negative_nonneg (x : Q) : (0 <= x)%Q -> negative x = false.
Proof. intros H. unfold negative. apply Qle_bool_iff in H. rewrite H. reflexivity. Qed.

(** [int(x % m)] for [x] not negative and a positive whole [m] is the
    floor of [x] modulo [m]. *)
Lemma int_of_float_mod (x : Q) (m : positive) :
  (0 <= x)%Q ->
  int_of_float (mod_ x (inject_Z (Zpos m))) = Qfloor x mod Zpos m.
Proof.
  intros Hx. destruct (fmod_nonneg x m Hx) as (_ & Hn & Hf).
  unfold mod_. rewrite (negative_nonneg _ Hn).
  assert (Hm : (0 <= inject_Z (Z.pos m))%Q) by (rewrite <- (Zle_Qle 0); lia).
  rewrite (negative_nonneg _ Hm). cbn [xorb]. rewrite andb_false_r.
  unfold int_of_float. apply Qle_bool_iff in Hn. rewrite Hn. exact Hf.
Qed.

(** [x // m] for a float [x] that is not negative and a positive whole
    [m] is the whole quotient, whatever the rounding of each step. *)
Lemma floordiv_nonneg (x : Q) (m : positive) :
  (0 <= x)%Q -> Qfloor x < 2 ^ 53 ->
  (floordiv x (inject_Z (Zpos m)) == inject_Z (Qfloor x / Zpos m))%Q.
Proof.
  intros Hx Hlt. destruct (fmod_nonneg x m Hx) as (He & Hn & _).
  assert (Hm : (0 < inject_Z (Z.pos m))%Q) by (rewrite <- (Zlt_Qlt 0); lia).
  assert (H0 : 0 <= Qfloor x).
  { pose proof (Qfloor_resp_le _ _ Hx) as H. exact H. }
  set (q := Qfloor x / Z.pos m) in *.
  assert (Hq : 0 <= q) by (apply Z.div_pos; lia).
  pose proof (Z.mul_div_le (Qfloor x) (Z.pos m) ltac:(lia)) as Hmq. fold q in Hmq.
  assert (Hq' : q <= Z.pos m * q) by nia.
  unfold floordiv.
  rewrite (negative_nonneg _ Hn), (negative_nonneg _ (Qlt_le_weak _ _ Hm)).
  cbn [xorb]. rewrite andb_false_r.
  set (r := fmod x (inject_Z (Z.pos m))) in *.
  assert (D1 : (nearest_float (x - r) == inject_Z (Z.pos m * q))%Q).
  { apply nearest_float_int; [rewrite He; ring | rewrite Z.abs_eq by lia; lia]. }
  assert (D2 : (nearest_float (nearest_float (x - r) / inject_Z (Z.pos m)) == inject_Z q)%Q).
  { apply nearest_float_int; [| rewrite Z.abs_eq by lia; lia].
    rewrite D1, inject_Z_mult. field. lra. }
  set (div := nearest_float (nearest_float (x - r) / inject_Z (Z.pos m))) in *.
  destruct (Qeq_bool div 0) eqn:E0.
  - apply Qeq_bool_iff in E0. rewrite <- D2, E0. reflexivity.
  - assert (F : Qfloor div = q) by (rewrite (Qfloor_comp _ _ D2); apply Qfloor_Z).
    rewrite F.
    assert (Z0 : (nearest_float (div - inject_Z q) == inject_Z 0)%Q).
    { apply nearest_float_int; [rewrite D2; unfold inject_Z; ring | reflexivity]. }
    assert (B : Qle_bool (nearest_float (div - inject_Z q)) (1 # 2) = true).
    { apply Qle_bool_iff. rewrite Z0. discriminate. }
    rewrite B. reflexivity.
Qed.

(** The seconds of a frame number below [2^53]: dividing by 25 rounds, but
    never across a whole number. *)
Lemma total_seconds_floor (x : Q) (f : Z) :
  0 <= f < 2 ^ 53 -> (x == inject_Z f / 25)%Q ->
  (0 <= nearest_float x)%Q /\ Qfloor (nearest_float x) = f / 25.
Proof.
  intros Hf H.
  pose proof (Z.div_mod f 25 ltac:(lia)) as D.
  pose proof (Z.mod_pos_bound f 25 ltac:(lia)) as R.
  set (k := f / 25) in *. set (r := f mod 25) in *.
  assert (Hk : 0 <= k) by (apply Z.div_pos; lia).
  assert (X : (x == inject_Z k + inject_Z r * (1 # 25))%Q).
  { rewrite H, D, inject_Z_plus, inject_Z_mult. change (inject_Z 25) with 25%Q. field. }
  clearbody k r.
  assert (Qr : (0 <= inject_Z r)%Q /\ (inject_Z r <= 24)%Q).
  { change 24%Q with (inject_Z 24). rewrite <- (Zle_Qle 0), <- Zle_Qle. lia. }
  assert (Qk : (0 <= inject_Z k)%Q) by (rewrite <- (Zle_Qle 0); exact Hk).
  destruct (Z.eq_dec r 0) as [E | E].
  - assert (I : (nearest_float x == inject_Z k)%Q).
    { apply nearest_float_int; [rewrite X, E; unfold inject_Z; ring |].
      rewrite Z.abs_eq by lia. lia. }
    split; [rewrite I; exact Qk | rewrite (Qfloor_comp _ _ I); apply Qfloor_Z].
  - assert (Qr1 : (1 <= inject_Z r)%Q).
    { change 1%Q with (inject_Z 1). rewrite <- Zle_Qle. lia. }
    assert (P : (0 < x)%Q) by lra.
    assert (U : (x < pow2 49)%Q).
    { rewrite (pow2_Z 49) by lia.
      change (inject_Z (2 ^ 49)) with 562949953421312%Q.
      assert (K : (inject_Z k <= 562949953421310)%Q).
      { change 562949953421310%Q with (inject_Z 562949953421310).
        rewrite <- Zle_Qle. lia. }
      lra. }
    destruct (nearest_float_near x P U) as (N1 & N2).
    split; [lra |].
    apply Qfloor_unique; [lra |].
    rewrite inject_Z_plus. change (inject_Z 1) with 1%Q. lra.
Qed.

(** The four numbers of the timecode, in integer arithmetic, for the frame
    numbers a float holds exactly. *)
Lemma timecode_of_frame_fields (f : Z) :
  0 <= f < 2 ^ 53 ->
  timecode_of_frame f =
  (format_02d (f / 25 / 3600) ++ ":" ++ format_02d (f / 25 / 60 mod 60) ++ ":"
  ++ format_02d (f / 25 mod 60) ++ "." ++ format_02d (f mod 25))%string.
Proof.
  intros Hf. unfold timecode_of_frame, truediv, FPS.
  assert (I : (nearest_float (inject_Z f) == inject_Z f)%Q).
  { apply nearest_float_int; [reflexivity | rewrite Z.abs_eq by lia; lia]. }
  assert (I0 : (0 <= nearest_float (inject_Z f))%Q).
  { rewrite I, <- (Zle_Qle 0). lia. }
  assert (T : (nearest_float (inject_Z f) / 25 == inject_Z f / 25)%Q) by (rewrite I; reflexivity).
  destruct (total_seconds_floor _ f Hf T) as (T0 & TF).
  set (frame := nearest_float (inject_Z f)) in *.
  set (ts := nearest_float (frame / 25)) in *.
  assert (Hts : Qfloor ts < 2 ^ 53).
  { rewrite TF. apply Z.div_lt_upper_bound; lia. }
  change 25%Q with (inject_Z 25). change 60%Q with (inject_Z 60).
  change 3600%Q with (inject_Z 3600).
  pose proof (floordiv_nonneg ts 60 T0 Hts) as F60.
  pose proof (floordiv_nonneg ts 3600 T0 Hts) as F3600.
  rewrite TF in F60, F3600.
  assert (N60 : (0 <= floordiv ts (inject_Z 60))%Q).
  { rewrite F60, <- (Zle_Qle 0). apply Z.div_pos; [apply Z.div_pos |]; lia. }
  rewrite (int_of_float_mod frame 25 I0), (int_of_float_mod ts 60 T0),
    (int_of_float_mod _ 60 N60), (int_of_float_int _ _ F3600).
  rewrite (Qfloor_comp _ _ F60), Qfloor_Z, TF, (Qfloor_comp _ _ I), Qfloor_Z.
  reflexivity.
Qed.

Lemma float_of_int_small (f : Z) :
  Z.abs f < 2 ^ 53 -> float_of_int f = Ok (nearest_float (inject_Z f)).
Proof.
  intros Hf. unfold float_of_int.
  assert (I : (nearest_float (inject_Z f) == inject_Z f)%Q)
    by (apply nearest_float_int; [reflexivity | exact Hf]).
  destruct (Qle_bool (pow2 1024) (Qabs (nearest_float (inject_Z f)))) eqn:E; [| reflexivity].
  exfalso. apply Qle_bool_iff in E. rewrite I in E.
  assert (A : (Qabs (inject_Z f) == inject_Z (Z.abs f))%Q).
  { unfold inject_Z. rewrite <- Zabs_Qabs. reflexivity. }
  rewrite A in E.
  assert (B : (inject_Z (Z.abs f) < pow2 53)%Q).
  { rewrite (pow2_Z 53) by lia. rewrite <- Zlt_Qlt. exact Hf. }
  pose proof (pow2_le 53 1024 ltac:(lia)) as C. lra.
Qed.

Lemma convert_frame_small (f : Z) :
  0 <= f < 2 ^ 53 -> convert_frame_to_timecode (PyInt f) = Ok (timecode_of_frame f).
Proof.
  intros Hf. unfold convert_frame_to_timecode. cbn [Py.int].
  rewrite float_of_int_small by (rewrite Z.abs_eq by lia; lia). reflexivity.
Qed.

Lemma two_digit_ok_all : forallb two_digit_ok (seq 0 100) = true.
Proof. vm_compute. reflexivity. Qed.

Lemma format_02d_two_digits (n : Z) :
  0 <= n < 100 ->
  exists a b, format_02d n = String a (String b "") /\ two_digits a b = Some n.
Proof.
  intros Hn.
  pose proof two_digit_ok_all as H.
  rewrite forallb_forall in H.
  specialize (H (Z.to_nat n)).
  assert (Hin : In (Z.to_nat n) (seq 0 100)) by (apply in_seq; lia).
  specialize (H Hin). unfold two_digit_ok in H.
  rewrite Z2Nat.id in H by lia.
  destruct (format_02d n) as [| a [| b [| c s]]]; simpl in H; try discriminate.
  exists a, b. split; [reflexivity |].
  destruct (two_digits a b) as [v |]; [| discriminate].
  apply Z.eqb_eq in H. congruence.
Qed.

Lemma frame_fields_recombine (f : Z) :
  recombine (f / 25 / 3600, f / 25 / 60 mod 60, f / 25 mod 60, f mod 25) = f.
Proof.
  unfold recombine.
  pose proof (Z.div_mod f 25 ltac:(lia)) as H1.
  pose proof (Z.div_mod (f / 25) 60 ltac:(lia)) as H2.
  pose proof (Z.div_mod (f / 25 / 60) 60 ltac:(lia)) as H3.
  replace (f / 25 / 3600) with (f / 25 / 60 / 60)
    by (rewrite (Z.div_div (f / 25) 60 60) by lia; reflexivity).
  lia.
Qed.

(** C6 (as amended): for every frame number below 9,000,000 (100 hours at
    25 frames per second) the timecode is an 11 character string
    [HH:MM:SS.FF] whose four two-digit fields, recombined as
    [hours*3600*25 + minutes*60*25 + seconds*25 + frames], give the frame
    number back. *)
Theorem timecode_round_trip (f : Z) (Hf : 0 <= f < 9000000) :
  exists s fields,
    convert_frame_to_timecode (PyInt f) = Ok s
    /\ two_digit_fields s = Some fields
    /\ recombine fields = f.
Proof.
  exists (timecode_of_frame f),
    (f / 25 / 3600, f / 25 / 60 mod 60, f / 25 mod 60, f mod 25).
  split; [apply convert_frame_small; lia |].
  split; [| apply frame_fields_recombine].
  rewrite timecode_of_frame_fields by lia.
  assert (Hh : 0 <= f / 25 / 3600 < 100).
  { rewrite Z.div_div by lia. split.
    - apply Z.div_pos; lia.
    - apply Z.div_lt_upper_bound; lia. }
  pose proof (Z.mod_pos_bound (f / 25 / 60) 60 ltac:(lia)) as Hm.
  pose proof (Z.mod_pos_bound (f / 25) 60 ltac:(lia)) as Hs.
  pose proof (Z.mod_pos_bound f 25 ltac:(lia)) as Hfr.
  destruct (format_02d_two_digits _ Hh) as (h1 & h2 & Eh & Ph).
  destruct (format_02d_two_digits (f / 25 / 60 mod 60) ltac:(lia)) as (m1 & m2 & Em & Pm).
  destruct (format_02d_two_digits (f / 25 mod 60) ltac:(lia)) as (s1 & s2 & Es & Ps).
  destruct (format_02d_two_digits (f mod 25) ltac:(lia)) as (f1 & f2 & Ef & Pf).
  rewrite Eh, Em, Es, Ef. unfold two_digit_fields. simpl.
  rewrite Ph, Pm, Ps, Pf. reflexivity.
Qed.

Lemma timecode_round_trip_witness :
  exists s fields,
    convert_frame_to_timecode (PyInt 1234567) = Ok s
    /\ two_digit_fields s = Some fields
    /\ recombine fields = 1234567.
Proof. apply (timecode_round_trip 1234567). lia. Defined.

(** C6 as stated fails at 9,000,000 frames: the hours field has three
    digits, so the string is not four two-digit fields. *)
Lemma timecode_round_trip_fails_at_100_hours :
  convert_frame_to_timecode (PyInt 9000000) = Ok "100:00:00.00"
  /\ ~ (exists s fields,
          convert_frame_to_timecode (PyInt 9000000) = Ok s
          /\ two_digit_fields s = Some fields
          /\ recombine fields = 9000000).
Proof.
  split; [vm_compute; reflexivity |].
  intros (s & fields & H1 & H2 & _).
  assert (E : convert_frame_to_timecode (PyInt 9000000) = Ok "100:00:00.00")
    by (vm_compute; reflexivity).
  rewrite E in H1. injection H1 as <-. clear E.
  vm_compute in H2. discriminate H2.
Qed.

(** X1: Past two digits of hours, and as long as a float holds the frame
    number exactly (below [2^53]), the fields still recombine: the
    timecode is the zero-padded decimals of four numbers, the last three
    within their ranges, that give the frame number back. *)
Lemma timecode_numbers_recombine (f : Z) :
  0 <= f < 2 ^ 53 ->
  exists hours minutes seconds frames,
    convert_frame_to_timecode (PyInt f)
    = Ok (format_02d hours ++ ":" ++ format_02d minutes ++ ":"
          ++ format_02d seconds ++ "." ++ format_02d frames)
    /\ 0 <= hours /\ 0 <= minutes < 60 /\ 0 <= seconds < 60 /\ 0 <= frames < 25
    /\ recombine (hours, minutes, seconds, frames) = f.
Proof.
  intros Hf.
  exists (f / 25 / 3600), (f / 25 / 60 mod 60), (f / 25 mod 60), (f mod 25).
  split.
  { rewrite (convert_frame_small f Hf), (timecode_of_frame_fields f Hf). reflexivity. }
  split; [rewrite Z.div_div by lia; apply Z.div_pos; lia |].
  split; [apply Z.mod_pos_bound; lia |].
  split; [apply Z.mod_pos_bound; lia |].
  split; [apply Z.mod_pos_bound; lia |].
  apply frame_fields_recombine.
Qed.

(** From [2^53 + 1] on the conversion to a float rounds the frame number,
    and the frames field is that of its neighbour. *)
Lemma timecode_past_exact_floats :
  convert_frame_to_timecode (PyInt (2 ^ 53 + 1)) = Ok "100079991719:20:39.17"
  /\ (2 ^ 53 + 1) mod 25 = 18.
Proof. split; [vm_compute; reflexivity | reflexivity]. Qed.

(** Beyond the largest float the division raises, and the exception is
    not caught; so does [int()] on an infinite float. *)
Lemma timecode_overflow :
  convert_frame_to_timecode (PyInt (2 ^ 1024 - 2 ^ 970)) = Raise OverflowError
  /\ (exists s, convert_frame_to_timecode (PyInt (2 ^ 1024 - 2 ^ 970 - 1)) = Ok s)
  /\ convert_frame_to_timecode (PyStr "1e400") = Ok zero_timecode
  /\ convert_frame_to_timecode (PyFloat (Infinity false)) = Raise OverflowError.
Proof.
  split; [vm_compute; reflexivity |].
  split; [eexists; vm_compute; reflexivity |].
  split; vm_compute; reflexivity.
Qed.

End Timecode.

(** ** Timecodes from 100 hours on *)

Section LongTimecodes.

(** From 100 on, [:02d] writes three digits or more. *)
Lemma format_02d_three_digits (n : Z) :
  100 <= n ->
  exists a b c rest,
    format_02d n = String a (String b (String c rest)) /\ Ascii.eqb c ":" = false.
Proof.
  intros Hn. unfold format_02d.
  pose proof (DecimalZ.of_to n) as E.
  destruct (Z.to_int n) as [u | u].
  - cbn [Z.of_int] in E. cbn [NilZero.string_of_int].
    destruct u as [| u | u | u | u | u | u | u | u | u | u];
      [vm_compute in E; lia | ..];
      (destruct u as [| u | u | u | u | u | u | u | u | u | u];
       [vm_compute in E; lia | ..]);
      (destruct u as [| u | u | u | u | u | u | u | u | u | u];
       [vm_compute in E; lia | ..]);
      do 4 eexists; split; reflexivity.
  - exfalso. cbn [Z.of_int] in E. unfold Z.of_uint in E.
    pose proof (N2Z.is_nonneg (Pos.of_uint u)). lia.
Qed.

(** X19: From 9,000,000 frames on the timecode is no longer four two-digit
    fields, the hours taking three digits or more: the bound of the round
    trip cannot be raised. *)
Theorem timecode_hours_outgrow_two_digits (f : Z) (Hf : 9000000 <= f < 2 ^ 53) :
  exists s,
    convert_frame_to_timecode (PyInt f) = Ok s /\ two_digit_fields s = None.
Proof.
  exists (timecode_of_frame f).
  split; [apply convert_frame_small; lia |].
  rewrite timecode_of_frame_fields by lia.
  assert (Hh : 100 <= f / 25 / 3600).
  { rewrite Z.div_div by lia. apply Z.div_le_lower_bound; lia. }
  destruct (format_02d_three_digits _ Hh) as (a & b & c & rest & E & Hc).
  set (tail := ":" ++ format_02d (f / 25 / 60 mod 60) ++ ":"
               ++ format_02d (f / 25 mod 60) ++ "." ++ format_02d (f mod 25)).
  rewrite E. unfold two_digit_fields.
  change (list_ascii_of_string (String a (String b (String c rest)) ++ tail))
    with (a :: b :: c :: list_ascii_of_string (rest ++ tail)).
  generalize (list_ascii_of_string (rest ++ tail)). intros l.
  destruct l as [| m1 [| m2 [| c2 [| s1 [| s2 [| c3 [| f1 [| f2 [| x l]]]]]]]]];
    try reflexivity.
  rewrite Hc. reflexivity.
Qed.

End LongTimecodes.

Lemma timecode_hours_outgrow_two_digits_witness :
  exists s,
    convert_frame_to_timecode (PyInt 12345678) = Ok s /\ two_digit_fields s = None.
Proof. apply (timecode_hours_outgrow_two_digits 12345678). lia. Defined.

(** ** Strings and the frame pattern *)

Section Patterns.

Lemma prefix_app (p s : string) :
  prefix p s = true <-> exists t, s = p ++ t.
Proof.
  revert s. induction p as [| a p IH]; intros [| b s]; simpl.
  - split; [intros _; exists ""; reflexivity | reflexivity].
  - split; [intros _; eexists; reflexivity | reflexivity].
  - split; [discriminate | intros (t & H); discriminate].
  - destruct (ascii_dec a b) as [-> | Hab].
    + rewrite IH. split; intros (t & H); exists t; [subst; reflexivity |].
      injection H as ->. reflexivity.
    + split; [discriminate | intros (t & H)]. injection H as <- _. contradiction.
Qed.

Lemma strip_prefix_app (p s r : string) :
  strip_prefix p s = Some r <-> s = p ++ r.
Proof.
  revert s. induction p as [| a p IH]; intros s; simpl.
  - split; [intros [= ->] | intros ->]; reflexivity.
  - destruct s as [| b s].
    + split; discriminate.
    + destruct (Ascii.eqb_spec a b) as [-> | Hab].
      * rewrite IH. split; [intros -> | intros [= ->]]; reflexivity.
      * split; [discriminate | intros [= <- _]; contradiction].
Qed.

Lemma append_assoc (a b c : string) : (a ++ b) ++ c = a ++ (b ++ c).
Proof. induction a as [| x a IH]; simpl; [| rewrite IH]; reflexivity. Qed.

(** [needle in hay] finds an occurrence. *)
Lemma contains_iff (needle hay : string) :
  contains needle hay = true <-> exists pre post, hay = pre ++ needle ++ post.
Proof.
  induction hay as [| c hay IH]; cbn [contains].
  - rewrite orb_false_r, prefix_app. split.
    + intros (t & H). exists "", t. exact H.
    + intros ([| x pre] & post & H); [exists post; exact H | discriminate].
  - rewrite orb_true_iff, prefix_app, IH. split.
    + intros [(t & H) | (pre & post & H)].
      * exists "", t. exact H.
      * exists (String c pre), post. simpl. rewrite H. reflexivity.
    + intros ([| x pre] & post & H).
      * left. exists post. exact H.
      * right. injection H as _ H. exists pre, post. exact H.
Qed.

Lemma span_app (f : ascii -> bool) (s : string) :
  fst (span f s) ++ snd (span f s) = s.
Proof.
  induction s as [| c s IH]; simpl; [reflexivity |].
  destruct (f c); [| reflexivity].
  destruct (span f s) as [run rest]. simpl in *. rewrite IH. reflexivity.
Qed.

Lemma span_run (f : ascii -> bool) (s : string) :
  forallb f (list_ascii_of_string (fst (span f s))) = true.
Proof.
  induction s as [| c s IH]; simpl; [reflexivity |].
  destruct (f c) eqn:E; [| reflexivity].
  destruct (span f s) as [run rest]. simpl in *. rewrite E, IH. reflexivity.
Qed.

(** A run of [f]-characters followed by a character outside [f] is what
    [span] splits off. *)
Lemma span_stop (f : ascii -> bool) (run : string) (c : ascii) (rest : string) :
  forallb f (list_ascii_of_string run) = true -> f c = false ->
  span f (run ++ String c rest) = (run, String c rest).
Proof.
  intros Hrun Hc. induction run as [| x run IH]; simpl in *.
  - rewrite Hc. reflexivity.
  - apply andb_true_iff in Hrun as [Hx Hrun]. rewrite Hx, (IH Hrun). reflexivity.
Qed.

Lemma FRAME_PATTERN_match_sound (s ds : string) :
  FRAME_PATTERN_match s = Some ds ->
  (exists post, s = "File Frame " ++ ds ++ ": VHS" ++ post)
  /\ ds <> "" /\ forallb is_digit (list_ascii_of_string ds) = true.
Proof.
  unfold FRAME_PATTERN_match.
  destruct (strip_prefix "File Frame " s) as [r |] eqn:E; [| discriminate].
  apply strip_prefix_app in E.
  pose proof (span_app is_digit r) as Happ.
  pose proof (span_run is_digit r) as Hrun.
  destruct (span is_digit r) as [digits rest]. simpl in Happ, Hrun.
  destruct digits as [| d digits]; [discriminate |].
  destruct (prefix ": VHS" rest) eqn:P; [| discriminate].
  intros [= <-]. apply prefix_app in P as (post & ->).
  split; [| split; [discriminate | exact Hrun]].
  exists post. rewrite E, <- Happ. reflexivity.
Qed.

Lemma FRAME_PATTERN_match_complete (ds post : string) :
  ds <> "" -> forallb is_digit (list_ascii_of_string ds) = true ->
  FRAME_PATTERN_match ("File Frame " ++ ds ++ ": VHS" ++ post) = Some ds.
Proof.
  intros Hne Hds. unfold FRAME_PATTERN_match.
  assert (E : strip_prefix "File Frame " ("File Frame " ++ ds ++ ": VHS" ++ post)
              = Some (ds ++ ": VHS" ++ post)) by (apply strip_prefix_app; reflexivity).
  rewrite E.
  change (ds ++ ": VHS" ++ post) with (ds ++ String ":" (" VHS" ++ post)).
  rewrite (span_stop is_digit ds ":" (" VHS" ++ post) Hds eq_refl).
  assert (P : prefix ": VHS" (String ":" (" VHS" ++ post)) = true)
    by (apply prefix_app; exists post; reflexivity).
  rewrite P. destruct ds as [| d ds]; [contradiction |]. reflexivity.
Qed.

Lemma FRAME_PATTERN_search_sound (line ds : string) :
  FRAME_PATTERN_search line = Some ds -> matches_frame line ds.
Proof.
  induction line as [| c line IH]; cbn [FRAME_PATTERN_search].
  - destruct (FRAME_PATTERN_match "") eqn:E; [| discriminate].
    intros [= ->]. apply FRAME_PATTERN_match_sound in E as ((post & H) & _).
    discriminate.
  - destruct (FRAME_PATTERN_match (String c line)) as [g |] eqn:E.
    + intros [= ->]. apply FRAME_PATTERN_match_sound in E as ((post & H) & Hne & Hd).
      exists "", post. auto.
    + intros H. destruct (IH H) as (pre & post & -> & Hne & Hd).
      exists (String c pre), post. auto.
Qed.

Lemma FRAME_PATTERN_search_complete (line ds : string) :
  matches_frame line ds -> exists g, FRAME_PATTERN_search line = Some g.
Proof.
  intros (pre & post & -> & Hne & Hd).
  induction pre as [| c pre IH].
  - exists ds.
    pose proof (FRAME_PATTERN_match_complete ds post Hne Hd) as E.
    change ("" ++ "File Frame " ++ ds ++ ": VHS" ++ post)
      with (String "F" ("ile Frame " ++ ds ++ ": VHS" ++ post)).
    change ("File Frame " ++ ds ++ ": VHS" ++ post)
      with (String "F" ("ile Frame " ++ ds ++ ": VHS" ++ post)) in E.
    cbn [FRAME_PATTERN_search]. rewrite E. reflexivity.
  - destruct IH as (g & Hg).
    change (String c pre ++ "File Frame " ++ ds ++ ": VHS" ++ post)
      with (String c (pre ++ "File Frame " ++ ds ++ ": VHS" ++ post)).
    cbn [FRAME_PATTERN_search].
    destruct (FRAME_PATTERN_match (String c (pre ++ "File Frame " ++ ds ++ ": VHS" ++ post))) as [g' |].
    + exists g'. reflexivity.
    + exists g. exact Hg.
Qed.

(** A digit is no white space, sign or underscore. *)
Lemma is_digit_plain (c : ascii) :
  is_digit c = true ->
  is_int_space c = false /\ Ascii.eqb c "+" = false /\ Ascii.eqb c "-" = false
  /\ Ascii.eqb c "_" = false /\ 0 <= digit_val c <= 9.
Proof.
  destruct c as [[] [] [] [] [] [] [] []]; vm_compute; intros H;
    try discriminate H; repeat split; congruence.
Qed.

Lemma scan_digits_all (ds : string) (acc : Z) :
  forallb is_digit (list_ascii_of_string ds) = true ->
  scan_digits acc ds
  = (fold_left (fun a c => 10 * a + digit_val c) (list_ascii_of_string ds) acc, "").
Proof.
  revert acc. induction ds as [| c ds IH]; intros acc H; simpl in *.
  - reflexivity.
  - apply andb_true_iff in H as [Hc Hds]. rewrite Hc. apply IH, Hds.
Qed.

(** [int()] of a run of digits is the number the digits write. *)
Lemma int_of_digits (ds : string) :
  ds <> "" -> forallb is_digit (list_ascii_of_string ds) = true ->
  Py.int (PyStr ds) = Ok (digits_value ds).
Proof.
  intros Hne H. destruct ds as [| c ds]; [contradiction |].
  simpl in H. apply andb_true_iff in H as [Hc Hds].
  destruct (is_digit_plain c Hc) as (Hs & Hp & Hm & _).
  unfold Py.int, int_of_str. simpl lstrip_int. rewrite Hs, Hp, Hm.
  unfold parse_unsigned. rewrite Hc, (scan_digits_all ds _ Hds). simpl.
  unfold digits_value. simpl. reflexivity.
Qed.

Lemma digits_fold_nonneg (l : list ascii) (acc : Z) :
  forallb is_digit l = true -> 0 <= acc ->
  0 <= fold_left (fun a c => 10 * a + digit_val c) l acc.
Proof.
  revert acc. induction l as [| c l IH]; intros acc H Hacc;
    cbn [fold_left forallb] in *.
  - exact Hacc.
  - apply andb_true_iff in H as [Hc Hl].
    destruct (is_digit_plain c Hc) as (_ & _ & _ & _ & Hv).
    apply IH; [exact Hl | lia].
Qed.

Lemma digits_value_nonneg (ds : string) :
  forallb is_digit (list_ascii_of_string ds) = true -> 0 <= digits_value ds.
Proof. intros H. apply digits_fold_nonneg; [exact H | lia]. Qed.

(** The group of a frame match always converts: the line is a progress
    line with the number its digits write. *)
Lemma classify_frame (line g : string) :
  line <> "" -> FRAME_PATTERN_search line = Some g ->
  classify line = Some (FrameProgress (digits_value g)).
Proof.
  intros Hne Hg. unfold classify.
  destruct (String.eqb_spec line "") as [-> | _]; [contradiction |].
  rewrite Hg. destruct (FRAME_PATTERN_search_sound _ _ Hg) as (_ & _ & _ & Hn & Hd).
  rewrite (int_of_digits g Hn Hd). reflexivity.
Qed.

(** A progress line owes its number to a match of the frame pattern. *)
Lemma classify_frame_inv (line : string) (n : Z) :
  classify line = Some (FrameProgress n) ->
  exists ds, matches_frame line ds /\ n = digits_value ds.
Proof.
  intros H. destruct (String.eqb_spec line "") as [-> | Hne]; [discriminate H |].
  destruct (FRAME_PATTERN_search line) as [g |] eqn:Hg.
  - rewrite (classify_frame line g Hne Hg) in H. injection H as <-.
    exists g. split; [apply FRAME_PATTERN_search_sound, Hg | reflexivity].
  - unfold classify in H. rewrite Hg in H.
    destruct (String.eqb line ""); [discriminate H |].
    destruct (contains DROPPED_FIELD_PATTERN line); [discriminate H |].
    destruct (contains TRACK_SKIP_PATTERN line); discriminate H.
Qed.

(** C5 (as amended): every non-empty line takes exactly one branch, the
    first that applies: a line that matches the frame pattern is a progress
    line carrying the (non-negative) number its digits write, whether or
    not it also holds a marker; otherwise a line holding the dropped-field
    marker is a dropped field; otherwise one holding the skipped-track
    marker is a track skip; otherwise it is a plain line carrying its
    text. *)
Theorem classify_first_match (line : string) (Hne : line <> "") :
  (exists ev, classify line = Some ev)
  /\ (forall ds, matches_frame line ds ->
       exists n, classify line = Some (FrameProgress n) /\ 0 <= n)
  /\ (forall n, classify line = Some (FrameProgress n) ->
       exists ds, matches_frame line ds /\ n = digits_value ds)
  /\ ((forall ds, ~ matches_frame line ds) ->
       classify line =
       if contains DROPPED_FIELD_PATTERN line then Some DroppedField
       else if contains TRACK_SKIP_PATTERN line then Some TrackSkip
       else Some (PlainLine line)).
Proof.
  destruct (FRAME_PATTERN_search line) as [g |] eqn:Hg.
  - pose proof (classify_frame line g Hne Hg) as Hc.
    pose proof (FRAME_PATTERN_search_sound _ _ Hg) as Hm.
    split; [eexists; exact Hc |].
    split; [| split].
    + intros ds _. exists (digits_value g). split; [exact Hc |].
      destruct Hm as (_ & _ & _ & _ & Hd). apply digits_value_nonneg, Hd.
    + intros n Hn. rewrite Hc in Hn. injection Hn as <-. exists g. auto.
    + intros Hno. destruct (Hno g Hm).
  - assert (Hc : classify line =
                 if contains DROPPED_FIELD_PATTERN line then Some DroppedField
                 else if contains TRACK_SKIP_PATTERN line then Some TrackSkip
                 else Some (PlainLine line)).
    { unfold classify. destruct (String.eqb_spec line "") as [-> | _]; [contradiction |].
      rewrite Hg. reflexivity. }
    split; [| split; [| split]].
    + rewrite Hc. destruct (contains DROPPED_FIELD_PATTERN line);
        [| destruct (contains TRACK_SKIP_PATTERN line)]; eexists; reflexivity.
    + intros ds Hm. destruct (FRAME_PATTERN_search_complete _ _ Hm) as (g & Hg').
      congruence.
    + intros n Hn. rewrite Hc in Hn.
      destruct (contains DROPPED_FIELD_PATTERN line);
        [| destruct (contains TRACK_SKIP_PATTERN line)]; discriminate.
    + intros _. exact Hc.
Qed.

Definition both_line : string := "File Frame 42: VHS, dropping field".

Lemma classify_first_match_witness :
  (exists ev, classify both_line = Some ev)
  /\ (forall ds, matches_frame both_line ds ->
       exists n, classify both_line = Some (FrameProgress n) /\ 0 <= n)
  /\ (forall n, classify both_line = Some (FrameProgress n) ->
       exists ds, matches_frame both_line ds /\ n = digits_value ds)
  /\ ((forall ds, ~ matches_frame both_line ds) ->
       classify both_line =
       if contains DROPPED_FIELD_PATTERN both_line then Some DroppedField
       else if contains TRACK_SKIP_PATTERN both_line then Some TrackSkip
       else Some (PlainLine both_line)).
Proof. apply (classify_first_match both_line). discriminate. Defined.

(** C5 as stated fails on the empty line: [_process_output_line] returns
    at once, so the line takes no branch and is not logged either. *)
Lemma classify_empty_line_no_event :
  ~ (exists ev, classify "" = Some ev)
  /\ _process_output_line clock3 (init clock3) "" = init clock3.
Proof.
  split; [| reflexivity]. intros (ev & H). discriminate.
Qed.

(** The examples of the specification. *)
Lemma classify_examples :
  classify "File Frame 42: VHS" = Some (FrameProgress 42)
  /\ classify "...dropping field..." = Some DroppedField
  /\ classify "the head skipped a track" = Some TrackSkip
  /\ classify "hello" = Some (PlainLine "hello")
  /\ classify both_line = Some (FrameProgress 42)
  /\ classify "dropping field, skipped a track" = Some DroppedField.
Proof. repeat split; reflexivity. Qed.

End Patterns.

(** ** What [int()] accepts *)

Section IntLiteral.

Lemma lstrip_int_spaces (s : string) :
  exists lead, s = lead ++ lstrip_int s /\ all_int_space lead = true.
Proof.
  induction s as [| c s (lead & E & H)]; [exists ""; auto |].
  cbn [lstrip_int]. destruct (is_int_space c) eqn:Hc.
  - exists (String c lead). cbn [append all_int_space]. rewrite Hc, H, <- E. auto.
  - exists "". auto.
Qed.

Lemma lstrip_int_lead (lead rest : string) (c : ascii) :
  all_int_space lead = true -> is_int_space c = false ->
  lstrip_int (lead ++ String c rest) = String c rest.
Proof.
  intros H Hc. induction lead as [| x lead IH].
  - cbn [append lstrip_int]. rewrite Hc. reflexivity.
  - cbn [all_int_space] in H. apply andb_true_iff in H as (Hx & H).
    cbn [append lstrip_int]. rewrite Hx. exact (IH H).
Qed.

(** What [scan_digits] passes is a tail of digits. *)
Lemma scan_digits_tail (n : nat) (s : string) (acc : Z) :
  (String.length s <= n)%nat ->
  exists tail, s = tail ++ snd (scan_digits acc s) /\ digit_tail tail.
Proof.
  revert s acc. induction n as [| n IH]; intros s acc Hn.
  - destruct s; [| cbn in Hn; lia]. exists "". split; [reflexivity | constructor].
  - destruct s as [| c t]; [exists ""; split; [reflexivity | constructor] |].
    cbn [String.length] in Hn. cbn [scan_digits].
    destruct (is_digit c) eqn:Hc.
    + destruct (IH t (10 * acc + digit_val c) ltac:(lia)) as (tail & E & T).
      exists (String c tail). cbn [append]. rewrite <- E.
      split; [reflexivity | constructor; assumption].
    + destruct (Ascii.eqb_spec c "_") as [-> | _];
        [| exists ""; split; [reflexivity | constructor]].
      destruct t as [| d t']; [exists ""; split; [reflexivity | constructor] |].
      cbn [String.length] in Hn.
      destruct (is_digit d) eqn:Hd; [| exists ""; split; [reflexivity | constructor]].
      destruct (IH t' (10 * acc + digit_val d) ltac:(lia)) as (tail & E & T).
      exists (String "_" (String d tail)). cbn [append]. rewrite <- E.
      split; [reflexivity | constructor; assumption].
Qed.

Lemma parse_unsigned_literal (s : string) (n : Z) :
  parse_unsigned s = Some n ->
  exists d tail trail,
    s = String d tail ++ trail /\ is_digit d = true /\ digit_tail tail
    /\ all_int_space trail = true.
Proof.
  unfold parse_unsigned. destruct s as [| c t]; [discriminate |].
  destruct (is_digit c) eqn:Hc; [| discriminate].
  destruct (scan_digits_tail (String.length t) t (digit_val c) (le_n _)) as (tail & E & T).
  destruct (scan_digits (digit_val c) t) as [m rest]. cbn [snd] in E.
  destruct (all_int_space rest) eqn:Hr; [| discriminate]. intros _.
  exists c, tail, rest. cbn [append]. rewrite <- E. auto.
Qed.

(** What [int()] reads is an integer literal. *)
Lemma int_of_str_literal (s : string) (n : Z) :
  int_of_str s = Ok n -> int_literal s.
Proof.
  unfold int_of_str. destruct (lstrip_int_spaces s) as (lead & E & Hl).
  destruct (lstrip_int s) as [| c t]; [discriminate |].
  destruct (Ascii.eqb_spec c "+") as [-> | Hp].
  - destruct (parse_unsigned t) as [m |] eqn:P; [| discriminate]. intros _.
    destruct (parse_unsigned_literal t m P) as (d & tail & trail & -> & Hd & T & Ht).
    exists lead, "+", d, tail, trail.
    split; [exact E |]. repeat split; auto.
  - destruct (Ascii.eqb_spec c "-") as [-> | Hm].
    + destruct (parse_unsigned t) as [m |] eqn:P; [| discriminate]. intros _.
      destruct (parse_unsigned_literal t m P) as (d & tail & trail & -> & Hd & T & Ht).
      exists lead, "-", d, tail, trail.
      split; [exact E |]. repeat split; auto.
    + destruct (parse_unsigned (String c t)) as [m |] eqn:P; [| discriminate]. intros _.
      destruct (parse_unsigned_literal _ m P) as (d & tail & trail & Es & Hd & T & Ht).
      exists lead, "", d, tail, trail.
      split; [rewrite E, Es; reflexivity |]. repeat split; auto.
Qed.

Lemma int_space_plain (c : ascii) :
  is_int_space c = true -> is_digit c = false /\ Ascii.eqb c "_" = false.
Proof.
  destruct c as [[] [] [] [] [] [] [] []]; vm_compute; intros H;
    try discriminate H; split; reflexivity.
Qed.

Lemma scan_digits_literal (tail trail : string) (acc : Z) :
  digit_tail tail -> all_int_space trail = true ->
  snd (scan_digits acc (tail ++ trail)) = trail.
Proof.
  intros T Ht. revert acc. induction T as [| c t Hc _ IH | c t Hc _ IH]; intros acc.
  - cbn [append]. destruct trail as [| x trail]; [reflexivity |].
    cbn [all_int_space] in Ht. apply andb_true_iff in Ht as (Hx & _).
    destruct (int_space_plain x Hx) as (Hd & Hu).
    cbn [scan_digits]. rewrite Hd, Hu. reflexivity.
  - cbn [append scan_digits]. rewrite Hc. apply IH.
  - cbn [append scan_digits]. change (is_digit "_") with false. cbn [Ascii.eqb Bool.eqb].
    rewrite Hc. apply IH.
Qed.

Lemma parse_unsigned_of_literal (d : ascii) (tail trail : string) :
  is_digit d = true -> digit_tail tail -> all_int_space trail = true ->
  exists n, parse_unsigned (String d tail ++ trail) = Some n.
Proof.
  intros Hd T Ht. cbn [append parse_unsigned]. rewrite Hd.
  pose proof (scan_digits_literal tail trail (digit_val d) T Ht) as E.
  destruct (scan_digits (digit_val d) (tail ++ trail)) as [m rest]. cbn [snd] in E.
  subst rest. rewrite Ht. exists m. reflexivity.
Qed.

(** [int()] reads every integer literal. *)
Lemma int_of_literal (s : string) :
  int_literal s -> exists n, int_of_str s = Ok n.
Proof.
  intros (lead & sign & d & tail & trail & -> & Hl & Hs & Hd & T & Ht).
  destruct (is_digit_plain d Hd) as (Dsp & Dp & Dm & _).
  destruct (parse_unsigned_of_literal d tail trail Hd T Ht) as (n & P).
  unfold int_of_str. destruct Hs as [-> | [-> | ->]]; cbn [append].
  - rewrite (lstrip_int_lead lead _ d Hl Dsp), Dp, Dm.
    change (String d (tail ++ trail)) with (String d tail ++ trail).
    rewrite P. exists n. reflexivity.
  - rewrite (lstrip_int_lead lead _ "+" Hl eq_refl). cbn [Ascii.eqb Bool.eqb].
    change (String d (tail ++ trail)) with (String d tail ++ trail).
    rewrite P. exists n. reflexivity.
  - rewrite (lstrip_int_lead lead _ "-" Hl eq_refl). cbn [Ascii.eqb Bool.eqb].
    change (String d (tail ++ trail)) with (String d tail ++ trail).
    rewrite P. exists (- n). reflexivity.
Qed.

(** A text [int()] rejects is no integer literal. *)
Lemma rejected_not_literal (s : string) :
  int_of_str s = Raise ValueError -> ~ int_literal s.
Proof.
  intros H L. destruct (int_of_literal s L) as (n & E). congruence.
Qed.

(** C8: an argument that is no number ([None], a text that is not an
    integer literal, the float NaN) gives the zero timecode, returned and
    not raised.  Numbers are another matter: an infinite float, like an
    integer beyond the range of floats, makes the function raise
    [OverflowError]. *)
Theorem timecode_of_non_numeric (v : pyval) (H : non_numeric v) :
  convert_frame_to_timecode v = Ok "00:00:00.00".
Proof.
  unfold convert_frame_to_timecode. destruct v as [| n | s | [q | b |]]; cbn [non_numeric] in H.
  - reflexivity.
  - contradiction.
  - cbn [Py.int]. destruct (int_of_str s) as [n | e] eqn:E.
    + exfalso. apply H. exact (int_of_str_literal s n E).
    + unfold int_of_str in E.
      destruct (match lstrip_int s with
                | String c t =>
                    if Ascii.eqb c "+" then parse_unsigned t
                    else if Ascii.eqb c "-" then option_map Z.opp (parse_unsigned t)
                    else parse_unsigned (lstrip_int s)
                | EmptyString => None
                end); [discriminate E | injection E as <-; reflexivity].
  - discriminate H.
  - discriminate H.
  - reflexivity.
Qed.

End IntLiteral.

Lemma timecode_of_non_numeric_witness :
  convert_frame_to_timecode PyNone = Ok "00:00:00.00"
  /\ convert_frame_to_timecode (PyStr "abc") = Ok "00:00:00.00"
  /\ convert_frame_to_timecode (PyStr "") = Ok "00:00:00.00"
  /\ convert_frame_to_timecode (PyStr "12.5") = Ok "00:00:00.00"
  /\ convert_frame_to_timecode (PyStr "4 2") = Ok "00:00:00.00"
  /\ convert_frame_to_timecode (PyStr (String (ascii_of_nat 28) "5")) = Ok "00:00:00.00"
  /\ convert_frame_to_timecode (PyFloat NaN) = Ok "00:00:00.00".
Proof.
  split; [apply (timecode_of_non_numeric PyNone); exact I |].
  split; [apply (timecode_of_non_numeric (PyStr "abc"));
          apply rejected_not_literal; reflexivity |].
  split; [apply (timecode_of_non_numeric (PyStr ""));
          apply rejected_not_literal; reflexivity |].
  split; [apply (timecode_of_non_numeric (PyStr "12.5"));
          apply rejected_not_literal; reflexivity |].
  split; [apply (timecode_of_non_numeric (PyStr "4 2"));
          apply rejected_not_literal; reflexivity |].
  split; [apply (timecode_of_non_numeric (PyStr (String (ascii_of_nat 28) "5")));
          apply rejected_not_literal; reflexivity |].
  apply (timecode_of_non_numeric (PyFloat NaN)); reflexivity.
Defined.

(** ** The colour splitting of the log *)

Section Tokenizer.

(** A line that opens with the erase-line sequence [ESC [ 2 K]. *)
Definition erase_then_text : string := String ESC "[2Khello".

Definition green_ok_done : string :=
  String ESC "[32mOK" ++ String ESC "[0m done".

(** The example of the specification. *)
Lemma log_output_green_ok_done :
  log_output green_ok_done = [("OK", ["32"]); (" done", [])].
Proof. vm_compute. reflexivity. Qed.

(** The codes keep at most one colour: the tags are empty or one colour
    code. *)
Definition one_color (tags : list string) : Prop :=
  tags = [] \/ exists c, In c color_codes /\ tags = [c].

Lemma mem_In (x : string) (l : list string) : mem x l = true <-> In x l.
Proof.
  unfold mem. rewrite existsb_exists. split.
  - intros (y & Hy & E). apply String.eqb_eq in E. subst. exact Hy.
  - intros H. exists x. split; [exact H | apply String.eqb_refl].
Qed.

Lemma apply_code_one_color (tags : list string) (code : string) :
  one_color tags -> one_color (apply_code tags code).
Proof.
  intros H. unfold apply_code.
  destruct (String.eqb code "0" || String.eqb code ""); [left; reflexivity |].
  destruct (mem code color_codes) eqn:E; [| exact H].
  right. exists code. split; [apply mem_In, E |].
  destruct H as [-> | (c & Hc & ->)]; [reflexivity |].
  cbn [filter]. apply mem_In in Hc. rewrite Hc. reflexivity.
Qed.

(** A colour code replaces the colour in force; [0] and the empty code
    clear it; any other code leaves it. *)
Lemma apply_code_cases (tags : list string) (code : string) :
  one_color tags ->
  (code = "0" \/ code = "" -> apply_code tags code = [])
  /\ (In code color_codes -> apply_code tags code = [code])
  /\ (code <> "0" -> code <> "" -> ~ In code color_codes ->
      apply_code tags code = tags).
Proof.
  intros H. unfold apply_code. repeat split.
  - intros [-> | ->]; reflexivity.
  - intros Hin. assert (Hm := proj2 (mem_In _ _) Hin).
    destruct (String.eqb_spec code "0") as [-> | _]; [vm_compute in Hm; discriminate |].
    destruct (String.eqb_spec code "") as [-> | _]; [vm_compute in Hm; discriminate |].
    cbn [orb]. rewrite Hm.
    destruct H as [-> | (c & Hc & ->)]; [reflexivity |].
    cbn [filter]. apply mem_In in Hc. rewrite Hc. reflexivity.
  - intros H0 He Hn.
    destruct (String.eqb_spec code "0"); [contradiction |].
    destruct (String.eqb_spec code ""); [contradiction |].
    cbn [orb]. destruct (mem code color_codes) eqn:E; [| reflexivity].
    apply mem_In in E. contradiction.
Qed.

(** No segment is empty, and every segment carries at most one colour. *)
Lemma log_output_parts_segments (parts : list string) (tags : list string) :
  one_color tags ->
  Forall (fun seg : segment => fst seg <> "" /\ one_color (snd seg))
    (log_output_parts parts tags).
Proof.
  revert tags. induction parts as [| part rest IH]; intros tags H; simpl.
  - constructor.
  - destruct (String.eqb part ""); [apply IH, H |].
    destruct (prefix (String ESC "[") part).
    + apply IH. generalize (split_on ";" (slice_2_m1 part)). intros codes.
      revert tags H. induction codes as [| c codes IHc]; intros tags H; simpl.
      * exact H.
      * apply IHc, apply_code_one_color, H.
    + destruct (String.eqb_spec (ANSI_ESCAPE_PATTERN_sub 0 part) "") as [E | E].
      * apply IH, H.
      * constructor; [split; [exact E | exact H] | apply IH, H].
Qed.

(** X8: whatever the text, [log_output] inserts no empty piece, and
    every piece it inserts carries at most one colour tag. *)
Lemma log_output_segments (text : string) :
  Forall (fun seg : segment => fst seg <> "" /\ one_color (snd seg))
    (log_output text).
Proof. apply log_output_parts_segments. left. reflexivity. Qed.

(** C7, where the code departs from it: a text fragment that opens with an
    escape sequence other than a colour sequence is taken for a colour
    sequence, since the test is [part.startswith('\x1B[')]; its text is not
    inserted, although stripping the escape sequence leaves ["hello"].  The
    same sequence inside a fragment is stripped as the comment in the code
    says. *)
Theorem log_output_loses_text_after_escape :
  log_output erase_then_text = []
  /\ ANSI_ESCAPE_PATTERN_sub 0 erase_then_text = "hello"
  /\ log_output ("x" ++ erase_then_text) = [("xhello", [])].
Proof. vm_compute. repeat split; reflexivity. Qed.

End Tokenizer.

(** ** The supervisor: outcome and cancellation *)

Section Supervisor.
Variable clock : nat -> Q.

Lemma update_gui_status_fields (st : VhsDecodeApp) (f : Z) :
  let st' := _update_gui_status clock st f in
  current_frame st' = f
  /\ dropped_field_count st' = dropped_field_count st + dropped_field_buffer st
  /\ dropped_field_buffer st' = 0
  /\ track_skip_count st' = track_skip_count st + track_skip_buffer st
  /\ track_skip_buffer st' = 0
  /\ frame_buffer st' = frame_buffer st
  /\ last_gui_update_time st' = clock (ticks st)
  /\ ticks st' = S (ticks st)
  /\ start_time st' = start_time st
  /\ updates st'
     = mkSnapshot f (timecode_of_frame f)
         (dropped_field_count st + dropped_field_buffer st)
         (track_skip_count st + track_skip_buffer st) (clock (ticks st))
       :: updates st.
Proof.
  unfold _update_gui_status, time_time.
  destruct (negb _); cbn; repeat split; reflexivity.
Qed.

Lemma update_gui_status_session (st : VhsDecodeApp) (f : Z) :
  let st' := _update_gui_status clock st f in
  decoding_in_progress st' = decoding_in_progress st
  /\ process st' = process st
  /\ cancel_button_enabled st' = cancel_button_enabled st
  /\ status_message st' = status_message st
  /\ log_text_area st' = log_text_area st.
Proof.
  unfold _update_gui_status, time_time.
  destruct (negb _); cbn; repeat split; reflexivity.
Qed.

Lemma final_update_session (st : VhsDecodeApp) :
  let st' := final_update clock st in
  decoding_in_progress st' = decoding_in_progress st
  /\ process st' = process st
  /\ cancel_button_enabled st' = cancel_button_enabled st
  /\ status_message st' = status_message st
  /\ log_text_area st' = log_text_area st.
Proof.
  unfold final_update, time_time. destruct (0 <? frame_buffer st); [| cbn; auto 6].
  destruct (negb _); [| cbn; auto 6].
  apply (update_gui_status_session (set_ticks (S (ticks st)) st)).
Qed.

(** With no error message and a non-zero return code the exit code alone
    decides between the last two branches. *)
Lemma finalize_nonzero (st : VhsDecodeApp) (return_code : Z) (p : Popen) :
  process st = Some p -> returncode p = Some return_code -> return_code <> 0 ->
  status_message (_finalize_decoding clock st return_code None)
  = if existsb (Z.eqb return_code) signal_codes then StatusCancelled
    else StatusErrorCode return_code.
Proof.
  intros Hp Hc Hrc. unfold _finalize_decoding.
  cbn [truthy]. apply Z.eqb_neq in Hrc. rewrite Hrc.
  cbn -[existsb signal_codes].
  destruct (final_update_session st) as (_ & -> & _). rewrite Hp, Hc.
  destruct (existsb _ _); reflexivity.
Qed.

Lemma existsb_eqb_In (c : Z) (l : list Z) : existsb (Z.eqb c) l = true <-> In c l.
Proof.
  rewrite existsb_exists. split.
  - intros (x & Hx & E). apply Z.eqb_eq in E. subst. exact Hx.
  - intros H. exists c. split; [exact H | apply Z.eqb_refl].
Qed.

(** C1 (as amended): when the process has exited with a non-zero code and
    no error message is passed, the outcome shown is Cancelled exactly when
    the code is one of -2, -9 and 143, whether or not a cancellation had
    been requested; any other non-zero code gives Failed with that code. *)
Theorem exit_code_outcome (st : VhsDecodeApp) (return_code : Z) (p : Popen)
    (Hp : process st = Some p) (Hc : returncode p = Some return_code)
    (Hrc : return_code <> 0) :
  let st' := _finalize_decoding clock st return_code None in
  (In return_code signal_codes -> outcome st' = Some Cancelled)
  /\ (~ In return_code signal_codes -> outcome st' = Some (Failed return_code)).
Proof.
  cbv zeta. unfold outcome. rewrite (finalize_nonzero st return_code p Hp Hc Hrc).
  destruct (existsb (Z.eqb return_code) signal_codes) eqn:E.
  - split; [reflexivity |]. intros Hn. apply existsb_eqb_In in E. contradiction.
  - split; [| reflexivity]. intros Hin. apply existsb_eqb_In in Hin. congruence.
Qed.


(** A return code of 0 is a success whatever was requested, and an error
    message is a failure whatever the code. *)
Lemma finalize_other_outcomes (st : VhsDecodeApp) (return_code : Z) (m : string) :
  outcome (_finalize_decoding clock st 0 None) = Some Completed
  /\ (m <> "" ->
      outcome (_finalize_decoding clock st return_code (Some m)) = Some (LaunchFailed m)).
Proof.
  split.
  - unfold _finalize_decoding, time_time. cbn [truthy Z.eqb].
    destruct (_ && _); reflexivity.
  - intros Hm. unfold _finalize_decoding. cbn [truthy].
    apply String.eqb_neq in Hm. rewrite Hm. reflexivity.
Qed.

Lemma finalize_ends_session (st : VhsDecodeApp) (return_code : Z)
    (error_message : option string) :
  decoding_in_progress (_finalize_decoding clock st return_code error_message) = false
  /\ cancel_button_enabled (_finalize_decoding clock st return_code error_message) = false
  /\ process (_finalize_decoding clock st return_code error_message) = process st.
Proof.
  unfold _finalize_decoding, time_time.
  destruct (final_update_session st) as (_ & Hp & _).
  destruct (truthy error_message); [cbn; auto |].
  destruct (return_code =? 0).
  - destruct (_ && _); cbn; auto.
  - cbn -[existsb signal_codes]. rewrite Hp.
    destruct (process st) as [p |]; [| cbn; auto].
    destruct (match returncode p with Some c => existsb (Z.eqb c) signal_codes | None => false end);
      cbn; auto.
Qed.

(** Processing a line leaves the session as it is: the progress flag, the
    process handle, the cancel button and the status message. *)
Lemma process_output_line_session (st : VhsDecodeApp) (line : string) :
  let st' := _process_output_line clock st line in
  decoding_in_progress st' = decoding_in_progress st
  /\ process st' = process st
  /\ cancel_button_enabled st' = cancel_button_enabled st
  /\ status_message st' = status_message st.
Proof.
  cbv zeta. unfold _process_output_line.
  destruct (String.eqb line ""); [auto |].
  destruct (FRAME_PATTERN_search line) as [g |].
  - destruct (Py.int (PyStr g)) as [n | e]; [| auto].
    unfold throttled_update, time_time.
    destruct (Qle_bool _ _); [| fields; auto].
    match goal with |- context [_update_gui_status clock ?s ?f] =>
      destruct (update_gui_status_session s f) as (H1 & H2 & H3 & H4 & _)
    end.
    rewrite H1, H2, H3, H4. fields. auto.
  - destruct (contains DROPPED_FIELD_PATTERN line); [fields; auto |].
    destruct (contains TRACK_SKIP_PATTERN line); fields; auto.
Qed.

Lemma run_lines_session (lines : list string) (st : VhsDecodeApp) :
  decoding_in_progress (run_lines clock st lines) = decoding_in_progress st
  /\ process (run_lines clock st lines) = process st
  /\ cancel_button_enabled (run_lines clock st lines) = cancel_button_enabled st
  /\ status_message (run_lines clock st lines) = status_message st.
Proof.
  revert st. induction lines as [| l ls IH]; intros st; [cbn [run_lines fold_left]; auto |].
  unfold run_lines in *. cbn [fold_left].
  destruct (IH (_process_output_line clock st l)) as (H1 & H2 & H3 & H4).
  destruct (process_output_line_session st l) as (P1 & P2 & P3 & P4).
  rewrite H1, H2, H3, H4. auto.
Qed.

(** C9: a cancel on a session that [_finalize_decoding] has ended is a
    no-op: the cancel button, the only caller of [_cancel_decoding], has
    been disabled, so that no signal is sent and the outcome and the exit
    code stay as they are.  A cancel that is accepted disables the button
    as well, so that while the cancellation is pending, whatever output is
    processed meanwhile, a further cancel is a no-op too and sends no
    further signal. *)
Theorem cancel_after_end_or_request (st running : VhsDecodeApp) (return_code : Z)
    (error_message : option string) (p : Popen) (lines : list string)
    (Hrun : decoding_in_progress running = true)
    (Hp : process running = Some p)
    (Hb : cancel_button_enabled running = true) :
  let ended := _finalize_decoding clock st return_code error_message in
  let pending := run_lines clock (click_cancel running) lines in
  (click_cancel ended = ended
   /\ signals (click_cancel ended) = signals ended
   /\ outcome (click_cancel ended) = outcome ended
   /\ exitCode (click_cancel ended) = exitCode ended)
  /\ (cancel_requested (click_cancel running) = true
      /\ cancel_requested pending = true
      /\ click_cancel pending = pending
      /\ signals (click_cancel pending) = signals (click_cancel running)).
Proof.
  cbv zeta.
  destruct (finalize_ends_session st return_code error_message) as (_ & Hbe & _).
  assert (E : click_cancel (_finalize_decoding clock st return_code error_message)
              = _finalize_decoding clock st return_code error_message).
  { unfold click_cancel. rewrite Hbe. reflexivity. }
  split; [rewrite E; auto |].
  assert (C : decoding_in_progress (click_cancel running) = true
              /\ cancel_button_enabled (click_cancel running) = false).
  { unfold click_cancel, _cancel_decoding. rewrite Hb, Hrun, Hp. fields. auto. }
  destruct C as (C1 & C2).
  destruct (run_lines_session lines (click_cancel running)) as (R1 & R2 & R3 & _).
  assert (P : click_cancel (run_lines clock (click_cancel running) lines)
              = run_lines clock (click_cancel running) lines).
  { unfold click_cancel at 1. rewrite R3, C2. reflexivity. }
  rewrite P. unfold cancel_requested, signals. rewrite R1, R2, R3, C1, C2. auto.
Qed.

End Supervisor.

Lemma exit_code_outcome_witness :
  (In (-9) signal_codes ->
   outcome (_finalize_decoding clock3 (wait running3 (-9)) (-9) None) = Some Cancelled)
  /\ (~ In (-9) signal_codes ->
      outcome (_finalize_decoding clock3 (wait running3 (-9)) (-9) None)
      = Some (Failed (-9))).
Proof.
  apply (exit_code_outcome clock3 (wait running3 (-9)) (-9) (mkPopen (Some (-9)) O));
    [reflexivity | reflexivity | discriminate].
Defined.

(** C1 as stated fails: a process killed from outside (exit code -9) while
    the session is running, no cancellation requested and no signal sent
    by the application, is reported as cancelled. *)
Lemma cancelled_without_request :
  cancel_requested (wait running3 (-9)) = false
  /\ signals (wait running3 (-9)) = O
  /\ ~ (outcome (_finalize_decoding clock3 (wait running3 (-9)) (-9) None) = Some Cancelled ->
        In (-9) signal_codes /\ cancel_requested (wait running3 (-9)) = true).
Proof.
  split; [reflexivity |]. split; [reflexivity |].
  intros H. destruct (H eq_refl) as (_ & H'). discriminate H'.
Qed.

(** Output processed while a cancellation is pending. *)
Definition cancel_lines : list string :=
  ["File Frame 1: VHS"; "dropping field"; "closing"; "File Frame 2: VHS"].

Lemma cancel_after_end_or_request_witness :
  (click_cancel (_finalize_decoding clock3 (wait running3 0) 0 None)
   = _finalize_decoding clock3 (wait running3 0) 0 None
   /\ signals (click_cancel (_finalize_decoding clock3 (wait running3 0) 0 None))
      = signals (_finalize_decoding clock3 (wait running3 0) 0 None)
   /\ outcome (click_cancel (_finalize_decoding clock3 (wait running3 0) 0 None))
      = outcome (_finalize_decoding clock3 (wait running3 0) 0 None)
   /\ exitCode (click_cancel (_finalize_decoding clock3 (wait running3 0) 0 None))
      = exitCode (_finalize_decoding clock3 (wait running3 0) 0 None))
  /\ (cancel_requested (click_cancel running3) = true
      /\ cancel_requested (run_lines clock3 (click_cancel running3) cancel_lines) = true
      /\ click_cancel (run_lines clock3 (click_cancel running3) cancel_lines)
         = run_lines clock3 (click_cancel running3) cancel_lines
      /\ signals (click_cancel (run_lines clock3 (click_cancel running3) cancel_lines))
         = signals (click_cancel running3)).
Proof.
  apply (cancel_after_end_or_request clock3 (wait running3 0) running3 0 None
           (mkPopen None O) cancel_lines); reflexivity.
Defined.


(** ** A run: lines, then the final update *)

Section Run.
Variable clock : nat -> Q.

Lemma process_output_line_classify (st : VhsDecodeApp) (line : string) :
  _process_output_line clock st line =
  match classify line with
  | None => st
  | Some (FrameProgress n) => throttled_update clock (set_frame_buffer n st)
  | Some DroppedField => set_dropped_field_buffer (dropped_field_buffer st + 1) st
  | Some TrackSkip => set_track_skip_buffer (track_skip_buffer st + 1) st
  | Some (PlainLine text) => log (LogText text) st
  end.
Proof.
  unfold _process_output_line, classify.
  destruct (String.eqb line ""); [reflexivity |].
  destruct (FRAME_PATTERN_search line) as [g |].
  - destruct (Py.int (PyStr g)); reflexivity.
  - destruct (contains DROPPED_FIELD_PATTERN line); [reflexivity |].
    destruct (contains TRACK_SKIP_PATTERN line); reflexivity.
Qed.

Lemma throttled_update_cases (st : VhsDecodeApp) :
  (Qle_bool THROTTLE_INTERVAL (clock (ticks st) - last_gui_update_time st) = false
   /\ throttled_update clock st = tick st)
  \/ (Qle_bool THROTTLE_INTERVAL (clock (ticks st) - last_gui_update_time st) = true
      /\ throttled_update clock st = _update_gui_status clock (tick st) (frame_buffer st)).
Proof.
  unfold throttled_update, time_time, tick. fields.
  destruct (Qle_bool _ _); [right | left]; split; reflexivity.
Qed.

Lemma final_update_cases (st : VhsDecodeApp) :
  final_update clock st = st
  \/ final_update clock st = tick st
  \/ (0 < frame_buffer st
      /\ final_update clock st = _update_gui_status clock (tick st) (frame_buffer st)).
Proof.
  unfold final_update, time_time, tick. destruct (0 <? frame_buffer st) eqn:E; [| auto].
  fields. destruct (negb _); [| auto]. right. right. split; [lia | reflexivity].
Qed.



(** After its first statement [_finalize_decoding] leaves the figures of
    the dashboard and the buffers alone. *)
Lemma finalize_telemetry (st : VhsDecodeApp) (return_code : Z)
    (error_message : option string) :
  let st' := _finalize_decoding clock st return_code error_message in
  current_frame st' = current_frame (final_update clock st)
  /\ dropped_field_count st' = dropped_field_count (final_update clock st)
  /\ track_skip_count st' = track_skip_count (final_update clock st)
  /\ frame_buffer st' = frame_buffer (final_update clock st)
  /\ dropped_field_buffer st' = dropped_field_buffer (final_update clock st)
  /\ track_skip_buffer st' = track_skip_buffer (final_update clock st)
  /\ updates st' = updates (final_update clock st).
Proof.
  cbv zeta. unfold _finalize_decoding, time_time.
  generalize (final_update clock st). intros s.
  destruct (truthy error_message); [fields; repeat split; reflexivity |].
  destruct (return_code =? 0).
  - fields. destruct (_ && _); fields; repeat split; reflexivity.
  - fields. destruct (process s) as [p |]; [| repeat split; reflexivity].
    destruct (match returncode p with Some c => existsb (Z.eqb c) signal_codes | None => false end);
      fields; repeat split; reflexivity.
Qed.

Lemma start_decoding_fields (st : VhsDecodeApp) (input_path : string) :
  decoding_in_progress st = false -> input_path <> "" ->
  let st0 := _start_decoding clock st input_path true in
  (current_frame st0 = 0 /\ dropped_field_count st0 = 0 /\ track_skip_count st0 = 0)
  /\ (frame_buffer st0 = 0 /\ dropped_field_buffer st0 = 0 /\ track_skip_buffer st0 = 0)
  /\ updates st0 = []
  /\ start_time st0 = clock (ticks st)
  /\ last_gui_update_time st0 = clock (ticks st)
  /\ ticks st0 = S (ticks st)
  /\ decoding_in_progress st0 = true
  /\ cancel_button_enabled st0 = true.
Proof.
  intros Hd Hp. cbv zeta. unfold _start_decoding, time_time. rewrite Hd.
  apply String.eqb_neq in Hp. rewrite Hp. cbn [orb negb]. fields.
  repeat split; reflexivity.
Qed.

Definition dropped_seen (st : VhsDecodeApp) : Z :=
  dropped_field_count st + dropped_field_buffer st.

Definition skips_seen (st : VhsDecodeApp) : Z :=
  track_skip_count st + track_skip_buffer st.

Lemma update_gui_status_seen (st : VhsDecodeApp) (f : Z) :
  dropped_seen (_update_gui_status clock st f) = dropped_seen st
  /\ skips_seen (_update_gui_status clock st f) = skips_seen st.
Proof.
  destruct (update_gui_status_fields clock st f) as (_ & H1 & H2 & H3 & H4 & _).
  unfold dropped_seen, skips_seen. rewrite H1, H2, H3, H4. lia.
Qed.

Lemma count_lines_cons (f : string -> bool) (l : string) (ls : list string) :
  count_lines f (l :: ls) = (if f l then 1 else 0) + count_lines f ls.
Proof.
  unfold count_lines. cbn [filter]. destruct (f l); cbn [List.length]; lia.
Qed.

Lemma process_output_line_seen (st : VhsDecodeApp) (line : string) :
  dropped_seen (_process_output_line clock st line)
  = dropped_seen st + (if is_dropped line then 1 else 0)
  /\ skips_seen (_process_output_line clock st line)
     = skips_seen st + (if is_skip line then 1 else 0).
Proof.
  rewrite process_output_line_classify. unfold is_dropped, is_skip.
  destruct (classify line) as [[n | | | text] |].
  - destruct (throttled_update_cases (set_frame_buffer n st)) as [(_ & ->) | (_ & ->)].
    + unfold dropped_seen, skips_seen. fields. lia.
    + destruct (update_gui_status_seen (tick (set_frame_buffer n st)) n) as (H1 & H2).
      cbn [frame_buffer set_frame_buffer]. rewrite H1, H2.
      unfold dropped_seen, skips_seen. fields. lia.
  - unfold dropped_seen, skips_seen. fields. lia.
  - unfold dropped_seen, skips_seen. fields. lia.
  - unfold dropped_seen, skips_seen. fields. lia.
  - lia.
Qed.

Lemma run_lines_seen (lines : list string) (st : VhsDecodeApp) :
  dropped_seen (run_lines clock st lines) = dropped_seen st + count_lines is_dropped lines
  /\ skips_seen (run_lines clock st lines) = skips_seen st + count_lines is_skip lines.
Proof.
  revert st. induction lines as [| l ls IH]; intros st.
  - unfold count_lines. cbn [run_lines fold_left filter List.length]. lia.
  - cbn [run_lines fold_left]. fold (run_lines clock (_process_output_line clock st l) ls).
    destruct (IH (_process_output_line clock st l)) as (H1 & H2).
    destruct (process_output_line_seen st l) as (H3 & H4).
    rewrite H1, H2, H3, H4, !count_lines_cons. lia.
Qed.


(** *** Monotone telemetry *)

Lemma update_gui_status_counts (st : VhsDecodeApp) (f : Z) :
  0 <= dropped_field_buffer st -> 0 <= track_skip_buffer st ->
  counts_le st (_update_gui_status clock st f)
  /\ dropped_field_buffer (_update_gui_status clock st f) = 0
  /\ track_skip_buffer (_update_gui_status clock st f) = 0.
Proof.
  intros Hd Hs.
  destruct (update_gui_status_fields clock st f) as (_ & H1 & H2 & H3 & H4 & _).
  unfold counts_le. rewrite H1, H2, H3, H4. lia.
Qed.

Definition buffers_nonneg (st : VhsDecodeApp) : Prop :=
  0 <= dropped_field_buffer st /\ 0 <= track_skip_buffer st.

Lemma process_output_line_counts (st : VhsDecodeApp) (line : string) :
  buffers_nonneg st ->
  counts_le st (_process_output_line clock st line)
  /\ buffers_nonneg (_process_output_line clock st line).
Proof.
  intros (Hd & Hs). rewrite process_output_line_classify.
  destruct (classify line) as [[n | | | text] |];
    try (unfold counts_le, buffers_nonneg; fields; lia).
  destruct (throttled_update_cases (set_frame_buffer n st)) as [(_ & ->) | (_ & ->)].
  - unfold counts_le, buffers_nonneg; fields; lia.
  - destruct (update_gui_status_counts (tick (set_frame_buffer n st)) n Hd Hs)
      as (H1 & H2 & H3).
    cbn [frame_buffer set_frame_buffer]. unfold buffers_nonneg.
    rewrite H2, H3. split; [exact H1 | lia].
Qed.

Lemma counts_le_trans (a b c : VhsDecodeApp) :
  counts_le a b -> counts_le b c -> counts_le a c.
Proof. unfold counts_le. lia. Qed.

Lemma run_lines_counts (lines : list string) (st : VhsDecodeApp) :
  buffers_nonneg st ->
  counts_le st (run_lines clock st lines) /\ buffers_nonneg (run_lines clock st lines).
Proof.
  revert st. induction lines as [| l ls IH]; intros st Hb.
  - cbn [run_lines fold_left]. split; [unfold counts_le; lia | exact Hb].
  - cbn [run_lines fold_left]. fold (run_lines clock (_process_output_line clock st l) ls).
    destruct (process_output_line_counts st l Hb) as (H1 & H2).
    destruct (IH _ H2) as (H3 & H4).
    split; [exact (counts_le_trans _ _ _ H1 H3) | exact H4].
Qed.

Lemma finalize_counts (st : VhsDecodeApp) (return_code : Z)
    (error_message : option string) :
  buffers_nonneg st ->
  counts_le st (_finalize_decoding clock st return_code error_message).
Proof.
  intros (Hd & Hs).
  destruct (finalize_telemetry st return_code error_message) as (_ & Hc & Hk & _).
  unfold counts_le. rewrite Hc, Hk.
  destruct (final_update_cases st) as [-> | [-> | (_ & ->)]].
  - lia.
  - fields. lia.
  - apply (update_gui_status_counts (tick st) (frame_buffer st) Hd Hs).
Qed.

(** The frame shown is never ahead of the latest frame received. *)
Definition shown_le_latest (st : VhsDecodeApp) : Prop :=
  current_frame st <= frame_buffer st.

Lemma process_output_line_frame (st : VhsDecodeApp) (line : string) :
  shown_le_latest st ->
  match classify line with
  | Some (FrameProgress n) =>
      frame_buffer (_process_output_line clock st line) = n
      /\ (frame_buffer st <= n ->
          current_frame st <= current_frame (_process_output_line clock st line)
          /\ shown_le_latest (_process_output_line clock st line))
  | _ =>
      frame_buffer (_process_output_line clock st line) = frame_buffer st
      /\ current_frame (_process_output_line clock st line) = current_frame st
  end.
Proof.
  intros Hs. rewrite process_output_line_classify.
  destruct (classify line) as [[n | | | text] |]; try (split; reflexivity).
  destruct (throttled_update_cases (set_frame_buffer n st)) as [(_ & ->) | (_ & ->)].
  - unfold shown_le_latest in *. fields. split; [reflexivity | lia].
  - destruct (update_gui_status_fields clock (tick (set_frame_buffer n st)) n)
      as (H1 & _ & _ & _ & _ & H2 & _).
    cbn [frame_buffer set_frame_buffer tick set_ticks] in *.
    unfold shown_le_latest in *. rewrite H1, H2. fields. split; [reflexivity | lia].
Qed.

Lemma run_lines_app (st : VhsDecodeApp) (l1 l2 : list string) :
  run_lines clock st (l1 ++ l2)%list = run_lines clock (run_lines clock st l1) l2.
Proof. unfold run_lines. apply fold_left_app. Qed.

Lemma frames_of_app (l1 l2 : list string) :
  frames_of (l1 ++ l2)%list = (frames_of l1 ++ frames_of l2)%list.
Proof.
  induction l1 as [| l l1 IH]; [reflexivity |]. cbn [frames_of List.app].
  destruct (classify l) as [[n | | | text] |]; rewrite IH; reflexivity.
Qed.

Lemma last_cons (n : Z) (l : list Z) (d : Z) : last (n :: l) d = last l n.
Proof.
  revert n d. induction l as [| z l IH]; intros n d; [reflexivity |].
  change (last (n :: z :: l) d) with (last (z :: l) d).
  rewrite (IH z d), (IH z n). reflexivity.
Qed.

(** Along progress lines whose frame numbers do not decrease, starting at
    or above the latest frame received, the frame shown does not decrease. *)
Lemma run_lines_frame (lines : list string) (st : VhsDecodeApp) :
  shown_le_latest st ->
  StronglySorted Z.le (frame_buffer st :: frames_of lines) ->
  current_frame st <= current_frame (run_lines clock st lines)
  /\ shown_le_latest (run_lines clock st lines)
  /\ frame_buffer (run_lines clock st lines) = last (frames_of lines) (frame_buffer st).
Proof.
  revert st. induction lines as [| l ls IH]; intros st Hs Hsorted.
  - cbn [run_lines fold_left frames_of last]. split; [lia | split; [exact Hs | reflexivity]].
  - cbn [run_lines fold_left]. fold (run_lines clock (_process_output_line clock st l) ls).
    pose proof (process_output_line_frame st l Hs) as Hstep.
    cbn [frames_of] in *.
    destruct (classify l) as [[n | | | text] |].
    + destruct Hstep as (Hb & Hstep).
      apply StronglySorted_inv in Hsorted as (Hrest & Hall).
      pose proof (Forall_inv Hall) as Hn. cbv beta in Hn.
      destruct (Hstep Hn) as (Hc & Hs').
      destruct (IH (_process_output_line clock st l) Hs') as (H1 & H2 & H3).
      { rewrite Hb. exact Hrest. }
      split; [lia | split; [exact H2 |]].
      rewrite H3, Hb, last_cons. reflexivity.
    + destruct Hstep as (Hb & Hc).
      destruct (IH (_process_output_line clock st l)) as (H1 & H2 & H3).
      { unfold shown_le_latest in *. rewrite Hb, Hc. exact Hs. }
      { rewrite Hb. exact Hsorted. }
      rewrite Hb, Hc in *. auto.
    + destruct Hstep as (Hb & Hc).
      destruct (IH (_process_output_line clock st l)) as (H1 & H2 & H3).
      { unfold shown_le_latest in *. rewrite Hb, Hc. exact Hs. }
      { rewrite Hb. exact Hsorted. }
      rewrite Hb, Hc in *. auto.
    + destruct Hstep as (Hb & Hc).
      destruct (IH (_process_output_line clock st l)) as (H1 & H2 & H3).
      { unfold shown_le_latest in *. rewrite Hb, Hc. exact Hs. }
      { rewrite Hb. exact Hsorted. }
      rewrite Hb, Hc in *. auto.
    + destruct Hstep as (Hb & Hc).
      destruct (IH (_process_output_line clock st l)) as (H1 & H2 & H3).
      { unfold shown_le_latest in *. rewrite Hb, Hc. exact Hs. }
      { rewrite Hb. exact Hsorted. }
      rewrite Hb, Hc in *. auto.
Qed.

Lemma finalize_frame (st : VhsDecodeApp) (return_code : Z)
    (error_message : option string) :
  shown_le_latest st ->
  current_frame st
  <= current_frame (_finalize_decoding clock st return_code error_message).
Proof.
  intros Hs.
  destruct (finalize_telemetry st return_code error_message) as (Hc & _).
  rewrite Hc.
  destruct (final_update_cases st) as [-> | [-> | (_ & ->)]].
  - lia.
  - fields. lia.
  - destruct (update_gui_status_fields clock (tick st) (frame_buffer st)) as (H1 & _).
    rewrite H1. exact Hs.
Qed.

Lemma frames_of_nonneg (lines : list string) :
  Forall (fun n => 0 <= n) (frames_of lines).
Proof.
  induction lines as [| l ls IH]; cbn [frames_of]; [constructor |].
  destruct (classify l) as [[n | | | text] |] eqn:E; try exact IH.
  constructor; [| exact IH].
  destruct (classify_frame_inv l n E) as (ds & Hm & ->).
  destruct Hm as (_ & _ & _ & _ & Hd). apply digits_value_nonneg, Hd.
Qed.

Lemma sorted_from_last (x : Z) (l1 l2 : list Z) :
  StronglySorted Z.le (x :: l1 ++ l2)%list -> StronglySorted Z.le (last l1 x :: l2).
Proof.
  revert x. induction l1 as [| y l1 IH]; intros x H.
  - exact H.
  - apply StronglySorted_inv in H as (Hrest & _).
    rewrite last_cons. apply IH, Hrest.
Qed.

Lemma sorted_prefix (x : Z) (l1 l2 : list Z) :
  StronglySorted Z.le (x :: l1 ++ l2)%list -> StronglySorted Z.le (x :: l1).
Proof.
  revert x. induction l1 as [| y l1 IH]; intros x H.
  - repeat constructor.
  - apply StronglySorted_inv in H as (Hrest & Hall).
    constructor; [apply IH, Hrest |].
    apply Forall_forall. intros z Hz. rewrite Forall_forall in Hall.
    apply Hall. fields. destruct Hz as [-> | Hz]; [left; reflexivity | right].
    apply in_or_app. left. exact Hz.
Qed.


Lemma sorted_from_zero (l : list Z) :
  Forall (fun n => 0 <= n) l -> StronglySorted Z.le l -> StronglySorted Z.le (0 :: l).
Proof. intros Hall Hs. constructor; assumption. Qed.

(** C3 (as amended): an accepted start sets the frame and the two counts
    shown to 0; from then on, over any lines and the final update, the two
    counts never decrease, and the frame shown never decreases provided the
    frame numbers of the progress lines do not decrease. *)
Theorem telemetry_monotone (st : VhsDecodeApp) (input_path : string)
    (lines1 lines2 : list string) (return_code : Z) (error_message : option string)
    (Hidle : decoding_in_progress st = false) (Hpath : input_path <> "") :
  let st0 := _start_decoding clock st input_path true in
  let st1 := run_lines clock st0 lines1 in
  let st2 := run_lines clock st1 lines2 in
  let st3 := _finalize_decoding clock st2 return_code error_message in
  (current_frame st0 = 0 /\ dropped_field_count st0 = 0 /\ track_skip_count st0 = 0)
  /\ dropped_field_count st1 <= dropped_field_count st2 <= dropped_field_count st3
  /\ track_skip_count st1 <= track_skip_count st2 <= track_skip_count st3
  /\ (StronglySorted Z.le (frames_of (lines1 ++ lines2)%list) ->
      current_frame st1 <= current_frame st2 <= current_frame st3).
Proof.
  cbv zeta.
  destruct (start_decoding_fields st input_path Hidle Hpath)
    as ((Hcf & Hdc & Hsc) & (Hfb & Hdb & Hsb) & _).
  generalize dependent (_start_decoding clock st input_path true).
  intros st0 Hcf Hdc Hsc Hfb Hdb Hsb.
  assert (B0 : buffers_nonneg st0) by (unfold buffers_nonneg; lia).
  destruct (run_lines_counts lines1 st0 B0) as (_ & B1).
  assert (S0 : shown_le_latest st0) by (unfold shown_le_latest; lia).
  pose proof (run_lines_frame lines1 st0 S0) as F1. rewrite Hfb in F1.
  generalize dependent (run_lines clock st0 lines1). intros st1 B1 F1.
  destruct (run_lines_counts lines2 st1 B1) as (C12 & B2).
  pose proof (run_lines_frame lines2 st1) as F2.
  generalize dependent (run_lines clock st1 lines2). intros st2 C12 B2 F2.
  pose proof (finalize_counts st2 return_code error_message B2) as C23.
  pose proof (finalize_frame st2 return_code error_message) as F3.
  unfold counts_le in C12, C23.
  split; [auto |]. split; [lia |]. split; [lia |].
  intros Hsorted. rewrite frames_of_app in Hsorted.
  assert (Hz : StronglySorted Z.le (0 :: frames_of lines1 ++ frames_of lines2)%list).
  { apply sorted_from_zero; [| exact Hsorted].
    rewrite <- frames_of_app. apply frames_of_nonneg. }
  destruct (F1 (sorted_prefix _ _ _ Hz)) as (_ & S1 & L1).
  destruct (F2 S1) as (F12 & S2 & _).
  { rewrite L1. exact (sorted_from_last _ _ _ Hz). }
  specialize (F3 S2). lia.
Qed.

End Run.

(** ** The throttle *)

Section Throttle.

Variable clock : nat -> Q.

(** The wall clock does not run backwards. *)
Hypothesis clock_mono : forall n m : nat, (n <= m)%nat -> (clock n <= clock m)%Q.

Definition throttle_inv (st : VhsDecodeApp) : Prop :=
  spaced (updates st)
  /\ (start_time st <= last_gui_update_time st)%Q
  /\ (forall s, In s (updates st) ->
        (snap_time s <= last_gui_update_time st)%Q
        /\ (start_time st + THROTTLE_INTERVAL <= snap_time s)%Q
        /\ exists k, (k < ticks st)%nat /\ snap_time s = clock k).

Lemma spaced_cons (s : snapshot) (l : list snapshot) :
  (forall b, In b l -> (snap_time b + THROTTLE_INTERVAL <= snap_time s)%Q) ->
  spaced l -> spaced (s :: l).
Proof.
  intros H Hl. destruct l as [| b l]; [exact I |].
  split; [apply H; left; reflexivity | exact Hl].
Qed.

Lemma throttled_update_inv (st : VhsDecodeApp) :
  throttle_inv st -> throttle_inv (throttled_update clock st).
Proof.
  intros (Hsp & Hst & Hall).
  destruct (throttled_update_cases clock st) as [(_ & ->) | (Hdue & ->)].
  - unfold throttle_inv. fields. split; [exact Hsp |]. split; [exact Hst |].
    intros s Hs. destruct (Hall s Hs) as (H1 & H2 & k & Hk & Ek).
    split; [exact H1 |]. split; [exact H2 |]. exists k. split; [apply Nat.lt_lt_succ_r, Hk | exact Ek].
  - apply Qle_bool_iff in Hdue. unfold THROTTLE_INTERVAL in *.
    pose proof (clock_mono (ticks st) (S (ticks st)) ltac:(lia)) as Hm.
    destruct (update_gui_status_fields clock (tick st) (frame_buffer st))
      as (_ & _ & _ & _ & _ & _ & Hl & Ht & Hs0 & Hu).
    unfold throttle_inv. rewrite Hl, Ht, Hs0, Hu. fields.
    unfold THROTTLE_INTERVAL in *.
    split; [| split].
    + apply spaced_cons; [| exact Hsp].
      intros b Hb. destruct (Hall b Hb) as (H1 & _). cbn [snap_time].
      unfold THROTTLE_INTERVAL. lra.
    + lra.
    + intros s [<- | Hs]; cbn [snap_time].
      * split; [lra |]. split; [lra |]. exists (S (ticks st)).
        split; [apply Nat.lt_succ_diag_r | reflexivity].
      * destruct (Hall s Hs) as (H1 & H2 & k & Hk & Ek).
        split; [lra |]. split; [exact H2 |]. exists k.
        split; [apply Nat.lt_lt_succ_r, Nat.lt_lt_succ_r, Hk | exact Ek].
Qed.

Lemma process_output_line_inv (st : VhsDecodeApp) (line : string) :
  throttle_inv st -> throttle_inv (_process_output_line clock st line).
Proof.
  intros H. rewrite process_output_line_classify.
  destruct (classify line) as [[n | | | text] |]; try exact H.
  apply throttled_update_inv. exact H.
Qed.

Lemma run_lines_inv (lines : list string) (st : VhsDecodeApp) :
  throttle_inv st -> throttle_inv (run_lines clock st lines).
Proof.
  revert st. induction lines as [| l ls IH]; intros st H; [exact H |].
  cbn [run_lines fold_left]. apply IH, process_output_line_inv, H.
Qed.


Lemma throttled_update_updates (st : VhsDecodeApp) :
  start_time (throttled_update clock st) = start_time st
  /\ frame_buffer (throttled_update clock st) = frame_buffer st
  /\ (updates (throttled_update clock st) = updates st
      \/ exists s, updates (throttled_update clock st) = s :: updates st
                   /\ snap_frame s = frame_buffer st).
Proof.
  destruct (throttled_update_cases clock st) as [(_ & ->) | (_ & ->)].
  - fields. auto.
  - destruct (update_gui_status_fields clock (tick st) (frame_buffer st))
      as (_ & _ & _ & _ & _ & Hf & _ & _ & Hs0 & Hu).
    rewrite Hs0, Hf, Hu. fields. split; [reflexivity |]. split; [reflexivity |].
    right. eexists. split; reflexivity.
Qed.

Lemma process_output_line_updates (st : VhsDecodeApp) (line : string) :
  start_time (_process_output_line clock st line) = start_time st
  /\ match classify line with
     | Some (FrameProgress n) =>
         frame_buffer (_process_output_line clock st line) = n
         /\ (updates (_process_output_line clock st line) = updates st
             \/ exists s, updates (_process_output_line clock st line) = s :: updates st
                          /\ snap_frame s = n)
     | _ =>
         frame_buffer (_process_output_line clock st line) = frame_buffer st
         /\ updates (_process_output_line clock st line) = updates st
     end.
Proof.
  rewrite process_output_line_classify.
  destruct (classify line) as [[n | | | text] |]; fields; auto.
  destruct (throttled_update_updates (set_frame_buffer n st)) as (H1 & H2 & H3).
  rewrite H1, H2. fields. fields in *. auto.
Qed.

Lemma run_lines_updates (lines : list string) (st : VhsDecodeApp) :
  start_time (run_lines clock st lines) = start_time st
  /\ frame_buffer (run_lines clock st lines) = last (frames_of lines) (frame_buffer st)
  /\ (forall s, In s (updates (run_lines clock st lines)) ->
        In s (updates st) \/ In (snap_frame s) (frames_of lines)).
Proof.
  revert st. induction lines as [| l ls IH]; intros st.
  - cbn [run_lines fold_left frames_of last]. auto.
  - cbn [run_lines fold_left frames_of].
    fold (run_lines clock (_process_output_line clock st l) ls).
    destruct (IH (_process_output_line clock st l)) as (H1 & H2 & H3).
    destruct (process_output_line_updates st l) as (P1 & P2).
    rewrite H1, H2, P1. split; [reflexivity |].
    destruct (classify l) as [[n | | | text] |];
      try (destruct P2 as (-> & P2); rewrite P2 in H3; split; [reflexivity | exact H3]).
    destruct P2 as (-> & P2). split; [apply eq_sym, last_cons |].
    intros s Hs. destruct (H3 s Hs) as [Hin | Hin].
    + destruct P2 as [-> | (s' & -> & Hf)] in Hin; [left; exact Hin |].
      destruct Hin as [<- | Hin]; [right; left; symmetry; exact Hf | left; exact Hin].
    + right. right. exact Hin.
Qed.

Lemma last_In (l : list Z) (d : Z) : l <> [] -> In (last l d) l.
Proof.
  induction l as [| x l IH]; intros H; [contradiction |].
  destruct l as [| y l]; [left; reflexivity |].
  right. apply IH. discriminate.
Qed.

Lemma start_decoding_inv (st : VhsDecodeApp) (input_path : string) :
  decoding_in_progress st = false -> input_path <> "" ->
  throttle_inv (_start_decoding clock st input_path true).
Proof.
  intros Hidle Hpath.
  destruct (start_decoding_fields clock st input_path Hidle Hpath)
    as (_ & _ & Hu & Hs & Hl & _).
  unfold throttle_inv. rewrite Hu, Hs, Hl.
  split; [exact I |]. split; [apply Qle_refl |]. intros s [].
Qed.

(** C4: with a clock that does not run backwards, the dashboard updates
    made while the lines of a run are processed lie at least
    [THROTTLE_INTERVAL] apart, each shows the frame number of a progress
    line of the run, and [_finalize_decoding] adds at most one more update,
    the only one not held to the interval. *)
Theorem throttled_updates_spaced (st : VhsDecodeApp) (input_path : string)
    (lines : list string) (return_code : Z) (error_message : option string)
    (Hidle : decoding_in_progress st = false) (Hpath : input_path <> "") :
  let st1 := run_lines clock (_start_decoding clock st input_path true) lines in
  let st2 := _finalize_decoding clock st1 return_code error_message in
  spaced (updates st1)
  /\ (forall s, In s (updates st1) -> In (snap_frame s) (frames_of lines))
  /\ (updates st2 = updates st1
      \/ exists s, updates st2 = s :: updates st1
                   /\ In (snap_frame s) (frames_of lines)).
Proof.
  cbv zeta.
  pose proof (start_decoding_inv st input_path Hidle Hpath) as K0.
  destruct (start_decoding_fields clock st input_path Hidle Hpath)
    as (_ & (Hfb & _) & Hu & _).
  generalize dependent (_start_decoding clock st input_path true). intros st0 K0 Hfb Hu.
  destruct (run_lines_inv lines st0 K0) as (Hsp & _).
  destruct (run_lines_updates lines st0) as (_ & Hlast & Hfr).
  rewrite Hu in Hfr. rewrite Hfb in Hlast.
  generalize dependent (run_lines clock st0 lines). intros st1 Hsp Hlast Hfr.
  split; [exact Hsp |]. split.
  - intros s Hs. destruct (Hfr s Hs) as [[] | H]. exact H.
  - destruct (finalize_telemetry clock st1 return_code error_message)
      as (_ & _ & _ & _ & _ & _ & ->).
    destruct (final_update_cases clock st1) as [-> | [-> | (Hpos & ->)]].
    + left. reflexivity.
    + left. reflexivity.
    + right.
      destruct (update_gui_status_fields clock (tick st1) (frame_buffer st1))
        as (_ & _ & _ & _ & _ & _ & _ & _ & _ & ->).
      eexists. split; [reflexivity |]. cbn [snap_frame]. rewrite Hlast in *.
      apply last_In. intros E. rewrite E in Hpos. cbn [last] in Hpos. lia.
Qed.

(** C10: the throttle clock is seeded with the launch time, the clock
    reading [_start_decoding] takes, like the start time; so no update
    made while the lines are processed comes earlier than
    [THROTTLE_INTERVAL] after the launch, and if every clock reading of the
    run is below the launch time plus twice the interval, at most one such
    update is made. *)
Theorem first_update_after_interval (st : VhsDecodeApp) (input_path : string)
    (lines : list string)
    (Hidle : decoding_in_progress st = false) (Hpath : input_path <> "") :
  let launch := clock (ticks st) in
  let st0 := _start_decoding clock st input_path true in
  let st1 := run_lines clock st0 lines in
  start_time st0 = launch
  /\ last_gui_update_time st0 = launch
  /\ (forall s, In s (updates st1) -> (launch + THROTTLE_INTERVAL <= snap_time s)%Q)
  /\ ((forall k, (k < ticks st1)%nat -> (clock k < launch + 2 * THROTTLE_INTERVAL)%Q) ->
      (List.length (updates st1) <= 1)%nat).
Proof.
  cbv zeta.
  pose proof (start_decoding_inv st input_path Hidle Hpath) as K0.
  destruct (start_decoding_fields clock st input_path Hidle Hpath)
    as (_ & _ & _ & Hs & Hl & _).
  split; [exact Hs |]. split; [exact Hl |]. rewrite <- Hs. clear Hs Hl.
  generalize dependent (_start_decoding clock st input_path true). intros st0 K0.
  destruct (run_lines_inv lines st0 K0) as (Hsp & _ & Hall).
  destruct (run_lines_updates lines st0) as (Hst & _).
  rewrite Hst in Hall.
  generalize dependent (run_lines clock st0 lines). intros st1 Hsp Hall _.
  split; [intros s Hs; apply (Hall s Hs) |].
  intros Hshort.
  destruct (updates st1) as [| a [| b l]]; cbn [List.length]; try lia.
  exfalso. destruct Hsp as (Hab & _).
  destruct (Hall b (or_intror (or_introl eq_refl))) as (_ & Hb & _).
  destruct (Hall a (or_introl eq_refl)) as (_ & _ & k & Hk & Ek).
  specialize (Hshort k Hk). rewrite <- Ek in Hshort.
  unfold THROTTLE_INTERVAL in *. lra.
Qed.

End Throttle.

(** ** Concrete runs *)

Lemma clock5_mono (n m : nat) : (n <= m)%nat -> (clock5 n <= clock5 m)%Q.
Proof. intros H. unfold clock5. rewrite <- Zle_Qle. lia. Qed.

(** A state fresh from [__init__] under [clock5], started on a capture. *)
Definition started5 : VhsDecodeApp :=
  _start_decoding clock5 (init clock5) "capture.flac" true.

Definition sample_lines : list string :=
  ["File Frame 1: VHS"; "dropping field"; "skipped a track";
   "File Frame 2: VHS"; "dropping field again"].



Lemma telemetry_monotone_witness :
  (current_frame started5 = 0 /\ dropped_field_count started5 = 0
   /\ track_skip_count started5 = 0)
  /\ dropped_field_count (run_lines clock5 started5 ["File Frame 1: VHS"; "dropping field"])
     <= dropped_field_count
          (run_lines clock5
             (run_lines clock5 started5 ["File Frame 1: VHS"; "dropping field"])
             ["File Frame 2: VHS"; "skipped a track"])
     <= dropped_field_count
          (_finalize_decoding clock5
             (run_lines clock5
                (run_lines clock5 started5 ["File Frame 1: VHS"; "dropping field"])
                ["File Frame 2: VHS"; "skipped a track"]) 0 None)
  /\ track_skip_count (run_lines clock5 started5 ["File Frame 1: VHS"; "dropping field"])
     <= track_skip_count
          (run_lines clock5
             (run_lines clock5 started5 ["File Frame 1: VHS"; "dropping field"])
             ["File Frame 2: VHS"; "skipped a track"])
     <= track_skip_count
          (_finalize_decoding clock5
             (run_lines clock5
                (run_lines clock5 started5 ["File Frame 1: VHS"; "dropping field"])
                ["File Frame 2: VHS"; "skipped a track"]) 0 None)
  /\ (StronglySorted Z.le
        (frames_of (["File Frame 1: VHS"; "dropping field"]
                    ++ ["File Frame 2: VHS"; "skipped a track"])%list) ->
      current_frame (run_lines clock5 started5 ["File Frame 1: VHS"; "dropping field"])
      <= current_frame
           (run_lines clock5
              (run_lines clock5 started5 ["File Frame 1: VHS"; "dropping field"])
              ["File Frame 2: VHS"; "skipped a track"])
      <= current_frame
           (_finalize_decoding clock5
              (run_lines clock5
                 (run_lines clock5 started5 ["File Frame 1: VHS"; "dropping field"])
                 ["File Frame 2: VHS"; "skipped a track"]) 0 None)).
Proof.
  apply (telemetry_monotone clock5 (init clock5) "capture.flac"
           ["File Frame 1: VHS"; "dropping field"]
           ["File Frame 2: VHS"; "skipped a track"] 0 None);
    [reflexivity | discriminate].
Defined.

(** C3 as stated fails for the frame: the dashboard shows the number of the
    latest progress line, so a lower number after a higher one lowers it. *)
Lemma shown_frame_can_decrease :
  current_frame (run_lines clock5 started5 ["File Frame 100: VHS"]) = 100
  /\ current_frame
       (run_lines clock5 started5 ["File Frame 100: VHS"; "File Frame 50: VHS"]) = 50
  /\ ~ (current_frame (run_lines clock5 started5 ["File Frame 100: VHS"])
        <= current_frame
             (run_lines clock5 started5 ["File Frame 100: VHS"; "File Frame 50: VHS"])).
Proof.
  assert (E1 : current_frame (run_lines clock5 started5 ["File Frame 100: VHS"]) = 100)
    by (vm_compute; reflexivity).
  assert (E2 : current_frame
                 (run_lines clock5 started5 ["File Frame 100: VHS"; "File Frame 50: VHS"])
               = 50) by (vm_compute; reflexivity).
  rewrite E1, E2. repeat split. lia.
Qed.

Lemma throttled_updates_spaced_witness :
  spaced (updates (run_lines clock5 started5 sample_lines))
  /\ (forall s, In s (updates (run_lines clock5 started5 sample_lines)) ->
        In (snap_frame s) (frames_of sample_lines))
  /\ (updates (_finalize_decoding clock5 (run_lines clock5 started5 sample_lines) 0 None)
      = updates (run_lines clock5 started5 sample_lines)
      \/ exists s,
           updates (_finalize_decoding clock5 (run_lines clock5 started5 sample_lines) 0 None)
           = s :: updates (run_lines clock5 started5 sample_lines)
           /\ In (snap_frame s) (frames_of sample_lines)).
Proof.
  apply (throttled_updates_spaced clock5 clock5_mono (init clock5) "capture.flac"
           sample_lines 0 None); [reflexivity | discriminate].
Defined.

(** A clock that reads 3 seconds at the start and ends the run before 20:
    the readings 0, 3, 9, 10, 11, 12, ... *)
Definition clock_short (n : nat) : Q :=
  match n with
  | O => 0
  | S O => 3
  | S (S k) => inject_Z (9 + Z.of_nat k)
  end.

Lemma clock_short_mono (n m : nat) : (n <= m)%nat -> (clock_short n <= clock_short m)%Q.
Proof.
  intros H. destruct n as [| [| n]], m as [| [| m]]; cbn [clock_short];
    try lia; try (apply Qle_refl);
    try (change 0%Q with (inject_Z 0)); try (change 3%Q with (inject_Z 3));
    rewrite <- Zle_Qle; lia.
Qed.

Definition short_lines : list string :=
  ["File Frame 1: VHS"; "File Frame 2: VHS"; "File Frame 3: VHS"].

Lemma first_update_after_interval_witness :
  start_time (_start_decoding clock_short (init clock_short) "capture.flac" true)
  = clock_short (ticks (init clock_short))
  /\ last_gui_update_time (_start_decoding clock_short (init clock_short) "capture.flac" true)
     = clock_short (ticks (init clock_short))
  /\ (forall s,
        In s (updates
                (run_lines clock_short
                   (_start_decoding clock_short (init clock_short) "capture.flac" true)
                   short_lines)) ->
        (clock_short (ticks (init clock_short)) + THROTTLE_INTERVAL <= snap_time s)%Q)
  /\ ((forall k,
         (k < ticks (run_lines clock_short
                       (_start_decoding clock_short (init clock_short) "capture.flac" true)
                       short_lines))%nat ->
         (clock_short k
          < clock_short (ticks (init clock_short)) + 2 * THROTTLE_INTERVAL)%Q) ->
      (List.length
         (updates
            (run_lines clock_short
               (_start_decoding clock_short (init clock_short) "capture.flac" true)
               short_lines)) <= 1)%nat).
Proof.
  apply (first_update_after_interval clock_short clock_short_mono (init clock_short)
           "capture.flac" short_lines); [reflexivity | discriminate].
Defined.

(** In that run the duration bound holds and exactly one update is made
    before the final one. *)
Lemma short_run_one_update :
  (forall k,
     (k < ticks (run_lines clock_short
                   (_start_decoding clock_short (init clock_short) "capture.flac" true)
                   short_lines))%nat ->
     (clock_short k
      < start_time (_start_decoding clock_short (init clock_short) "capture.flac" true)
        + 2 * THROTTLE_INTERVAL)%Q)
  /\ List.length
       (updates
          (run_lines clock_short
             (_start_decoding clock_short (init clock_short) "capture.flac" true)
             short_lines)) = 1%nat.
Proof.
  split; [| vm_compute; reflexivity].
  assert (E : ticks (run_lines clock_short
                       (_start_decoding clock_short (init clock_short) "capture.flac" true)
                       short_lines) = 6%nat) by (vm_compute; reflexivity).
  rewrite E. intros k Hk.
  assert (Hs : start_time (_start_decoding clock_short (init clock_short) "capture.flac" true)
               = 3%Q) by (vm_compute; reflexivity).
  rewrite Hs.
  do 6 (destruct k as [| k]; [vm_compute; reflexivity |]). lia.
Qed.

(** * Further properties *)

(** ** Stripped lines *)

Section Strip.

Lemma lstrip_spaces (s : string) :
  exists ws, s = ws ++ lstrip s /\ all_space ws = true.
Proof.
  induction s as [| c s (ws & E & H)]; [exists ""; auto |].
  cbn [lstrip]. destruct (is_space c) eqn:Hc.
  - exists (String c ws). cbn [append all_space]. rewrite Hc, H, <- E. auto.
  - exists "". auto.
Qed.

Lemma rstrip_spaces (s : string) :
  exists ws, s = rstrip s ++ ws /\ all_space ws = true.
Proof.
  induction s as [| c s (ws & E & H)]; [exists ""; auto |].
  cbn [rstrip]. destruct (is_space c) eqn:Hc; cbn [andb].
  - destruct (String.eqb_spec (rstrip s) "") as [E0 | _].
    + exists (String c ws). rewrite E0 in E. cbn [append] in *.
      cbn [all_space]. rewrite Hc, H, <- E. auto.
    + exists ws. cbn [append]. rewrite <- E. auto.
  - exists ws. cbn [append]. rewrite <- E. auto.
Qed.

Lemma all_space_app (a b : string) :
  all_space (a ++ b) = all_space a && all_space b.
Proof.
  induction a as [| c a IH]; [reflexivity |].
  cbn [append all_space]. rewrite IH, andb_assoc. reflexivity.
Qed.

(** A text that ends in a visible character and begins [a ++ ws], [ws]
    blank, lies within [a]. *)
Lemma app_spaces_split (m0 : string) (c : ascii) (a ws post : string) :
  is_space c = false -> all_space ws = true ->
  a ++ ws = (m0 ++ String c "") ++ post ->
  exists post', a = (m0 ++ String c "") ++ post'.
Proof.
  intros Hc Hws. revert m0. induction a as [| x a IH]; intros m0 E.
  - cbn [append] in E. rewrite E, !all_space_app in Hws.
    cbn [all_space] in Hws. rewrite Hc in Hws.
    rewrite andb_false_r in Hws. discriminate.
  - destruct m0 as [| y m0]; cbn [append] in E |- *.
    + injection E as -> _. exists a. reflexivity.
    + injection E as -> E. destruct (IH m0 E) as (post' & ->).
      exists post'. reflexivity.
Qed.

Lemma contains_lstrip (c : ascii) (n0 s : string) :
  is_space c = false ->
  contains (String c n0) (lstrip s) = contains (String c n0) s.
Proof.
  intros Hc. induction s as [| x s IH]; [reflexivity |].
  cbn [lstrip]. destruct (is_space x) eqn:Hx; [| reflexivity].
  rewrite IH. cbn [contains].
  replace (prefix (String c n0) (String x s)) with false; [reflexivity |].
  cbn [prefix]. destruct (ascii_dec c x) as [-> | _]; [congruence | reflexivity].
Qed.

Lemma contains_app_spaces (m0 : string) (c : ascii) (a ws : string) :
  is_space c = false -> all_space ws = true ->
  contains (m0 ++ String c "") (a ++ ws) = contains (m0 ++ String c "") a.
Proof.
  intros Hc Hws. apply eq_true_iff_eq. rewrite !contains_iff. split.
  - intros (pre & post & E).
    rewrite <- append_assoc in E.
    replace (pre ++ m0 ++ String c "") with ((pre ++ m0) ++ String c "") in E
      by apply append_assoc.
    destruct (app_spaces_split (pre ++ m0) c a ws post Hc Hws E) as (post' & ->).
    exists pre, post'. rewrite !append_assoc. reflexivity.
  - intros (pre & post & ->). exists pre, (post ++ ws).
    rewrite !append_assoc. reflexivity.
Qed.

Lemma contains_strip (m0 : string) (c d : ascii) (s : string) :
  is_space c = false -> is_space d = false ->
  contains (String d (m0 ++ String c "")) (strip s)
  = contains (String d (m0 ++ String c "")) s.
Proof.
  intros Hc Hd. unfold strip.
  destruct (rstrip_spaces (lstrip s)) as (ws & E & Hws).
  rewrite <- (contains_lstrip d (m0 ++ String c "") s Hd).
  rewrite E at 2.
  symmetry. apply (contains_app_spaces (String d m0) c _ ws Hc Hws).
Qed.


Lemma FRAME_PATTERN_match_space (x : ascii) (s : string) :
  is_space x = true -> FRAME_PATTERN_match (String x s) = None.
Proof.
  intros Hx. unfold FRAME_PATTERN_match.
  destruct (strip_prefix "File Frame " (String x s)) as [r |] eqn:E; [| reflexivity].
  apply strip_prefix_app in E. injection E as -> _. discriminate Hx.
Qed.

Lemma FRAME_PATTERN_search_spaces (ws : string) :
  all_space ws = true -> FRAME_PATTERN_search ws = None.
Proof.
  induction ws as [| x ws IH]; intros H; [reflexivity |].
  cbn [all_space] in H. apply andb_true_iff in H as (Hx & H).
  cbn [FRAME_PATTERN_search]. rewrite (FRAME_PATTERN_match_space x ws Hx). apply IH, H.
Qed.

Lemma FRAME_PATTERN_search_lstrip (s : string) :
  FRAME_PATTERN_search (lstrip s) = FRAME_PATTERN_search s.
Proof.
  induction s as [| x s IH]; [reflexivity |].
  cbn [lstrip]. destruct (is_space x) eqn:Hx; [| reflexivity].
  rewrite IH. cbn [FRAME_PATTERN_search].
  rewrite (FRAME_PATTERN_match_space x s Hx). reflexivity.
Qed.

(** Blanks after the text neither add nor remove a match at its start. *)
Lemma FRAME_PATTERN_match_app_spaces (b ws : string) :
  all_space ws = true ->
  FRAME_PATTERN_match (b ++ ws) = FRAME_PATTERN_match b.
Proof.
  intros Hws.
  destruct (FRAME_PATTERN_match b) as [g |] eqn:Eb.
  - apply FRAME_PATTERN_match_sound in Eb as ((post & ->) & Hne & Hd).
    rewrite !append_assoc.
    apply (FRAME_PATTERN_match_complete g (post ++ ws) Hne Hd).
  - destruct (FRAME_PATTERN_match (b ++ ws)) as [g |] eqn:E; [| reflexivity].
    apply FRAME_PATTERN_match_sound in E as ((post & E) & Hne & Hd).
    assert (E' : b ++ ws = (("File Frame " ++ g ++ ": VH") ++ String "S" "") ++ post).
    { rewrite E, !append_assoc. reflexivity. }
    destruct (app_spaces_split _ "S" b ws post eq_refl Hws E') as (post' & Hb).
    assert (Hb' : b = "File Frame " ++ g ++ ": VHS" ++ post')
      by (rewrite Hb, !append_assoc; reflexivity).
    rewrite Hb', (FRAME_PATTERN_match_complete g post' Hne Hd) in Eb. discriminate.
Qed.

Lemma FRAME_PATTERN_search_app_spaces (a ws : string) :
  all_space ws = true ->
  FRAME_PATTERN_search (a ++ ws) = FRAME_PATTERN_search a.
Proof.
  intros Hws. induction a as [| x a IH].
  - cbn [append]. rewrite (FRAME_PATTERN_search_spaces ws Hws). reflexivity.
  - change (String x a ++ ws) with (String x (a ++ ws)).
    cbn [FRAME_PATTERN_search].
    change (String x (a ++ ws)) with (String x a ++ ws).
    rewrite (FRAME_PATTERN_match_app_spaces (String x a) ws Hws), IH. reflexivity.
Qed.

Lemma strip_line_kind (line : string) :
  FRAME_PATTERN_search (strip line) = FRAME_PATTERN_search line
  /\ contains DROPPED_FIELD_PATTERN (strip line) = contains DROPPED_FIELD_PATTERN line
  /\ contains TRACK_SKIP_PATTERN (strip line) = contains TRACK_SKIP_PATTERN line.
Proof.
  split; [| split].
  - unfold strip. destruct (rstrip_spaces (lstrip line)) as (ws & E & Hws).
    rewrite <- (FRAME_PATTERN_search_lstrip line). rewrite E at 2.
    symmetry. apply FRAME_PATTERN_search_app_spaces, Hws.
  - apply (contains_strip "ropping fiel" "d" "d" line); reflexivity.
  - apply (contains_strip "kipped a trac" "k" "s" line); reflexivity.
Qed.

End Strip.


(** ** The decode session *)

Section Session.

Variable clock : nat -> Q.

Lemma classify_strip (line : string) :
  is_dropped (strip line) = is_dropped line
  /\ is_skip (strip line) = is_skip line
  /\ frame_of (strip line) = frame_of line.
Proof.
  destruct (strip_line_kind line) as (Hf & Hd & Hs).
  unfold is_dropped, is_skip, frame_of, classify. rewrite Hf, Hd, Hs.
  destruct (String.eqb_spec (strip line) "") as [E | E].
  - rewrite E in Hf, Hd, Hs. rewrite <- Hf, <- Hd, <- Hs.
    destruct (String.eqb line ""); repeat split; reflexivity.
  - destruct (String.eqb_spec line "") as [-> | _]; [exfalso; apply E; reflexivity |].
    destruct (FRAME_PATTERN_search line) as [g |];
      [destruct (Py.int (PyStr g)); repeat split; reflexivity |].
    destruct (contains DROPPED_FIELD_PATTERN line); [repeat split; reflexivity |].
    destruct (contains TRACK_SKIP_PATTERN line); repeat split; reflexivity.
Qed.

(** X2: The reader hands [line.strip()] to [_process_output_line].  The
    blanks and the newline this removes change neither the frame number
    found nor the presence of a marker, so that a progress line and a
    marker line are treated as the unstripped line would be.  A line that
    is logged is logged stripped; and a line of blanks only, which would
    be logged as it is, is ignored once stripped. *)
Theorem strip_keeps_classification (line : string) :
  FRAME_PATTERN_search (strip line) = FRAME_PATTERN_search line
  /\ contains DROPPED_FIELD_PATTERN (strip line) = contains DROPPED_FIELD_PATTERN line
  /\ contains TRACK_SKIP_PATTERN (strip line) = contains TRACK_SKIP_PATTERN line
  /\ classify (strip line)
     = match classify line with
       | Some (PlainLine _) =>
           if String.eqb (strip line) "" then None else Some (PlainLine (strip line))
       | other => other
       end.
Proof.
  destruct (strip_line_kind line) as (Hf & Hd & Hs).
  split; [exact Hf |]. split; [exact Hd |]. split; [exact Hs |].
  unfold classify. rewrite Hf, Hd, Hs.
  destruct (String.eqb_spec (strip line) "") as [E | E].
  - rewrite E in Hf, Hd, Hs. rewrite <- Hf, <- Hd, <- Hs.
    destruct (String.eqb line ""); reflexivity.
  - destruct (String.eqb_spec line "") as [-> | _]; [exfalso; apply E; reflexivity |].
    destruct (FRAME_PATTERN_search line) as [g |];
      [destruct (Py.int (PyStr g)); reflexivity |].
    destruct (contains DROPPED_FIELD_PATTERN line); [reflexivity |].
    destruct (contains TRACK_SKIP_PATTERN line); reflexivity.
Qed.

Lemma frames_of_cons (l : string) (ls : list string) :
  frames_of (l :: ls)
  = (match frame_of l with Some n => [n] | None => [] end ++ frames_of ls)%list.
Proof.
  cbn [frames_of]. unfold frame_of.
  destruct (classify l) as [[n | | | text] |]; reflexivity.
Qed.

Lemma map_strip_counts (raw : list string) :
  count_lines is_dropped (map strip raw) = count_lines is_dropped raw
  /\ count_lines is_skip (map strip raw) = count_lines is_skip raw
  /\ frames_of (map strip raw) = frames_of raw.
Proof.
  induction raw as [| l ls (H1 & H2 & H3)]; [auto |].
  cbn [map]. rewrite !count_lines_cons, !frames_of_cons, H1, H2, H3.
  destruct (classify_strip l) as (-> & -> & ->). auto.
Qed.

Lemma read_loop_run_lines (st : VhsDecodeApp) (output : list string) :
  fold_left (fun st line => _process_output_line clock st (strip line)) output st
  = run_lines clock st (map strip output).
Proof.
  revert st. induction output as [| l ls IH]; intros st; [reflexivity |].
  cbn [fold_left map run_lines]. rewrite IH. reflexivity.
Qed.


Lemma final_update_seen (st : VhsDecodeApp) :
  dropped_seen (final_update clock st) = dropped_seen st
  /\ skips_seen (final_update clock st) = skips_seen st.
Proof.
  destruct (final_update_cases clock st) as [-> | [-> | (_ & ->)]].
  - auto.
  - unfold dropped_seen, skips_seen. fields. auto.
  - destruct (update_gui_status_seen clock (tick st) (frame_buffer st)) as (-> & ->).
    unfold dropped_seen, skips_seen. fields. auto.
Qed.

Lemma finalize_seen (st : VhsDecodeApp) (return_code : Z)
    (error_message : option string) :
  dropped_seen (_finalize_decoding clock st return_code error_message) = dropped_seen st
  /\ skips_seen (_finalize_decoding clock st return_code error_message) = skips_seen st.
Proof.
  destruct (finalize_telemetry clock st return_code error_message)
    as (_ & H1 & H2 & _ & H3 & H4 & _).
  destruct (final_update_seen st) as (F1 & F2).
  unfold dropped_seen, skips_seen in *. rewrite H1, H2, H3, H4. auto.
Qed.

(** X3: No dropped-field or track-skip line of the process output is lost:
    whatever the throttle and the final update did, what the dashboard
    shows plus what is still buffered is the number of such lines. *)
Theorem run_decode_process_counts_all (st : VhsDecodeApp) (input_path : string)
    (output : list string) (return_code : Z)
    (Hidle : decoding_in_progress st = false) (Hpath : input_path <> "") :
  let st' := _run_decode_process clock (_start_decoding clock st input_path true)
               Spawned output return_code in
  dropped_field_count st' + dropped_field_buffer st' = count_lines is_dropped output
  /\ track_skip_count st' + track_skip_buffer st' = count_lines is_skip output.
Proof.
  cbv zeta. unfold _run_decode_process. rewrite read_loop_run_lines.
  destruct (start_decoding_fields clock st input_path Hidle Hpath)
    as ((_ & Hc & Hk) & (_ & Hb & Hkb) & _).
  generalize dependent (_start_decoding clock st input_path true).
  intros st0 Hc Hk Hb Hkb.
  destruct (run_lines_seen clock (map strip output) (popen st0)) as (R1 & R2).
  destruct (map_strip_counts output) as (M1 & M2 & _). rewrite M1 in R1. rewrite M2 in R2.
  generalize dependent (run_lines clock (popen st0) (map strip output)). intros st1 R1 R2.
  destruct (finalize_seen (wait st1 return_code) return_code None) as (F1 & F2).
  fold (dropped_seen (_finalize_decoding clock (wait st1 return_code) return_code None)).
  fold (skips_seen (_finalize_decoding clock (wait st1 return_code) return_code None)).
  rewrite F1, F2.
  assert (W : dropped_seen (wait st1 return_code) = dropped_seen st1
              /\ skips_seen (wait st1 return_code) = skips_seen st1).
  { unfold wait. destruct (process st1); unfold dropped_seen, skips_seen; fields; auto. }
  destruct W as (-> & ->). rewrite R1, R2.
  unfold dropped_seen, skips_seen, popen. fields. lia.
Qed.

(** X4: While lines are processed the log receives exactly the lines that are
    neither progress nor marker lines, in order. *)
Theorem run_lines_log (lines : list string) (st : VhsDecodeApp) :
  log_text_area (run_lines clock st lines)
  = (log_text_area st ++ map LogText (filter is_plain lines))%list.
Proof.
  revert st. induction lines as [| l ls IH]; intros st.
  - cbn [run_lines fold_left filter map]. rewrite app_nil_r. reflexivity.
  - cbn [run_lines fold_left filter].
    fold (run_lines clock (_process_output_line clock st l) ls). rewrite IH.
    rewrite process_output_line_classify. unfold is_plain.
    destruct (String.eqb_spec l "") as [-> | Hne].
    + reflexivity.
    + destruct (classify l) as [[n | | | text] |] eqn:E; fields; try reflexivity.
      * destruct (throttled_update_cases clock (set_frame_buffer n st)) as [(_ & ->) | (_ & ->)].
        -- fields. reflexivity.
        -- destruct (update_gui_status_session clock (tick (set_frame_buffer n st))
                       (frame_buffer (set_frame_buffer n st))) as (_ & _ & _ & _ & ->).
           fields. reflexivity.
      * cbn [map]. rewrite <- app_assoc. cbn [List.app].
        unfold classify in E. destruct (String.eqb l ""); [discriminate |].
        destruct (FRAME_PATTERN_search l) as [g |];
          [destruct (Py.int (PyStr g)); discriminate |].
        destruct (contains DROPPED_FIELD_PATTERN l); [discriminate |].
        destruct (contains TRACK_SKIP_PATTERN l); [discriminate |].
        injection E as <-. reflexivity.
Qed.

End Session.

Section SuccessfulRun.

Variable clock : nat -> Q.

(** Every reading of the clock is later than the one before. *)
Hypothesis clock_increasing : forall n : nat, (clock n < clock (S n))%Q.









End SuccessfulRun.

Section Restart.

Variable clock : nat -> Q.

Lemma start_decoding_session (st : VhsDecodeApp) (input_path : string) :
  decoding_in_progress st = false -> input_path <> "" ->
  let st0 := _start_decoding clock st input_path true in
  process st0 = process st
  /\ decoding_in_progress st0 = true
  /\ cancel_button_enabled st0 = true
  /\ frame_buffer st0 = 0.
Proof.
  intros Hd Hp. cbv zeta. unfold _start_decoding, time_time. rewrite Hd.
  apply String.eqb_neq in Hp. rewrite Hp. cbn [orb negb]. fields.
  repeat split; reflexivity.
Qed.

(** X7: [self.process] is not cleared when a run ends.  A cancel that arrives
    after the next start but before the worker has spawned the new process
    is spent on the finished one: no signal is sent, the cancel button is
    disabled, and the new process cannot be cancelled from the button.  In
    a first run, with no process handle yet, the same early click leaves
    the button enabled and a later click reaches the process. *)
Theorem cancel_before_spawn (ended fresh : VhsDecodeApp) (p : Popen) (c : Z)
    (input_path : string)
    (Hended : decoding_in_progress ended = false)
    (Hp : process ended = Some p) (Hc : returncode p = Some c)
    (Hfresh : decoding_in_progress fresh = false) (Hnone : process fresh = None)
    (Hpath : input_path <> "") :
  let early := click_cancel (_start_decoding clock ended input_path true) in
  let first := click_cancel (_start_decoding clock fresh input_path true) in
  (process early = Some p
   /\ cancel_button_enabled early = false
   /\ click_cancel (popen early) = popen early
   /\ signals (popen early) = 0%nat
   /\ decoding_in_progress (popen early) = true)
  /\ (cancel_button_enabled first = true
      /\ status_message first = StatusNoActiveProcess
      /\ signals (click_cancel (popen first)) = 1%nat).
Proof.
  cbv zeta.
  destruct (start_decoding_session ended input_path Hended Hpath) as (E1 & E2 & E3 & _).
  destruct (start_decoding_session fresh input_path Hfresh Hpath) as (F1 & F2 & F3 & _).
  generalize dependent (_start_decoding clock ended input_path true). intros e E1 E2 E3.
  generalize dependent (_start_decoding clock fresh input_path true). intros f F1 F2 F3.
  assert (Ee : click_cancel e
               = set_cancel_button_enabled false
                   (set_process (Some p) (log LogCancelRequested e))).
  { unfold click_cancel, _cancel_decoding. rewrite E3, E2, E1, Hp.
    unfold terminate. rewrite Hc. reflexivity. }
  assert (Ef : click_cancel f = set_status_message StatusNoActiveProcess f).
  { unfold click_cancel, _cancel_decoding. rewrite F3, F2, F1, Hnone. reflexivity. }
  rewrite Ee, Ef. split.
  - unfold click_cancel, popen, signals. fields.
    repeat split; try reflexivity; exact E2.
  - unfold click_cancel, popen, _cancel_decoding, signals, terminate. fields.
    rewrite F3, F2. fields. repeat split; try reflexivity; exact F3.
Qed.

Lemma start_decoding_display (st : VhsDecodeApp) (input_path : string) :
  decoding_in_progress st = false -> input_path <> "" ->
  timecode (_start_decoding clock st input_path true) = "00:00:00.00"
  /\ decode_fps (_start_decoding clock st input_path true) = FpsValue 0.
Proof.
  intros Hd Hp. unfold _start_decoding, time_time. rewrite Hd.
  apply String.eqb_neq in Hp. rewrite Hp. cbn [orb negb]. fields. auto.
Qed.

Lemma finalize_failed_display (st : VhsDecodeApp) (return_code : Z) (m : string) :
  m <> "" ->
  timecode (_finalize_decoding clock st return_code (Some m))
  = timecode (final_update clock st)
  /\ decode_fps (_finalize_decoding clock st return_code (Some m))
     = decode_fps (final_update clock st).
Proof.
  intros Hm. unfold _finalize_decoding, truthy.
  apply String.eqb_neq in Hm. rewrite Hm. cbn [negb]. fields. auto.
Qed.

(** X6: A launch that fails because the executable is missing ends the session
    at once: the outcome carries the not-found message, the run is no
    longer in progress, and the dashboard stays at its reset values. *)
Theorem launch_failure_reported (st : VhsDecodeApp) (input_path : string)
    (output : list string) (return_code : Z)
    (Hidle : decoding_in_progress st = false) (Hpath : input_path <> "") :
  let st' := _run_decode_process clock (_start_decoding clock st input_path true)
               NotFound output return_code in
  outcome st' = Some (LaunchFailed not_found_message)
  /\ decoding_in_progress st' = false
  /\ cancel_button_enabled st' = false
  /\ current_frame st' = 0
  /\ dropped_field_count st' = 0
  /\ track_skip_count st' = 0
  /\ updates st' = []
  /\ timecode st' = "00:00:00.00"
  /\ decode_fps st' = FpsValue 0.
Proof.
  cbv zeta. unfold _run_decode_process.
  destruct (start_decoding_fields clock st input_path Hidle Hpath)
    as ((Hc & Hd & Hk) & (Hfb & _) & Hu & _).
  destruct (start_decoding_display st input_path Hidle Hpath) as (Ht & Hf).
  generalize dependent (_start_decoding clock st input_path true).
  intros st0 Hc Hd Hk Hfb Hu Ht Hf.
  destruct (finalize_telemetry clock st0 (-1) (Some not_found_message))
    as (T1 & T2 & T3 & _ & _ & _ & T7).
  destruct (finalize_failed_display st0 (-1) not_found_message ltac:(discriminate))
    as (V1 & V2).
  destruct (finalize_ends_session clock st0 (-1) (Some not_found_message)) as (D1 & D2 & _).
  assert (F : final_update clock st0 = st0).
  { unfold final_update. rewrite Hfb. reflexivity. }
  rewrite F in *. rewrite T1, T2, T3, T7, D1, D2, V1, V2.
  split; [unfold _finalize_decoding, outcome; rewrite F; reflexivity |].
  repeat split; assumption.
Qed.

End Restart.

(** ** Plain and coloured text in the log *)

Section PlainText.

Lemma sgr_match_no_escape (c : ascii) (s : string) :
  Ascii.eqb c ESC = false -> sgr_match (String c s) = None.
Proof.
  intros H. unfold sgr_match. destruct s as [| b r]; [reflexivity |].
  rewrite H. reflexivity.
Qed.

Lemma ANSI_ESCAPE_PATTERN_match_no_escape (c : ascii) (s : string) :
  Ascii.eqb c ESC = false -> ANSI_ESCAPE_PATTERN_match (String c s) = None.
Proof.
  intros H. unfold ANSI_ESCAPE_PATTERN_match. destruct s as [| b r]; [reflexivity |].
  rewrite H. reflexivity.
Qed.

Lemma append_empty_r (s : string) : s ++ "" = s.
Proof. induction s as [| c s IH]; [reflexivity |]. cbn [append]. rewrite IH. reflexivity. Qed.

Lemma re_split_sgr_no_escape (s cur : string) :
  no_escape s = true -> re_split_sgr 0 cur s = [cur ++ s].
Proof.
  revert cur. induction s as [| c s IH]; intros cur H.
  - cbn [re_split_sgr]. rewrite append_empty_r. reflexivity.
  - unfold no_escape in H. cbn [list_ascii_of_string forallb] in H.
    apply andb_true_iff in H as (Hc & H). apply negb_true_iff in Hc.
    cbn [re_split_sgr]. rewrite (sgr_match_no_escape c s Hc), (IH _ H), append_assoc.
    reflexivity.
Qed.

Lemma ANSI_ESCAPE_PATTERN_sub_no_escape (s : string) :
  no_escape s = true -> ANSI_ESCAPE_PATTERN_sub 0 s = s.
Proof.
  induction s as [| c s IH]; intros H; [reflexivity |].
  unfold no_escape in H. cbn [list_ascii_of_string forallb] in H.
  apply andb_true_iff in H as (Hc & H). apply negb_true_iff in Hc.
  cbn [ANSI_ESCAPE_PATTERN_sub].
  rewrite (ANSI_ESCAPE_PATTERN_match_no_escape c s Hc), (IH H). reflexivity.
Qed.

Lemma prefix_escape_no_escape (s : string) :
  no_escape s = true -> prefix (String ESC "[") s = false.
Proof.
  destruct s as [| c s]; [reflexivity |]. intros H.
  unfold no_escape in H. cbn [list_ascii_of_string forallb] in H.
  apply andb_true_iff in H as (Hc & _). apply negb_true_iff in Hc.
  cbn [prefix]. destruct (ascii_dec ESC c) as [<- | _]; [discriminate Hc | reflexivity].
Qed.

(** One text fragment free of escape characters, then the rest. *)
Lemma log_output_parts_text (text : string) (rest : list string) (tags : list string) :
  no_escape text = true ->
  log_output_parts (text :: rest) tags
  = (segment_of text tags ++ log_output_parts rest tags)%list.
Proof.
  intros H. cbn [log_output_parts]. unfold segment_of.
  destruct (String.eqb_spec text "") as [-> | Hne]; [reflexivity |].
  rewrite (prefix_escape_no_escape text H), (ANSI_ESCAPE_PATTERN_sub_no_escape text H).
  destruct (String.eqb_spec text "") as [E | _]; [contradiction | reflexivity].
Qed.

(** X9: A text with no escape character is logged as it is, without a tag. *)
Theorem log_output_plain_text (text : string) :
  no_escape text = true -> log_output text = segment_of text [].
Proof.
  intros H. unfold log_output.
  rewrite (re_split_sgr_no_escape text "" H). cbn [append].
  rewrite (log_output_parts_text text [] [] H). apply app_nil_r.
Qed.


(** *** Colour sequences *)

Lemma sgr_match_sgr (code rest : string) :
  forallb is_sgr_param (list_ascii_of_string code) = true ->
  sgr_match (sgr code ++ rest) = Some (sgr code).
Proof.
  intros H. unfold sgr, sgr_match.
  change (String ESC ("[" ++ code ++ "m") ++ rest)
    with (String ESC (String "[" ((code ++ "m") ++ rest))).
  cbv beta iota. rewrite !Ascii.eqb_refl. cbn [andb].
  rewrite append_assoc. change ("m" ++ rest) with (String "m" rest).
  rewrite (span_stop is_sgr_param code "m" rest H eq_refl).
  reflexivity.
Qed.

Lemma re_split_sgr_skip (u rest cur : string) :
  re_split_sgr (String.length u) cur (u ++ rest) = re_split_sgr 0 cur rest.
Proof.
  induction u as [| c u IH]; [reflexivity |].
  cbn [String.length append re_split_sgr]. exact IH.
Qed.

Lemma length_append (a b : string) :
  String.length (a ++ b) = (String.length a + String.length b)%nat.
Proof. induction a as [| c a IH]; [reflexivity |]. cbn [append String.length]. rewrite IH. reflexivity. Qed.

(** The split at the first colour sequence, after text free of escape
    characters. *)
Lemma re_split_sgr_at (x code rest cur : string) :
  no_escape x = true ->
  forallb is_sgr_param (list_ascii_of_string code) = true ->
  re_split_sgr 0 cur (x ++ sgr code ++ rest)
  = (cur ++ x) :: sgr code :: re_split_sgr 0 "" rest.
Proof.
  intros Hx Hcode. revert cur. induction x as [| c x IH]; intros cur.
  - cbn [append]. rewrite append_empty_r.
    pose proof (sgr_match_sgr code rest Hcode) as M.
    unfold sgr in *.
    change (String ESC ("[" ++ code ++ "m") ++ rest)
      with (String ESC (("[" ++ code ++ "m") ++ rest)) in *.
    cbn [re_split_sgr]. rewrite M. cbn [String.length Nat.sub].
    rewrite Nat.sub_0_r, re_split_sgr_skip. reflexivity.
  - unfold no_escape in Hx. cbn [list_ascii_of_string forallb] in Hx.
    apply andb_true_iff in Hx as (Hc & Hx). apply negb_true_iff in Hc.
    change (String c x ++ sgr code ++ rest) with (String c (x ++ sgr code ++ rest)).
    cbn [re_split_sgr]. rewrite (sgr_match_no_escape c _ Hc), (IH Hx), append_assoc.
    reflexivity.
Qed.

Lemma drop_last_append (code : string) (m : ascii) :
  drop_last (code ++ String m "") = code.
Proof.
  induction code as [| c code IH]; [reflexivity |].
  cbn [append drop_last]. rewrite IH.
  destruct code; reflexivity.
Qed.

Lemma split_on_none (sep : ascii) (code : string) :
  forallb (fun c => negb (Ascii.eqb c sep)) (list_ascii_of_string code) = true ->
  split_on sep code = [code].
Proof.
  induction code as [| c code IH]; intros H; [reflexivity |].
  cbn [list_ascii_of_string forallb] in H.
  apply andb_true_iff in H as (Hc & H). apply negb_true_iff in Hc.
  cbn [split_on]. rewrite Hc, (IH H). reflexivity.
Qed.

(** A colour sequence with one code applies that code. *)
Lemma log_output_parts_sgr (code : string) (rest : list string) (tags : list string) :
  forallb (fun c => negb (Ascii.eqb c ";")) (list_ascii_of_string code) = true ->
  log_output_parts (sgr code :: rest) tags
  = log_output_parts rest (apply_code tags code).
Proof.
  intros H. unfold sgr. cbn [log_output_parts String.eqb].
  assert (P : prefix (String ESC "[") (String ESC ("[" ++ code ++ "m")) = true)
    by (apply prefix_app; exists (code ++ "m"); reflexivity).
  rewrite P. unfold slice_2_m1. cbn [drop append].
  rewrite drop_last_append, (split_on_none ";" code H). reflexivity.
Qed.


Lemma digits_are_params (u : string) :
  forallb is_digit (list_ascii_of_string u) = true ->
  forallb is_sgr_param (list_ascii_of_string u) = true
  /\ forallb (fun c => negb (Ascii.eqb c ";")) (list_ascii_of_string u) = true.
Proof.
  induction u as [| c u IH]; intros H; [auto |].
  cbn [list_ascii_of_string forallb] in *.
  apply andb_true_iff in H as (Hc & H). destruct (IH H) as (H1 & H2).
  rewrite H1, H2. unfold is_sgr_param. rewrite Hc.
  destruct (Ascii.eqb_spec c ";") as [-> | _]; [discriminate Hc | auto].
Qed.

Lemma color_codes_digits (c : string) :
  In c color_codes -> forallb is_digit (list_ascii_of_string c) = true.
Proof.
  intros H. repeat (destruct H as [<- | H]; [reflexivity |]). destruct H.
Qed.

Lemma apply_code_after (c u : string) :
  In c color_codes -> apply_code (apply_code [] c) u = tags_after c u.
Proof.
  intros Hc.
  assert (E : apply_code [] c = [c]).
  { apply (apply_code_cases [] c); [left; reflexivity | exact Hc]. }
  rewrite E. unfold apply_code, tags_after.
  destruct (String.eqb u "0" || String.eqb u ""); [reflexivity |].
  destruct (mem u color_codes); [| reflexivity].
  cbn [filter]. apply mem_In in Hc. rewrite Hc. reflexivity.
Qed.

(** X10: Text, a colour, text, a second code, text: the first text is plain,
    the second carries the colour, and the third carries what the second
    code leaves in force: nothing after a reset ([0] or empty), the new
    colour after a colour code, the first colour after any other code. *)
Theorem log_output_two_codes (a b d c u : string)
    (Ha : no_escape a = true) (Hb : no_escape b = true) (Hd : no_escape d = true)
    (Hc : In c color_codes)
    (Hu : forallb is_digit (list_ascii_of_string u) = true) :
  log_output (a ++ sgr c ++ b ++ sgr u ++ d)
  = (segment_of a [] ++ segment_of b [c] ++ segment_of d (tags_after c u))%list.
Proof.
  destruct (digits_are_params c (color_codes_digits c Hc)) as (Pc & Sc).
  destruct (digits_are_params u Hu) as (Pu & Su).
  unfold log_output.
  rewrite (re_split_sgr_at a c _ "" Ha Pc), (re_split_sgr_at b u _ "" Hb Pu),
    (re_split_sgr_no_escape d "" Hd).
  cbn [append].
  rewrite (log_output_parts_text a _ _ Ha), (log_output_parts_sgr c _ _ Sc),
    (log_output_parts_text b _ _ Hb), (log_output_parts_sgr u _ _ Su),
    (log_output_parts_text d _ _ Hd).
  cbn [log_output_parts]. rewrite app_nil_r, (apply_code_after c u Hc).
  assert (E : apply_code [] c = [c]).
  { apply (apply_code_cases [] c); [left; reflexivity | exact Hc]. }
  rewrite E. reflexivity.
Qed.

(** X11: The reach of the test [part.startswith('\x1B[')]: a line that opens
    with [ESC [] without opening with a colour sequence, and holds no
    other escape character, is taken whole for a colour sequence, and
    nothing of it is shown. *)
Theorem log_output_escape_line_dropped (x : string)
    (Hx : no_escape x = true)
    (Hsgr : sgr_match (String ESC ("[" ++ x)) = None) :
  log_output (String ESC ("[" ++ x)) = [].
Proof.
  unfold log_output. cbn [re_split_sgr]. rewrite Hsgr.
  assert (H : no_escape ("[" ++ x) = true) by exact Hx.
  rewrite (re_split_sgr_no_escape _ _ H).
  cbn [log_output_parts append String.eqb].
  assert (P : prefix (String ESC "[") (String ESC ("[" ++ x)) = true)
    by (apply prefix_app; exists x; reflexivity).
  change (String ESC (String "[" x)) with (String ESC ("[" ++ x)).
  rewrite P. reflexivity.
Qed.

End PlainText.

(** ** The configuration file: a round trip *)

Section Config.

Lemma has_app (x : ascii) (a b : string) : has x (a ++ b) = has x a || has x b.
Proof.
  unfold has. induction a as [| c a IH]; [reflexivity |].
  cbn [append list_ascii_of_string existsb]. rewrite IH, orb_assoc. reflexivity.
Qed.

Lemma app_eq_app (a b c d : string) :
  a ++ b = c ++ d -> (exists t, a = c ++ t) \/ (exists t, c = a ++ t).
Proof.
  revert c. induction a as [| x a IH]; intros c E.
  - right. exists c. reflexivity.
  - destruct c as [| y c]; [left; exists (String x a); reflexivity |].
    cbn [append] in E. injection E as -> E.
    destruct (IH c E) as [(t & ->) | (t & ->)]; [left | right]; exists t; reflexivity.
Qed.

Lemma until_quote_quotable (command_args rest : string) :
  quotable command_args = true ->
  until_quote (command_args ++ String QUOTE rest) = Some command_args.
Proof.
  intros H. induction command_args as [| c a IH].
  - cbn [append until_quote]. rewrite Ascii.eqb_refl. reflexivity.
  - unfold quotable in H. cbn [list_ascii_of_string forallb] in H.
    apply andb_true_iff in H as (Hc & H).
    apply andb_true_iff in Hc as (Hc & _). apply andb_true_iff in Hc as (Hq & Hn).
    apply negb_true_iff in Hq, Hn.
    cbn [append until_quote]. rewrite Hq, Hn, (IH H). reflexivity.
Qed.

Lemma setting_search_unfold (key s : string) :
  setting_search key s
  = match setting_match key s with
    | Some g => Some g
    | None => match s with String _ t => setting_search key t | EmptyString => None end
    end.
Proof. destruct s; reflexivity. Qed.

(** The line [_save_config] writes is found at once. *)
Lemma setting_search_config_line (command_args rest : string) :
  quotable command_args = true ->
  setting_search CONFIG_KEY (config_line command_args ++ rest) = Some command_args.
Proof.
  intros H. rewrite setting_search_unfold. unfold setting_match.
  assert (E : strip_prefix (CONFIG_KEY ++ String QUOTE "") (config_line command_args ++ rest)
              = Some (command_args ++ String QUOTE (String NL rest))).
  { apply strip_prefix_app. unfold config_line.
    rewrite !append_assoc. cbn [append]. rewrite !append_assoc. reflexivity. }
  rewrite E, (until_quote_quotable _ _ H). reflexivity.
Qed.

(** No match of the setting starts inside a text of whole lines that
    does not hold the key with its quote. *)
Lemma setting_search_skip (p rest : string) :
  whole_lines p -> contains KEYQ p = false ->
  setting_search CONFIG_KEY (p ++ rest) = setting_search CONFIG_KEY rest.
Proof.
  induction p as [| c p IH]; intros Hw Hno; [reflexivity |].
  change (String c p ++ rest) with (String c (p ++ rest)).
  rewrite setting_search_unfold.
  change (String c (p ++ rest)) with (String c p ++ rest).
  assert (M : setting_match CONFIG_KEY (String c p ++ rest) = None).
  { unfold setting_match.
    destruct (strip_prefix (CONFIG_KEY ++ String QUOTE "") (String c p ++ rest))
      as [r |] eqn:E; [| reflexivity].
    exfalso. apply strip_prefix_app in E.
    destruct (app_eq_app _ _ _ _ E) as [(t & Et) | (t & Et)].
    - assert (C : contains KEYQ (String c p) = true)
        by (apply contains_iff; exists "", t; exact Et).
      congruence.
    - destruct Hw as [Hw | (q & Hw)]; [discriminate Hw |].
      assert (N : has NL (CONFIG_KEY ++ String QUOTE "") = true).
      { rewrite Et, Hw, !has_app. unfold has at 2. cbn [list_ascii_of_string existsb].
        rewrite Ascii.eqb_refl. rewrite orb_true_r. reflexivity. }
      vm_compute in N. discriminate N. }
  rewrite M. cbn [append]. apply IH.
  - destruct Hw as [Hw | (q & Hw)]; [discriminate Hw |].
    destruct q as [| x q]; cbn [append] in Hw; injection Hw as _ Hw.
    + left. exact Hw.
    + right. exists q. exact Hw.
  - cbn [contains] in Hno. apply orb_false_iff in Hno as (_ & Hno). exact Hno.
Qed.


Lemma writelines_app (a b : list string) :
  writelines (a ++ b) = writelines a ++ writelines b.
Proof.
  induction a as [| l a IH]; [reflexivity |].
  cbn [List.app writelines]. rewrite IH, append_assoc. reflexivity.
Qed.

Lemma setting_search_skip_lines (ls : list string) (rest : string) :
  Forall (fun l => whole_lines l /\ contains KEYQ l = false) ls ->
  setting_search CONFIG_KEY (writelines ls ++ rest) = setting_search CONFIG_KEY rest.
Proof.
  induction 1 as [| l ls (Hw & Hno) _ IH]; [reflexivity |].
  cbn [writelines]. rewrite append_assoc, (setting_search_skip l _ Hw Hno). exact IH.
Qed.

(** The lines read back give the text, and every line but the last ends
    in a newline. *)
Lemma writelines_readlines (s cur : string) :
  writelines (readlines cur s) = cur ++ s.
Proof.
  revert cur. induction s as [| c s IH]; intros cur.
  - cbn [readlines]. destruct (String.eqb_spec cur "") as [-> | _]; [reflexivity |].
    cbn [writelines]. reflexivity.
  - cbn [readlines]. destruct (Ascii.eqb_spec c NL) as [-> | _].
    + cbn [writelines]. rewrite IH, append_assoc. reflexivity.
    + rewrite IH, append_assoc. reflexivity.
Qed.

Lemma readlines_whole (s cur : string) :
  Forall whole_lines (removelast (readlines cur s)).
Proof.
  revert cur. induction s as [| c s IH]; intros cur.
  - cbn [readlines]. destruct (String.eqb cur ""); constructor.
  - cbn [readlines]. destruct (Ascii.eqb c NL); [| apply IH].
    specialize (IH ""). cbn [removelast].
    destruct (readlines "" s) as [| l ls] eqn:E; [constructor |].
    constructor; [right; exists cur; reflexivity | exact IH].
Qed.

Lemma replace_setting_some (new_line : string) (lines updated : list string) :
  replace_setting new_line lines = Some updated ->
  exists before line after,
    lines = (before ++ line :: after)%list
    /\ updated = (before ++ new_line :: after)%list
    /\ prefix CONFIG_KEY (strip line) = true
    /\ Forall (fun l => prefix CONFIG_KEY (strip l) = false) before.
Proof.
  revert updated. induction lines as [| l ls IH]; intros updated H; [discriminate H |].
  cbn [replace_setting] in H. destruct (prefix CONFIG_KEY (strip l)) eqn:P.
  - injection H as <-. exists [], l, ls. repeat split; [exact P | constructor].
  - destruct (replace_setting new_line ls) as [u |]; [| discriminate H].
    injection H as <-. destruct (IH u eq_refl) as (b & x & a & -> & -> & Px & Hb).
    exists (l :: b), x, a. repeat split; [exact Px | constructor; assumption].
Qed.

Lemma replace_setting_none (new_line : string) (lines : list string) :
  replace_setting new_line lines = None ->
  Forall (fun l => prefix CONFIG_KEY (strip l) = false) lines.
Proof.
  induction lines as [| l ls IH]; intros H; [constructor |].
  cbn [replace_setting] in H. destruct (prefix CONFIG_KEY (strip l)) eqn:P; [discriminate H |].
  destruct (replace_setting new_line ls); [discriminate H |].
  constructor; [exact P | apply IH; reflexivity].
Qed.

Lemma app_one_split (m0 : string) (c d : ascii) (a post : string) :
  c <> d ->
  a ++ String d "" = (m0 ++ String c "") ++ post ->
  exists post', a = (m0 ++ String c "") ++ post'.
Proof.
  intros Hcd. revert m0. induction a as [| x a IH]; intros m0 E.
  - exfalso. destruct m0 as [| y m0]; cbn [append] in E.
    + injection E as E _. congruence.
    + injection E as _ E. destruct m0; discriminate E.
  - destruct m0 as [| y m0]; cbn [append] in E |- *.
    + injection E as -> _. exists a. reflexivity.
    + injection E as -> E. destruct (IH m0 E) as (post' & ->).
      exists post'. reflexivity.
Qed.

(** A newline added to a line adds no occurrence of the key. *)
Lemma contains_KEYQ_newline (x : string) :
  contains KEYQ x = false -> contains KEYQ (x ++ String NL "") = false.
Proof.
  intros H. destruct (contains KEYQ (x ++ String NL "")) eqn:C; [| reflexivity].
  apply contains_iff in C as (pre & post & E).
  assert (E' : x ++ String NL ""
               = ((pre ++ CONFIG_KEY) ++ String QUOTE "") ++ post).
  { rewrite E. unfold KEYQ. rewrite !append_assoc. reflexivity. }
  destruct (app_one_split _ QUOTE NL x post ltac:(discriminate) E') as (post' & Ex).
  assert (C : contains KEYQ x = true).
  { apply contains_iff. exists pre, post'. rewrite Ex. unfold KEYQ.
    rewrite !append_assoc. reflexivity. }
  congruence.
Qed.

Lemma universal_newlines_cons (c : ascii) (t : string) :
  universal_newlines (String c t)
  = if Ascii.eqb c CR then
      match t with
      | String d t' =>
          if Ascii.eqb d NL then String NL (universal_newlines t')
          else String NL (universal_newlines t)
      | EmptyString => String NL EmptyString
      end
    else String c (universal_newlines t).
Proof. reflexivity. Qed.

Lemma has_universal_newlines_aux (t : string) :
  has CR (universal_newlines t) = false
  /\ forall c, has CR (universal_newlines (String c t)) = false.
Proof.
  induction t as [| d t (IH1 & IH2)].
  - split; [reflexivity |]. intros c. cbn [universal_newlines].
    destruct (Ascii.eqb c CR) eqn:E; [reflexivity |].
    unfold has. cbn [list_ascii_of_string existsb].
    rewrite Ascii.eqb_sym, E. reflexivity.
  - split; [apply IH2 |]. intros c. rewrite universal_newlines_cons.
    destruct (Ascii.eqb c CR) eqn:E.
    + destruct (Ascii.eqb d NL).
      * change (has CR (String NL (universal_newlines t)))
          with (Ascii.eqb CR NL || has CR (universal_newlines t)).
        rewrite IH1. reflexivity.
      * change (has CR (String NL (universal_newlines (String d t))))
          with (Ascii.eqb CR NL || has CR (universal_newlines (String d t))).
        rewrite IH2. reflexivity.
    + change (has CR (String c (universal_newlines (String d t))))
        with (Ascii.eqb CR c || has CR (universal_newlines (String d t))).
      rewrite IH2, Ascii.eqb_sym, E. reflexivity.
Qed.

Lemma universal_newlines_id (s : string) :
  has CR s = false -> universal_newlines s = s.
Proof.
  induction s as [| c s IH]; intros H; [reflexivity |].
  change (has CR (String c s)) with (Ascii.eqb CR c || has CR s) in H.
  apply orb_false_iff in H as (Hc & H).
  cbn [universal_newlines]. rewrite Ascii.eqb_sym, Hc, (IH H). reflexivity.
Qed.

Lemma has_quotable (command_args : string) :
  quotable command_args = true -> has CR (config_line command_args) = false.
Proof.
  intros H. unfold config_line.
  change (String QUOTE (command_args ++ String QUOTE (String NL "")))
    with (String QUOTE "" ++ command_args ++ String QUOTE (String NL "")).
  rewrite !has_app.
  assert (E : has CR command_args = false).
  { unfold has, quotable in *. induction (list_ascii_of_string command_args) as [| c l IH];
      [reflexivity |].
    cbn [forallb existsb] in *. apply andb_true_iff in H as (Hc & H).
    apply andb_true_iff in Hc as (_ & Hc). apply negb_true_iff in Hc.
    rewrite Ascii.eqb_sym, Hc, (IH H). reflexivity. }
  rewrite E. reflexivity.
Qed.

Lemma endswith_newline_whole (l : string) :
  endswith_newline l = true -> whole_lines l.
Proof.
  intros H. right. induction l as [| c l IH]; [discriminate H |].
  destruct l as [| d l].
  - cbn [endswith_newline] in H. apply Ascii.eqb_eq in H. subst.
    exists "". reflexivity.
  - destruct (IH H) as (q & ->). exists (String c q). reflexivity.
Qed.


Lemma last_cons_any {A : Type} (x : A) (l : list A) (d : A) :
  List.last (x :: l) d = List.last l x.
Proof.
  revert x d. induction l as [| y l IH]; intros x d; [reflexivity |].
  change (List.last (x :: y :: l) d) with (List.last (y :: l) d).
  rewrite (IH y d), (IH y x). reflexivity.
Qed.

Lemma config_lines_facts (file : option string) :
  has CR (writelines (config_lines file)) = false
  /\ Forall whole_lines (removelast (config_lines file)).
Proof.
  destruct file as [raw |]; cbn [config_lines].
  - rewrite writelines_readlines. cbn [append].
    split; [apply has_universal_newlines_aux | apply readlines_whole].
  - split; [reflexivity | constructor].
Qed.

(** X12: What [_save_config] writes, [_load_config] reads back: for arguments
    free of quotes and line ends, when every line of the old file that
    holds the key with its opening quote starts with the key (leading
    blanks aside). *)
Theorem config_round_trip (command_args : string) (file : option string)
    (previous : string)
    (Hargs : quotable command_args = true)
    (Hfile : forall l, In l (config_lines file) ->
                       contains KEYQ l = true ->
                       prefix CONFIG_KEY (strip l) = true) :
  _load_config (Some (_save_config command_args file)) previous = command_args.
Proof.
  destruct (config_lines_facts file) as (Hcr & Hwhole).
  assert (Hno : forall l, In l (config_lines file) ->
                          prefix CONFIG_KEY (strip l) = false ->
                          contains KEYQ l = false).
  { intros l Hin Hp. destruct (contains KEYQ l) eqn:C; [| reflexivity].
    rewrite (Hfile l Hin C) in Hp. discriminate Hp. }
  pose proof (has_quotable command_args Hargs) as Hnew.
  assert (G : has CR (_save_config command_args file) = false
              /\ setting_search CONFIG_KEY (_save_config command_args file)
                 = Some command_args).
  { unfold _save_config. clear Hfile.
    generalize dependent (config_lines file). intros lines Hcr Hwhole Hno.
    destruct (replace_setting (config_line command_args) lines) as [updated |] eqn:R.
    - apply replace_setting_some in R
        as (before & line & after & -> & -> & _ & Hbefore).
      rewrite writelines_app in Hcr. rewrite writelines_app.
      cbn [writelines] in *.
      rewrite !has_app in Hcr. apply orb_false_iff in Hcr as (Hb & Hcr).
      apply orb_false_iff in Hcr as (_ & Ha).
      split; [rewrite !has_app, Hb, Hnew, Ha; reflexivity |].
      rewrite setting_search_skip_lines;
        [apply setting_search_config_line, Hargs |].
      rewrite removelast_app in Hwhole by discriminate.
      apply Forall_app in Hwhole as (Hwhole & _).
      rewrite Forall_forall in *. intros b Hb'. split; [apply Hwhole, Hb' |].
      apply Hno; [apply in_or_app; left; exact Hb' | apply Hbefore, Hb'].
    - apply replace_setting_none in R. rewrite Forall_forall in R.
      destruct lines as [| l ls].
      + cbn [List.app writelines]. rewrite append_empty_r.
        split; [exact Hnew |].
        rewrite <- (append_empty_r (config_line command_args)).
        apply setting_search_config_line, Hargs.
      + assert (D : (l :: ls) = (removelast (l :: ls) ++ [List.last ls l])%list).
        { rewrite <- (last_cons_any l ls l). apply app_removelast_last. discriminate. }
        set (x := List.last ls l) in *.
        assert (Hx : In x (l :: ls)) by (rewrite D; apply in_or_app; right; left; reflexivity).
        assert (Hrl : Forall (fun b => whole_lines b /\ contains KEYQ b = false)
                        (removelast (l :: ls))).
        { rewrite Forall_forall in *. intros b Hb. split; [apply Hwhole, Hb |].
          assert (Hin : In b (l :: ls)) by (rewrite D; apply in_or_app; left; exact Hb).
          apply Hno; [exact Hin | apply R, Hin]. }
        assert (Hcx : contains KEYQ x = false) by (apply Hno; [exact Hx | apply R, Hx]).
        assert (Hcr' : has CR (writelines (removelast (l :: ls))) = false
                       /\ has CR x = false).
        { rewrite D, writelines_app in Hcr. cbn [writelines] in Hcr.
          rewrite append_empty_r in Hcr.
          rewrite !has_app in Hcr. apply orb_false_iff in Hcr as (H1 & H2). auto. }
        destruct Hcr' as (Hc1 & Hc2).
        set (rl := removelast (l :: ls)) in *.
        destruct (endswith_newline x) eqn:E; cbn [negb]; rewrite D.
        * rewrite !writelines_app. cbn [writelines]. rewrite !append_empty_r.
          split; [rewrite !has_app, Hc1, Hc2, Hnew; reflexivity |].
          rewrite append_assoc, (setting_search_skip_lines _ _ Hrl).
          rewrite (setting_search_skip x _ (endswith_newline_whole x E) Hcx).
          rewrite <- (append_empty_r (config_line command_args)).
          apply setting_search_config_line, Hargs.
        * rewrite !writelines_app. cbn [writelines]. rewrite !append_empty_r.
          split; [rewrite !has_app, Hc1, Hc2, Hnew; reflexivity |].
          rewrite !append_assoc, (setting_search_skip_lines _ _ Hrl).
          rewrite <- append_assoc.
          rewrite (setting_search_skip (x ++ String NL "") _
                     (or_intror (ex_intro _ x eq_refl)) (contains_KEYQ_newline x Hcx)).
          rewrite <- (append_empty_r (config_line command_args)).
          apply setting_search_config_line, Hargs. }
  destruct G as (G1 & G2). unfold _load_config.
  rewrite (universal_newlines_id _ G1), G2. reflexivity.
Qed.

End Config.

(** ** Where the outputs go *)

Section Paths.

Lemma prefix_slash_append (n s1 s2 : string) :
  prefix "/" s1 = false -> prefix "/" s2 = false ->
  prefix "/" (n ++ s1) = prefix "/" (n ++ s2).
Proof.
  intros H1 H2. destruct n as [| c n]; cbn [append]; [congruence |].
  cbn [prefix]. destruct (ascii_dec "/" c); [destruct (n ++ s1), (n ++ s2)|]; reflexivity.
Qed.

(** X15: The file that [_open_ld_analyse] and [_video_export] open is the
    output prefix of the decode with [.tbc] appended, for every input
    path. *)
Theorem tbc_path_is_decode_output (input_path : string) :
  tbc_path input_path = decode_output_path input_path ++ ".tbc".
Proof.
  unfold tbc_path, decode_output_path, join.
  generalize (dirname input_path) (splitext_root (basename input_path)). intros d n.
  rewrite (prefix_slash_append n "-Decoded.tbc" "-Decoded" eq_refl eq_refl).
  change "-Decoded.tbc" with ("-Decoded" ++ ".tbc").
  destruct (prefix "/" (n ++ "-Decoded")).
  - rewrite <- append_assoc. reflexivity.
  - destruct (String.eqb d "" || endswith_slash d); rewrite !append_assoc; reflexivity.
Qed.

Lemma rsplit_last (c : ascii) (a b : string) :
  no_char c b = true -> rsplit c (a ++ String c b) = Some (a, b).
Proof.
  intros Hb.
  assert (N : rsplit c b = None).
  { induction b as [| x b IH]; [reflexivity |].
    unfold no_char in Hb. cbn [list_ascii_of_string forallb] in Hb.
    apply andb_true_iff in Hb as (Hx & Hb). apply negb_true_iff in Hx.
    cbn [rsplit]. rewrite (IH Hb), Hx. reflexivity. }
  induction a as [| x a IH].
  - cbn [append rsplit]. rewrite N, Ascii.eqb_refl. reflexivity.
  - cbn [append rsplit]. rewrite IH. reflexivity.
Qed.

Lemma rstrip_slash_dir (d : string) :
  d <> "" -> endswith_slash d = false -> rstrip_slash (d ++ "/") = d.
Proof.
  induction d as [| c d IH]; intros Hne He; [contradiction |].
  destruct d as [| x d].
  - cbn [endswith_slash] in He. cbn [append rstrip_slash]. cbn. rewrite He. reflexivity.
  - change (String c (String x d) ++ "/") with (String c (String x d ++ "/")).
    cbn [rstrip_slash]. rewrite (IH ltac:(discriminate) He).
    cbn [String.eqb]. rewrite andb_false_r. reflexivity.
Qed.


Lemma no_char_app (c : ascii) (a b : string) :
  no_char c (a ++ b) = no_char c a && no_char c b.
Proof.
  unfold no_char. induction a as [| x a IH]; [reflexivity |].
  cbn [append list_ascii_of_string forallb]. rewrite IH, andb_assoc. reflexivity.
Qed.

Lemma rsplit_none (c : ascii) (s : string) :
  no_char c s = true -> rsplit c s = None.
Proof.
  induction s as [| x s IH]; intros H; [reflexivity |].
  unfold no_char in H. cbn [list_ascii_of_string forallb] in H.
  apply andb_true_iff in H as (Hx & H). apply negb_true_iff in Hx.
  cbn [rsplit]. rewrite (IH H), Hx. reflexivity.
Qed.

Lemma prefix_slash_no_slash (s t : string) :
  s <> "" -> no_char "/" s = true -> prefix "/" (s ++ t) = false.
Proof.
  intros Hne H. destruct s as [| c s]; [contradiction |].
  unfold no_char in H. cbn [list_ascii_of_string forallb] in H.
  apply andb_true_iff in H as (Hc & _). apply negb_true_iff in Hc.
  cbn [append prefix]. destruct (ascii_dec "/" c) as [<- | _]; [discriminate Hc | reflexivity].
Qed.

(** The three paths derived from an input [stem.ext]: the same name with
    the extension replaced. *)
Lemma name_paths (stem ext : string) :
  no_char "/" stem = true -> no_char "/" ext = true -> no_char "." ext = true ->
  all_dots stem = false ->
  basename (stem ++ "." ++ ext) = stem ++ "." ++ ext
  /\ splitext_root (stem ++ "." ++ ext) = stem
  /\ (forall suffix, prefix "/" (stem ++ suffix) = false).
Proof.
  intros Hs He Hd Hdots.
  assert (Hne : stem <> "") by (intros ->; discriminate Hdots).
  split; [| split].
  - unfold basename. rewrite rsplit_none; [reflexivity |].
    rewrite !no_char_app, Hs, He. reflexivity.
  - unfold splitext_root. change (stem ++ "." ++ ext) with (stem ++ String "." ext).
    rewrite (rsplit_last "." stem ext Hd), Hdots. reflexivity.
  - intros suffix. apply prefix_slash_no_slash; assumption.
Qed.

(** X16: The decode output, the TBC file and the export base lie beside the
    input: for an input [dir/stem.ext] they are [dir/stem-Decoded],
    [dir/stem-Decoded.tbc] and [dir/stem-export]; for an input [stem.ext]
    without a directory they are [stem-Decoded], [stem-Decoded.tbc] and
    [stem-export]. *)
Theorem outputs_beside_input (dir stem ext : string)
    (Hdir : dir <> "") (Hend : endswith_slash dir = false)
    (Hstem : no_char "/" stem = true) (Hdots : all_dots stem = false)
    (Hext : no_char "/" ext = true) (Hext' : no_char "." ext = true) :
  (decode_output_path (dir ++ "/" ++ stem ++ "." ++ ext) = dir ++ "/" ++ stem ++ "-Decoded"
   /\ tbc_path (dir ++ "/" ++ stem ++ "." ++ ext) = dir ++ "/" ++ stem ++ "-Decoded.tbc"
   /\ export_output_base (dir ++ "/" ++ stem ++ "." ++ ext) = dir ++ "/" ++ stem ++ "-export")
  /\ (decode_output_path (stem ++ "." ++ ext) = stem ++ "-Decoded"
      /\ tbc_path (stem ++ "." ++ ext) = stem ++ "-Decoded.tbc"
      /\ export_output_base (stem ++ "." ++ ext) = stem ++ "-export").
Proof.
  destruct (name_paths stem ext Hstem Hext Hext' Hdots) as (Hb & Hr & Hp).
  assert (Hname : no_char "/" (stem ++ "." ++ ext) = true)
    by (rewrite !no_char_app, Hstem, Hext; reflexivity).
  split.
  - assert (R : rsplit "/" (dir ++ "/" ++ stem ++ "." ++ ext)
                = Some (dir, stem ++ "." ++ ext)).
    { change (dir ++ "/" ++ stem ++ "." ++ ext)
        with (dir ++ String "/" (stem ++ "." ++ ext)).
      apply rsplit_last, Hname. }
    assert (D : dirname (dir ++ "/" ++ stem ++ "." ++ ext) = dir).
    { unfold dirname. rewrite R, (rstrip_slash_dir dir Hdir Hend).
      destruct (String.eqb_spec dir "") as [E | _]; [contradiction | reflexivity]. }
    assert (B : basename (dir ++ "/" ++ stem ++ "." ++ ext) = stem ++ "." ++ ext)
      by (unfold basename; rewrite R; reflexivity).
    unfold decode_output_path, tbc_path, export_output_base, join.
    rewrite D, B, Hr, !Hp, Hend.
    destruct (String.eqb_spec dir "") as [E | _]; [contradiction |].
    cbn [orb]. auto.
  - assert (D : dirname (stem ++ "." ++ ext) = "")
      by (unfold dirname; rewrite (rsplit_none "/" _ Hname); reflexivity).
    unfold decode_output_path, tbc_path, export_output_base, join.
    rewrite D, Hb, Hr, !Hp. cbn [String.eqb orb append]. auto.
Qed.

End Paths.

(** ** The configuration file: the other settings *)

Section OtherSettings.

(** The setting searched for; its key holds no newline. *)
Variable key : string.
Hypothesis key_one_line : has NL (key ++ String QUOTE "") = false.

Lemma until_quote_line (r rest : string) :
  until_quote ((r ++ String NL "") ++ rest) = until_quote (r ++ String NL "").
Proof.
  induction r as [| c r IH]; [reflexivity |].
  cbn [append until_quote]. rewrite IH. reflexivity.
Qed.

Lemma until_quote_newline (r : string) :
  until_quote (r ++ String NL "") = until_quote r.
Proof.
  induction r as [| c r IH]; [reflexivity |].
  cbn [append until_quote]. rewrite IH. reflexivity.
Qed.

Lemma strip_prefix_line (p q rest : string) :
  has NL p = false ->
  strip_prefix p ((q ++ String NL "") ++ rest)
  = match strip_prefix p (q ++ String NL "") with
    | Some r => Some (r ++ rest)
    | None => None
    end
  /\ forall r, strip_prefix p (q ++ String NL "") = Some r ->
               exists r', r = r' ++ String NL "".
Proof.
  revert q. induction p as [| a p IH]; intros q Hp.
  - cbn [strip_prefix]. split; [reflexivity |]. intros r [= <-]. exists q. reflexivity.
  - change (has NL (String a p)) with (Ascii.eqb NL a || has NL p) in Hp.
    apply orb_false_iff in Hp as (Ha & Hp).
    destruct q as [| b q]; cbn [append strip_prefix].
    + rewrite Ascii.eqb_sym, Ha. split; [reflexivity | discriminate].
    + destruct (Ascii.eqb a b); [apply (IH q Hp) | split; [reflexivity | discriminate]].
Qed.

Lemma strip_prefix_newline (p s : string) :
  has NL p = false ->
  strip_prefix p (s ++ String NL "")
  = match strip_prefix p s with
    | Some r => Some (r ++ String NL "")
    | None => None
    end.
Proof.
  revert s. induction p as [| a p IH]; intros s Hp; [reflexivity |].
  change (has NL (String a p)) with (Ascii.eqb NL a || has NL p) in Hp.
  apply orb_false_iff in Hp as (Ha & Hp).
  destruct s as [| b s]; cbn [append strip_prefix].
  - rewrite Ascii.eqb_sym, Ha. reflexivity.
  - destruct (Ascii.eqb a b); [apply (IH s Hp) | reflexivity].
Qed.

Lemma setting_match_line (q rest : string) :
  setting_match key ((q ++ String NL "") ++ rest)
  = setting_match key (q ++ String NL "").
Proof.
  unfold setting_match.
  destruct (strip_prefix_line (key ++ String QUOTE "") q rest key_one_line) as (E & Hr).
  rewrite E. destruct (strip_prefix (key ++ String QUOTE "") (q ++ String NL "")) as [r |];
    [| reflexivity].
  destruct (Hr r eq_refl) as (r' & ->). apply until_quote_line.
Qed.

Lemma setting_match_newline (s : string) :
  setting_match key (s ++ String NL "") = setting_match key s.
Proof.
  unfold setting_match. rewrite (strip_prefix_newline _ s key_one_line).
  destruct (strip_prefix (key ++ String QUOTE "") s) as [r |]; [| reflexivity].
  apply until_quote_newline.
Qed.

Lemma setting_match_empty : setting_match key "" = None.
Proof. unfold setting_match. destruct key; reflexivity. Qed.

(** A match does not reach over the end of a line. *)
Lemma setting_search_line (q rest : string) :
  setting_search key ((q ++ String NL "") ++ rest)
  = match setting_search key (q ++ String NL "") with
    | Some g => Some g
    | None => setting_search key rest
    end.
Proof.
  induction q as [| c q IH].
  - change (("" ++ String NL "") ++ rest) with (String NL rest).
    change ("" ++ String NL "") with (String NL "").
    rewrite (setting_search_unfold key (String NL rest)),
      (setting_search_unfold key (String NL "")).
    change (String NL rest) with (("" ++ String NL "") ++ rest).
    rewrite (setting_match_line "" rest). cbn [append].
    destruct (setting_match key (String NL "")); [reflexivity |].
    cbn [setting_search]. rewrite setting_match_empty. reflexivity.
  - change ((String c q ++ String NL "") ++ rest)
      with (String c ((q ++ String NL "") ++ rest)).
    change (String c q ++ String NL "") with (String c (q ++ String NL "")).
    rewrite (setting_search_unfold key (String c ((q ++ String NL "") ++ rest))),
      (setting_search_unfold key (String c (q ++ String NL ""))).
    change (String c ((q ++ String NL "") ++ rest))
      with ((String c q ++ String NL "") ++ rest).
    rewrite (setting_match_line (String c q) rest). cbn [append].
    destruct (setting_match key (String c (q ++ String NL ""))); [reflexivity | exact IH].
Qed.

(** A newline added at the end adds no match. *)
Lemma setting_search_newline (s : string) :
  setting_search key (s ++ String NL "") = setting_search key s.
Proof.
  induction s as [| c s IH].
  - cbn [append]. rewrite (setting_search_unfold key (String NL "")).
    change (String NL "") with ("" ++ String NL "") at 1.
    rewrite (setting_match_newline ""), setting_match_empty.
    cbn [setting_search]. rewrite setting_match_empty. reflexivity.
  - change (String c s ++ String NL "") with (String c (s ++ String NL "")).
    rewrite (setting_search_unfold key (String c (s ++ String NL ""))),
      (setting_search_unfold key (String c s)).
    change (String c (s ++ String NL "")) with (String c s ++ String NL "").
    rewrite (setting_match_newline (String c s)).
    destruct (setting_match key (String c s)); [reflexivity | exact IH].
Qed.

Lemma setting_search_whole (l r1 r2 : string) :
  whole_lines l ->
  setting_search key r1 = setting_search key r2 ->
  setting_search key (l ++ r1) = setting_search key (l ++ r2).
Proof.
  intros [-> | (q & ->)] H; [exact H |].
  rewrite !setting_search_line, H. reflexivity.
Qed.

Lemma setting_search_whole_lines (ls : list string) (r1 r2 : string) :
  Forall whole_lines ls ->
  setting_search key r1 = setting_search key r2 ->
  setting_search key (writelines ls ++ r1) = setting_search key (writelines ls ++ r2).
Proof.
  intros Hls H. induction Hls as [| l ls Hl _ IH]; [exact H |].
  cbn [writelines]. rewrite !append_assoc. apply setting_search_whole; assumption.
Qed.

End OtherSettings.

Section ExportSetting.

Lemma first_quote_unique (a b c d : string) :
  has QUOTE a = false -> has QUOTE c = false ->
  a ++ String QUOTE b = c ++ String QUOTE d -> a = c /\ b = d.
Proof.
  revert c. induction a as [| x a IH]; intros c Ha Hc E.
  - destruct c as [| y c]; cbn [append] in E.
    + injection E as ->. auto.
    + injection E as <- _.
      change (has QUOTE (String QUOTE c)) with (Ascii.eqb QUOTE QUOTE || has QUOTE c) in Hc.
      rewrite Ascii.eqb_refl in Hc. discriminate Hc.
  - change (has QUOTE (String x a)) with (Ascii.eqb QUOTE x || has QUOTE a) in Ha.
    apply orb_false_iff in Ha as (Hx & Ha).
    destruct c as [| y c]; cbn [append] in E.
    + injection E as -> _. rewrite Ascii.eqb_refl in Hx. discriminate Hx.
    + injection E as <- E.
      change (has QUOTE (String x c)) with (Ascii.eqb QUOTE x || has QUOTE c) in Hc.
      apply orb_false_iff in Hc as (_ & Hc).
      destruct (IH c Ha Hc E) as (-> & ->). auto.
Qed.

Lemma has_quote_quotable (command_args : string) :
  quotable command_args = true -> has QUOTE command_args = false.
Proof.
  unfold has, quotable. induction (list_ascii_of_string command_args) as [| c l IH];
    [reflexivity |].
  cbn [forallb existsb]. intros H. apply andb_true_iff in H as (Hc & H).
  apply andb_true_iff in Hc as (Hc & _). apply andb_true_iff in Hc as (Hc & _).
  apply negb_true_iff in Hc. rewrite Ascii.eqb_sym, Hc, (IH H). reflexivity.
Qed.

(** Past the text between the quotes of the written line there is no
    export setting. *)
Lemma no_export_setting_in_tail (a : string) :
  has QUOTE a = false ->
  setting_search EXPORT_KEY (a ++ String QUOTE (String NL "")) = None.
Proof.
  intros Ha.
  assert (M : forall s, has QUOTE s = false ->
                        setting_match EXPORT_KEY (s ++ String QUOTE (String NL "")) = None).
  { intros s Hs. unfold setting_match.
    destruct (strip_prefix (EXPORT_KEY ++ String QUOTE "") (s ++ String QUOTE (String NL "")))
      as [r |] eqn:E; [| reflexivity].
    apply strip_prefix_app in E. rewrite append_assoc in E. cbn [append] in E.
    change (EXPORT_KEY ++ String QUOTE r) with (EXPORT_KEY ++ String QUOTE r) in E.
    destruct (first_quote_unique s (String NL "") EXPORT_KEY r Hs eq_refl E) as (_ & <-).
    reflexivity. }
  induction a as [| c a IH]; [reflexivity |].
  change (String c a ++ String QUOTE (String NL ""))
    with (String c (a ++ String QUOTE (String NL ""))).
  rewrite setting_search_unfold.
  change (String c (a ++ String QUOTE (String NL "")))
    with (String c a ++ String QUOTE (String NL "")).
  rewrite (M (String c a) Ha).
  change (has QUOTE (String c a)) with (Ascii.eqb QUOTE c || has QUOTE a) in Ha.
  apply orb_false_iff in Ha as (_ & Ha). cbn [append]. exact (IH Ha).
Qed.

(** The line [_save_config] writes holds no export setting. *)
Lemma no_export_setting_in_config_line (command_args : string) :
  quotable command_args = true ->
  setting_search EXPORT_KEY (config_line command_args) = None.
Proof.
  intros H. unfold config_line.
  change (setting_search EXPORT_KEY
            (CONFIG_KEY ++ String QUOTE (command_args ++ String QUOTE (String NL ""))))
    with (setting_search EXPORT_KEY (command_args ++ String QUOTE (String NL ""))).
  apply no_export_setting_in_tail, has_quote_quotable, H.
Qed.

Lemma config_line_whole (command_args : string) : whole_lines (config_line command_args).
Proof.
  right. exists (CONFIG_KEY ++ String QUOTE (command_args ++ String QUOTE "")).
  unfold config_line. rewrite !append_assoc. cbn [append]. rewrite !append_assoc.
  reflexivity.
Qed.

Lemma export_key_one_line : has NL (EXPORT_KEY ++ String QUOTE "") = false.
Proof. reflexivity. Qed.

(** X14: [_save_config] preserves the export setting: the export arguments
    [_video_export] reads after the decode arguments have been saved are
    those it read before, when the arguments saved hold no quote or line
    end and no line that starts with the decode key holds an export
    setting as well. *)
Theorem save_config_keeps_export_arguments (command_args : string)
    (file : option string)
    (Hargs : quotable command_args = true)
    (Hfile : forall l, In l (config_lines file) ->
                       prefix CONFIG_KEY (strip l) = true ->
                       setting_search EXPORT_KEY l = None) :
  export_args (Some (_save_config command_args file)) = export_args file.
Proof.
  destruct (config_lines_facts file) as (Hcr & Hwhole).
  pose proof (has_quotable command_args Hargs) as Hnew.
  pose proof (no_export_setting_in_config_line command_args Hargs) as Hnone.
  destruct (config_line_whole command_args) as [Hline | (q & Hq)];
    [unfold config_line in Hline; destruct CONFIG_KEY; discriminate Hline |].
  rewrite Hq in Hnone.
  assert (Hold : export_args file
                 = match setting_search EXPORT_KEY (writelines (config_lines file)) with
                   | Some g => g
                   | None => ""
                   end).
  { destruct file as [raw |]; [| reflexivity].
    cbn [export_args config_lines]. rewrite writelines_readlines. reflexivity. }
  rewrite Hold. clear Hold.
  assert (G : has CR (_save_config command_args file) = false
              /\ setting_search EXPORT_KEY (_save_config command_args file)
                 = setting_search EXPORT_KEY (writelines (config_lines file))).
  { unfold _save_config.
    generalize dependent (config_lines file). intros lines Hfile Hcr Hwhole.
    destruct (replace_setting (config_line command_args) lines) as [updated |] eqn:R.
    - apply replace_setting_some in R as (before & line & after & -> & -> & Hp & _).
      rewrite writelines_app in Hcr. rewrite !writelines_app. cbn [writelines] in *.
      rewrite !has_app in Hcr. apply orb_false_iff in Hcr as (Hb & Hcr).
      apply orb_false_iff in Hcr as (_ & Ha).
      split; [rewrite !has_app, Hb, Hnew, Ha; reflexivity |].
      assert (Hin : In line (before ++ line :: after)%list)
        by (apply in_or_app; right; left; reflexivity).
      specialize (Hfile line Hin Hp).
      rewrite removelast_app in Hwhole by discriminate.
      apply Forall_app in Hwhole as (Hbefore & Hrest).
      apply (setting_search_whole_lines EXPORT_KEY export_key_one_line _ _ _ Hbefore).
      rewrite Hq, (setting_search_line EXPORT_KEY export_key_one_line q), Hnone.
      destruct after as [| a after].
      + cbn [writelines]. rewrite append_empty_r, Hfile. reflexivity.
      + cbn [removelast] in Hrest. apply Forall_inv in Hrest.
        destruct Hrest as [-> | (q' & ->)]; [reflexivity |].
        rewrite (setting_search_line EXPORT_KEY export_key_one_line q'), Hfile.
        reflexivity.
    - destruct lines as [| l ls].
      + cbn [List.app writelines]. rewrite append_empty_r.
        split; [exact Hnew | rewrite Hq; exact Hnone].
      + assert (D : (l :: ls) = (removelast (l :: ls) ++ [List.last ls l])%list).
        { rewrite <- (last_cons_any l ls l). apply app_removelast_last. discriminate. }
        set (x := List.last ls l) in *.
        assert (Hcr' : has CR (writelines (removelast (l :: ls))) = false
                       /\ has CR x = false).
        { rewrite D, writelines_app in Hcr. cbn [writelines] in Hcr.
          rewrite append_empty_r in Hcr.
          rewrite !has_app in Hcr. apply orb_false_iff in Hcr as (H1 & H2). auto. }
        destruct Hcr' as (Hc1 & Hc2).
        set (rl := removelast (l :: ls)) in *.
        destruct (endswith_newline x) eqn:E; cbn [negb]; rewrite D.
        * rewrite !writelines_app. cbn [writelines]. rewrite !append_empty_r.
          split; [rewrite !has_app, Hc1, Hc2, Hnew; reflexivity |].
          rewrite append_assoc.
          rewrite <- (append_empty_r x) at 2.
          apply (setting_search_whole_lines EXPORT_KEY export_key_one_line _ _ _ Hwhole).
          apply (setting_search_whole EXPORT_KEY export_key_one_line);
            [apply endswith_newline_whole, E | rewrite Hq; exact Hnone].
        * rewrite !writelines_app. cbn [writelines]. rewrite !append_empty_r.
          split; [rewrite !has_app, Hc1, Hc2, Hnew; reflexivity |].
          rewrite !append_assoc.
          apply (setting_search_whole_lines EXPORT_KEY export_key_one_line _ _ _ Hwhole).
          rewrite <- append_assoc.
          rewrite (setting_search_line EXPORT_KEY export_key_one_line x),
            (setting_search_newline EXPORT_KEY export_key_one_line x), Hq, Hnone.
          destruct (setting_search EXPORT_KEY x); reflexivity. }
  destruct G as (G1 & G2). cbn [export_args].
  rewrite (universal_newlines_id _ G1), G2. reflexivity.
Qed.

End ExportSetting.

(** ** The configuration file: saving again *)

Section SaveAgain.

Lemma has_cons (x c : ascii) (s : string) :
  has x (String c s) = Ascii.eqb x c || has x s.
Proof. reflexivity. Qed.

Lemma readlines_line (p rest cur : string) :
  has NL p = false ->
  readlines cur (p ++ String NL rest) = (cur ++ p ++ String NL "") :: readlines "" rest.
Proof.
  revert cur. induction p as [| c p IH]; intros cur H.
  - cbn [append readlines]. rewrite Ascii.eqb_refl. reflexivity.
  - rewrite has_cons in H. apply orb_false_iff in H as (Hc & H).
    cbn [append readlines]. rewrite Ascii.eqb_sym, Hc, (IH _ H), append_assoc.
    reflexivity.
Qed.

Lemma readlines_end (p cur : string) :
  has NL p = false ->
  readlines cur p = if String.eqb (cur ++ p) "" then [] else [cur ++ p].
Proof.
  revert cur. induction p as [| c p IH]; intros cur H.
  - cbn [readlines]. rewrite append_empty_r. reflexivity.
  - rewrite has_cons in H. apply orb_false_iff in H as (Hc & H).
    cbn [readlines]. rewrite Ascii.eqb_sym, Hc, (IH _ H), append_assoc. reflexivity.
Qed.

Lemma readlines_Lines (s cur : string) :
  has NL cur = false -> Lines (readlines cur s).
Proof.
  revert cur. induction s as [| c s IH]; intros cur H.
  - cbn [readlines]. destruct (String.eqb_spec cur "") as [_ | Hne];
      [constructor | constructor; assumption].
  - cbn [readlines]. destruct (Ascii.eqb_spec c NL) as [-> | Hc].
    + constructor; [exact H | apply IH; reflexivity].
    + apply IH. rewrite has_app, H, has_cons.
      destruct (Ascii.eqb_spec NL c) as [E | _]; [congruence | reflexivity].
Qed.

(** Reading back what was written gives the lines written. *)
Lemma Lines_read (lines : list string) :
  Lines lines -> readlines "" (writelines lines) = lines.
Proof.
  induction 1 as [| p Hp Hne | p rest Hp _ IH].
  - reflexivity.
  - cbn [writelines]. rewrite append_empty_r, (readlines_end p "" Hp). cbn [append].
    destruct (String.eqb_spec p ""); [contradiction | reflexivity].
  - cbn [writelines]. rewrite append_assoc. cbn [append].
    rewrite (readlines_line p _ "" Hp), IH. reflexivity.
Qed.

Lemma Lines_tail (l : string) (rest : list string) : Lines (l :: rest) -> Lines rest.
Proof. intros H. inversion H; [constructor | assumption]. Qed.

Lemma Lines_replace (before : list string) (line q : string) (after : list string) :
  has NL q = false ->
  Lines (before ++ line :: after) ->
  Lines (before ++ (q ++ String NL "") :: after).
Proof.
  intros Hq. induction before as [| b before IH]; intros H.
  - cbn [List.app] in *. constructor; [exact Hq | exact (Lines_tail _ _ H)].
  - cbn [List.app] in *. inversion H as [| p Hp Hne E | p rest Hp Hrest E].
    + destruct before; discriminate.
    + constructor; [exact Hp | apply IH, Hrest].
Qed.

Lemma endswith_newline_has (p : string) :
  endswith_newline p = true -> has NL p = true.
Proof.
  induction p as [| c p IH]; [discriminate |].
  rewrite has_cons. destruct p as [| d p].
  - cbn [endswith_newline]. intros H. rewrite Ascii.eqb_sym, H. reflexivity.
  - intros H. rewrite (IH H). apply orb_true_r.
Qed.

Lemma endswith_newline_app (p : string) : endswith_newline (p ++ String NL "") = true.
Proof.
  induction p as [| c p IH]; [reflexivity |].
  cbn [append]. destruct p as [| d p]; [reflexivity | exact IH].
Qed.

(** A further line after lines that end in a newline. *)
Lemma Lines_add (lines : list string) (x q : string) :
  has NL q = false ->
  Lines (lines ++ [x]) -> endswith_newline x = true ->
  Lines ((lines ++ [x]) ++ [q ++ String NL ""]).
Proof.
  intros Hq. induction lines as [| l lines IH]; intros H E.
  - cbn [List.app] in *. inversion H as [| p Hp Hne Ep | p rest Hp Hrest Ep].
    + subst. rewrite (endswith_newline_has _ E) in Hp. discriminate Hp.
    + constructor; [exact Hp |]. constructor; [exact Hq | constructor].
  - cbn [List.app] in *. inversion H as [| p Hp Hne Ep | p rest Hp Hrest Ep].
    + destruct lines; discriminate.
    + constructor; [exact Hp | apply IH; assumption].
Qed.

(** A newline and a further line after a last line without a newline. *)
Lemma Lines_complete (lines : list string) (x q : string) :
  has NL q = false ->
  Lines (lines ++ [x]) -> endswith_newline x = false ->
  Lines (lines ++ [x ++ String NL ""; q ++ String NL ""]).
Proof.
  intros Hq. induction lines as [| l lines IH]; intros H E.
  - cbn [List.app] in *. inversion H as [| p Hp Hne Ep | p rest Hp Hrest Ep].
    + constructor; [exact Hp |]. constructor; [exact Hq | constructor].
    + subst. rewrite endswith_newline_app in E. discriminate E.
  - cbn [List.app] in *. inversion H as [| p Hp Hne Ep | p rest Hp Hrest Ep].
    + destruct lines; discriminate.
    + constructor; [exact Hp | apply IH; assumption].
Qed.

Lemma replace_setting_at (new_line line : string) (before after : list string) :
  Forall (fun l => prefix CONFIG_KEY (strip l) = false) before ->
  prefix CONFIG_KEY (strip line) = true ->
  replace_setting new_line (before ++ line :: after)
  = Some (before ++ new_line :: after)%list.
Proof.
  intros Hb Hl. induction Hb as [| b before Hb _ IH].
  - cbn [List.app replace_setting]. rewrite Hl. reflexivity.
  - cbn [List.app replace_setting]. rewrite Hb, IH. reflexivity.
Qed.

Lemma rstrip_newline (y : string) : rstrip (y ++ String NL "") = rstrip y.
Proof.
  induction y as [| c y IH]; [reflexivity |].
  cbn [append rstrip]. rewrite IH. reflexivity.
Qed.

Lemma strip_newline (x : string) : strip (x ++ String NL "") = strip x.
Proof.
  unfold strip. induction x as [| c x IH]; [reflexivity |].
  cbn [append lstrip]. destruct (is_space c); [exact IH |].
  apply (rstrip_newline (String c x)).
Qed.

(** The line written starts with the key. *)
Lemma config_line_prefix (command_args : string) :
  prefix CONFIG_KEY (strip (config_line command_args)) = true.
Proof.
  apply prefix_app.
  exists (rstrip (String QUOTE (command_args ++ String QUOTE (String NL "")))).
  reflexivity.
Qed.

Lemma config_line_body (command_args : string) :
  quotable command_args = true ->
  exists q, config_line command_args = q ++ String NL "" /\ has NL q = false.
Proof.
  intros H. exists (CONFIG_KEY ++ String QUOTE (command_args ++ String QUOTE "")).
  split.
  - unfold config_line. rewrite !append_assoc. cbn [append]. rewrite !append_assoc.
    reflexivity.
  - assert (E : has NL command_args = false).
    { unfold has, quotable in *.
      induction (list_ascii_of_string command_args) as [| c l IH]; [reflexivity |].
      cbn [forallb existsb] in *. apply andb_true_iff in H as (Hc & H).
      apply andb_true_iff in Hc as (Hc & _). apply andb_true_iff in Hc as (_ & Hc).
      apply negb_true_iff in Hc. rewrite Ascii.eqb_sym, Hc, (IH H). reflexivity. }
    change (String QUOTE (command_args ++ String QUOTE ""))
      with (String QUOTE "" ++ command_args ++ String QUOTE "").
    rewrite !has_app, E. reflexivity.
Qed.

Lemma config_lines_Lines (file : option string) : Lines (config_lines file).
Proof.
  destruct file as [raw |]; [apply readlines_Lines; reflexivity | constructor].
Qed.

(** The file after a save, as the lines the next save reads: the line of
    the setting among lines that do not start with the key. *)
Lemma save_config_lines (a : string) (file : option string) :
  quotable a = true ->
  exists before after,
    config_lines (Some (_save_config a file)) = (before ++ config_line a :: after)%list
    /\ Forall (fun l => prefix CONFIG_KEY (strip l) = false) before
    /\ forall b, _save_config b file = writelines (before ++ config_line b :: after).
Proof.
  intros Ha.
  destruct (config_line_body a Ha) as (q & Hq & Hnl).
  pose proof (has_quotable a Ha) as Hnew.
  destruct (config_lines_facts file) as (Hcr & _).
  pose proof (config_lines_Lines file) as HL.
  assert (G : exists before after,
            has CR (_save_config a file) = false
            /\ _save_config a file = writelines (before ++ config_line a :: after)
            /\ Lines (before ++ config_line a :: after)
            /\ Forall (fun l => prefix CONFIG_KEY (strip l) = false) before
            /\ forall b, _save_config b file = writelines (before ++ config_line b :: after)).
  { unfold _save_config.
    generalize dependent (config_lines file). intros lines Hcr HL.
    destruct (replace_setting (config_line a) lines) as [updated |] eqn:R.
    - apply replace_setting_some in R as (before & line & after & -> & -> & Hp & Hb).
      exists before, after. refine (conj _ (conj eq_refl (conj _ (conj _ _)))).
      + rewrite writelines_app in *. cbn [writelines] in *.
        rewrite !has_app in *. apply orb_false_iff in Hcr as (H1 & Hcr).
        apply orb_false_iff in Hcr as (_ & H2). rewrite H1, Hnew, H2. reflexivity.
      + rewrite Hq. apply (Lines_replace before line q after Hnl HL).
      + exact Hb.
      + intros b. rewrite (replace_setting_at (config_line b) line before after Hb Hp).
        reflexivity.
    - pose proof (replace_setting_none _ _ R) as Hno.
      assert (Rb : forall b, replace_setting (config_line b) lines = None).
      { intros b. clear - Hno. induction Hno as [| l ls Hl _ IH]; [reflexivity |].
        cbn [replace_setting]. rewrite Hl, IH. reflexivity. }
      destruct lines as [| l ls].
      + exists [], []. cbn [List.app writelines]. rewrite !append_empty_r.
        refine (conj Hnew (conj eq_refl (conj _ (conj (Forall_nil _) _)))).
        * rewrite Hq. constructor; [exact Hnl | constructor].
        * intros b. rewrite (Rb b). cbn [List.app writelines].
          rewrite ?append_empty_r. reflexivity.
      + assert (D : (l :: ls) = (removelast (l :: ls) ++ [List.last ls l])%list).
        { rewrite <- (last_cons_any l ls l). apply app_removelast_last. discriminate. }
        set (x := List.last ls l) in *.
        set (rl := removelast (l :: ls)) in *.
        assert (Hrl : Forall (fun l0 => prefix CONFIG_KEY (strip l0) = false) rl
                      /\ prefix CONFIG_KEY (strip x) = false).
        { rewrite D in Hno. apply Forall_app in Hno as (H1 & H2).
          split; [exact H1 | exact (Forall_inv H2)]. }
        destruct Hrl as (Hrl & Hx).
        assert (Hcr' : has CR (writelines rl) = false /\ has CR x = false).
        { rewrite D, writelines_app in Hcr. cbn [writelines] in Hcr.
          rewrite append_empty_r in Hcr.
          rewrite !has_app in Hcr. apply orb_false_iff in Hcr as (H1 & H2). auto. }
        destruct Hcr' as (Hc1 & Hc2).
        destruct (endswith_newline x) eqn:E; cbn [negb].
        * exists (l :: ls), []. refine (conj _ (conj eq_refl (conj _ (conj _ _)))).
          -- rewrite D, !writelines_app. cbn [writelines]. rewrite !append_empty_r.
             rewrite !has_app, Hc1, Hc2, Hnew. reflexivity.
          -- rewrite Hq, D. rewrite D in HL. apply (Lines_add rl x q Hnl HL E).
          -- exact Hno.
          -- intros b. rewrite (Rb b). reflexivity.
        * exists (rl ++ [(x ++ String NL "")%string])%list, [].
          refine (conj _ (conj _ (conj _ (conj _ _)))).
          -- rewrite D, !writelines_app. cbn [writelines]. rewrite !append_empty_r.
             rewrite !has_app, Hc1, Hc2, Hnew. reflexivity.
          -- rewrite D, <- !app_assoc, !writelines_app. cbn [List.app writelines].
             rewrite !append_empty_r, !append_assoc. reflexivity.
          -- rewrite Hq, <- app_assoc. cbn [List.app]. rewrite D in HL.
             apply (Lines_complete rl x q Hnl HL E).
          -- apply Forall_app. split; [exact Hrl |].
             constructor; [rewrite strip_newline; exact Hx | constructor].
          -- intros b. rewrite (Rb b), D, <- !app_assoc, !writelines_app.
             cbn [List.app writelines]. rewrite !append_empty_r, !append_assoc.
             reflexivity. }
  destruct G as (before & after & G1 & G2 & G3 & G4 & G5).
  exists before, after. refine (conj _ (conj G4 G5)).
  cbn [config_lines]. rewrite (universal_newlines_id _ G1), G2. apply Lines_read, G3.
Qed.

(** X13: A save overwrites the save before it: saving [a] and then [b] leaves
    the file that saving [b] alone leaves.  In particular saving the same
    arguments again changes nothing. *)
Theorem save_config_overwrites (a b : string) (file : option string)
    (Ha : quotable a = true) :
  _save_config b (Some (_save_config a file)) = _save_config b file.
Proof.
  destruct (save_config_lines a file Ha) as (before & after & E & Hb & Hsave).
  rewrite (Hsave b). unfold _save_config at 1. rewrite E.
  rewrite (replace_setting_at (config_line b) (config_line a) before after Hb
             (config_line_prefix a)).
  reflexivity.
Qed.

End SaveAgain.

(** ** The video export *)

Section ExportReader.

Ltac export_fields :=
  cbn [gui export_in_progress export_process set_gui set_export_in_progress
       set_export_process log_export _update_export_status fst snd].

Lemma plus_some (f : ascii -> bool) (s run rest : string) :
  plus f s = Some (run, rest) ->
  run <> "" /\ forallb f (list_ascii_of_string run) = true /\ s = run ++ rest.
Proof.
  unfold plus. intros H.
  pose proof (span_run f s) as Hrun. pose proof (span_app f s) as Happ.
  destruct (span f s) as [r t]. cbn [fst snd] in *.
  destruct r as [| c r]; [discriminate H |].
  injection H as <- <-. repeat split; [discriminate | exact Hrun | symmetry; exact Happ].
Qed.

(** Group 1 is a run of digits, so [int()] reads it. *)
Lemma progress_pattern_match_groups (s group1 group2 : string) :
  progress_pattern_match s = Some (group1, group2) ->
  group1 <> "" /\ forallb is_digit (list_ascii_of_string group1) = true.
Proof.
  unfold progress_pattern_match. intros H.
  destruct (strip_prefix "Info:" s) as [r0 |]; [| discriminate H].
  destruct (plus is_space r0) as [[w1 r1] |]; [| discriminate H].
  destruct (plus is_digit r1) as [[d r2] |] eqn:D; [| discriminate H].
  destruct (plus is_space r2) as [[w2 r3] |]; [| discriminate H].
  destruct (strip_prefix "frames processed" r3) as [r4 |]; [| discriminate H].
  destruct (plus is_space r4) as [[w3 r5] |]; [| discriminate H].
  destruct (strip_prefix "-" r5) as [r6 |]; [| discriminate H].
  destruct (plus is_space r6) as [[w4 r7] |]; [| discriminate H].
  destruct (plus is_digit_or_dot r7) as [[x r8] |]; [| discriminate H].
  destruct (plus is_space r8) as [[w5 r9] |]; [| discriminate H].
  destruct (prefix "FPS" r9); [| discriminate H].
  injection H as <- <-. apply plus_some in D as (D1 & D2 & _). split; assumption.
Qed.

Lemma progress_pattern_search_groups (s group1 group2 : string) :
  progress_pattern_search s = Some (group1, group2) ->
  Py.int (PyStr group1) = Ok (digits_value group1).
Proof.
  induction s as [| c s IH]; intros H.
  - cbn [progress_pattern_search] in H.
    destruct (progress_pattern_match "") as [[a b] |] eqn:M; [| discriminate H].
    injection H as -> ->. apply progress_pattern_match_groups in M as (M1 & M2).
    apply int_of_digits; assumption.
  - cbn [progress_pattern_search] in H.
    destruct (progress_pattern_match (String c s)) as [[a b] |] eqn:M; [| exact (IH H)].
    injection H as -> ->. apply progress_pattern_match_groups in M as (M1 & M2).
    apply int_of_digits; assumption.
Qed.

(** One turn of the loop on a line that can be read. *)
Lemma export_read_cons (st : ExportState) (line : string) (rest : list string) :
  readable line = true ->
  export_read st (line :: rest)
  = export_read
      (if String.eqb line "" then st
       else log_export (strip line)
              (match progress_of line with
               | Some (frames, fps) => _update_export_status st frames fps
               | None => st
               end))
      rest.
Proof.
  intros H. cbn [export_read]. destruct (String.eqb line ""); [reflexivity |].
  unfold readable, progress_of in *.
  destruct (progress_pattern_search (strip line)) as [[g1 g2] |]; [| reflexivity].
  destruct (Py.int (PyStr g1)) as [frames | e]; [| discriminate H].
  destruct (float_of_decimal g2) as [fps | e]; [reflexivity | discriminate H].
Qed.

Lemma export_read_readable (output : list string) (st : ExportState) :
  forallb readable output = true ->
  snd (export_read st output) = None
  /\ log_text_area (gui (fst (export_read st output)))
     = (log_text_area (gui st)
        ++ map (fun l => LogText (strip l)) (filter nonempty output))%list
  /\ export_in_progress (fst (export_read st output)) = export_in_progress st
  /\ export_process (fst (export_read st output)) = export_process st.
Proof.
  revert st. induction output as [| line rest IH]; intros st H.
  - cbn [export_read filter map fst snd]. rewrite app_nil_r. auto.
  - cbn [forallb] in H. apply andb_true_iff in H as (Hl & H).
    rewrite (export_read_cons st line rest Hl). cbn [filter]. unfold nonempty at 1.
    destruct (String.eqb line ""); cbn [negb]; [apply IH, H |].
    destruct (IH (log_export (strip line)
                    match progress_of line with
                    | Some (frames, fps) => _update_export_status st frames fps
                    | None => st
                    end) H) as (I1 & I2 & I3 & I4).
    rewrite I1, I2, I3, I4. cbn [map].
    destruct (progress_of line) as [[frames fps] |]; export_fields; fields;
      rewrite <- app_assoc; auto.
Qed.


Lemma finalize_export_fields (st : ExportState) (return_code : Z) :
  log_text_area (gui (_finalize_export st return_code))
  = (log_text_area (gui st) ++ [LogText (export_finished return_code)])%list
  /\ export_in_progress (_finalize_export st return_code) = false
  /\ export_process (_finalize_export st return_code) = None
  /\ current_frame (gui (_finalize_export st return_code)) = current_frame (gui st)
  /\ timecode (gui (_finalize_export st return_code)) = timecode (gui st)
  /\ decode_fps (gui (_finalize_export st return_code)) = decode_fps (gui st).
Proof.
  unfold _finalize_export, export_finished.
  destruct (return_code =? 0); export_fields; fields; repeat split; reflexivity.
Qed.


Lemma export_read_app (l1 l2 : list string) (st : ExportState) :
  snd (export_read st l1) = None ->
  export_read st (l1 ++ l2) = export_read (fst (export_read st l1)) l2.
Proof.
  revert st. induction l1 as [| line rest IH]; intros st H; [reflexivity |].
  cbn [List.app export_read] in *.
  destruct (String.eqb line ""); [apply IH, H |].
  destruct (progress_pattern_search (strip line)) as [[g1 g2] |]; [| apply IH, H].
  destruct (Py.int (PyStr g1)) as [frames | e]; [| discriminate H].
  destruct (float_of_decimal g2) as [fps | e]; [apply IH, H | discriminate H].
Qed.

(** X18: The rate of a progress line is any run of digits and dots; one that
    [float()] rejects ends the reading, although the process goes on: the
    line and all later lines are lost, the export is declared finished
    with code -1 whatever the process returns, and the handle is dropped,
    so that a cancel request no longer reaches the process. *)
Theorem export_stops_at_unreadable_rate (st : ExportState)
    (before after : list string) (bad group1 group2 : string) (return_code : Z)
    (Hbefore : forallb readable before = true)
    (Hbad : bad <> "")
    (Hmatch : progress_pattern_search (strip bad) = Some (group1, group2))
    (Hfloat : float_of_decimal group2 = Raise ValueError) :
  let st' := _run_export_process st None (before ++ bad :: after) return_code in
  log_text_area (gui st')
  = (log_text_area (gui st)
     ++ map (fun l => LogText (strip l)) (filter nonempty before)
     ++ [LogText ("Failed to run command: " ++ float_error group2);
         LogText (export_finished (-1))])%list
  /\ export_in_progress st' = false
  /\ export_process st' = None
  /\ _cancel_export st' = st'.
Proof.
  cbv zeta. unfold _run_export_process.
  set (st0 := set_export_process (Some (mkPopen None O)) st).
  destruct (export_read_readable before st0 Hbefore) as (R1 & R2 & _ & _).
  rewrite (export_read_app before (bad :: after) st0 R1).
  destruct (export_read st0 before) as [st1 e]. cbn [fst snd] in *. subst e.
  cbn [export_read]. apply String.eqb_neq in Hbad. rewrite Hbad, Hmatch.
  rewrite (progress_pattern_search_groups _ _ _ Hmatch), Hfloat.
  match goal with |- context [_finalize_export ?s _] => set (st2 := s) end.
  destruct (finalize_export_fields st2 (-1)) as (F1 & F2 & F3 & _).
  unfold _cancel_export. rewrite F1, F2, F3. subst st2 st0. export_fields.
  fields. rewrite R2. export_fields. rewrite <- !app_assoc. cbn [List.app].
  repeat split; reflexivity.
Qed.

End ExportReader.

(** ** Concrete instances *)

Lemma timecode_numbers_recombine_witness :
  exists hours minutes seconds frames,
    convert_frame_to_timecode (PyInt 9007199254740991)
    = Ok (format_02d hours ++ ":" ++ format_02d minutes ++ ":"
          ++ format_02d seconds ++ "." ++ format_02d frames)
    /\ 0 <= hours /\ 0 <= minutes < 60 /\ 0 <= seconds < 60 /\ 0 <= frames < 25
    /\ recombine (hours, minutes, seconds, frames) = 9007199254740991.
Proof. apply (timecode_numbers_recombine 9007199254740991). lia. Defined.

(** Output as the reader receives it: blanks around the text, a newline
    at the end. *)
Definition raw_output : list string :=
  ["File Frame 1: VHS" ++ String NL "";
   "  dropping field  " ++ String NL "";
   String NL "";
   "skipped a track" ++ String NL "";
   "File Frame 2: VHS" ++ String NL "";
   "dropping field again" ++ String NL ""].

Lemma run_decode_process_counts_all_witness :
  dropped_field_count
    (_run_decode_process clock5 started5 Spawned raw_output 0)
  + dropped_field_buffer
      (_run_decode_process clock5 started5 Spawned raw_output 0)
  = count_lines is_dropped raw_output
  /\ track_skip_count
       (_run_decode_process clock5 started5 Spawned raw_output 0)
     + track_skip_buffer
         (_run_decode_process clock5 started5 Spawned raw_output 0)
     = count_lines is_skip raw_output.
Proof.
  apply (run_decode_process_counts_all clock5 (init clock5) "capture.flac" raw_output 0);
    [reflexivity | discriminate].
Defined.



(** A session that has run to its end under [clock3]. *)
Definition ended3 : VhsDecodeApp :=
  _finalize_decoding clock3 (wait running3 0) 0 None.

Lemma cancel_before_spawn_witness :
  (process (click_cancel (_start_decoding clock3 ended3 "capture.flac" true))
   = Some (mkPopen (Some 0) O)
   /\ cancel_button_enabled
        (click_cancel (_start_decoding clock3 ended3 "capture.flac" true)) = false
   /\ click_cancel
        (popen (click_cancel (_start_decoding clock3 ended3 "capture.flac" true)))
      = popen (click_cancel (_start_decoding clock3 ended3 "capture.flac" true))
   /\ signals (popen (click_cancel (_start_decoding clock3 ended3 "capture.flac" true)))
      = 0%nat
   /\ decoding_in_progress
        (popen (click_cancel (_start_decoding clock3 ended3 "capture.flac" true))) = true)
  /\ (cancel_button_enabled
        (click_cancel (_start_decoding clock3 (init clock3) "capture.flac" true)) = true
      /\ status_message
           (click_cancel (_start_decoding clock3 (init clock3) "capture.flac" true))
         = StatusNoActiveProcess
      /\ signals
           (click_cancel
              (popen (click_cancel
                        (_start_decoding clock3 (init clock3) "capture.flac" true))))
         = 1%nat).
Proof.
  apply (cancel_before_spawn clock3 ended3 (init clock3) (mkPopen (Some 0) O) 0
           "capture.flac");
    [vm_compute; reflexivity | vm_compute; reflexivity | reflexivity
    | reflexivity | reflexivity | discriminate].
Defined.

Lemma launch_failure_reported_witness :
  outcome (_run_decode_process clock5 started5 NotFound [] 0)
  = Some (LaunchFailed not_found_message)
  /\ decoding_in_progress (_run_decode_process clock5 started5 NotFound [] 0) = false
  /\ cancel_button_enabled (_run_decode_process clock5 started5 NotFound [] 0) = false
  /\ current_frame (_run_decode_process clock5 started5 NotFound [] 0) = 0
  /\ dropped_field_count (_run_decode_process clock5 started5 NotFound [] 0) = 0
  /\ track_skip_count (_run_decode_process clock5 started5 NotFound [] 0) = 0
  /\ updates (_run_decode_process clock5 started5 NotFound [] 0) = []
  /\ timecode (_run_decode_process clock5 started5 NotFound [] 0) = "00:00:00.00"
  /\ decode_fps (_run_decode_process clock5 started5 NotFound [] 0) = FpsValue 0.
Proof.
  apply (launch_failure_reported clock5 (init clock5) "capture.flac" [] 0);
    [reflexivity | discriminate].
Defined.

Lemma log_output_plain_text_witness :
  log_output "Decoding finished" = segment_of "Decoding finished" [].
Proof. apply (log_output_plain_text "Decoding finished"). reflexivity. Defined.

Lemma log_output_two_codes_witness :
  log_output ("" ++ sgr "32" ++ "OK" ++ sgr "0" ++ " done")
  = (segment_of "" [] ++ segment_of "OK" ["32"]
     ++ segment_of " done" (tags_after "32" "0"))%list.
Proof.
  apply (log_output_two_codes "" "OK" " done" "32" "0");
    [reflexivity | reflexivity | reflexivity
    | right; right; left; reflexivity | reflexivity].
Defined.

Lemma log_output_escape_line_dropped_witness :
  log_output (String ESC ("[" ++ "?25l cursor hidden")) = [].
Proof.
  apply (log_output_escape_line_dropped "?25l cursor hidden"); reflexivity.
Defined.

(** A configuration file with a comment, another setting, an indented
    line of the setting and a last line without a newline. *)
Definition sample_config : string :=
  "# settings" ++ String NL
    ("videoExportArguments=" ++ String QUOTE ("--x" ++ String QUOTE
       (String CR (String NL
          ("  vhsdecodeArguments=" ++ String QUOTE ("old" ++ String QUOTE
             (String NL "tail"))))))).

Lemma config_round_trip_witness :
  _load_config (Some (_save_config "--tf VHS --pal" (Some sample_config))) ""
  = "--tf VHS --pal".
Proof.
  apply (config_round_trip "--tf VHS --pal" (Some sample_config) "");
    [reflexivity |].
  intros l Hin. vm_compute in Hin.
  repeat (destruct Hin as [<- | Hin]; [vm_compute; congruence |]).
  destruct Hin.
Defined.

Lemma outputs_beside_input_witness :
  (decode_output_path ("/captures/vhs" ++ "/" ++ "tape.side-a" ++ "." ++ "flac")
   = "/captures/vhs" ++ "/" ++ "tape.side-a" ++ "-Decoded"
   /\ tbc_path ("/captures/vhs" ++ "/" ++ "tape.side-a" ++ "." ++ "flac")
      = "/captures/vhs" ++ "/" ++ "tape.side-a" ++ "-Decoded.tbc"
   /\ export_output_base ("/captures/vhs" ++ "/" ++ "tape.side-a" ++ "." ++ "flac")
      = "/captures/vhs" ++ "/" ++ "tape.side-a" ++ "-export")
  /\ (decode_output_path ("tape.side-a" ++ "." ++ "flac") = "tape.side-a" ++ "-Decoded"
      /\ tbc_path ("tape.side-a" ++ "." ++ "flac") = "tape.side-a" ++ "-Decoded.tbc"
      /\ export_output_base ("tape.side-a" ++ "." ++ "flac") = "tape.side-a" ++ "-export").
Proof.
  apply (outputs_beside_input "/captures/vhs" "tape.side-a" "flac");
    [discriminate | reflexivity | reflexivity | reflexivity | reflexivity | reflexivity].
Defined.

Lemma save_config_keeps_export_arguments_witness :
  export_args (Some (_save_config "--tf VHS --pal" (Some sample_config)))
  = export_args (Some sample_config).
Proof.
  apply (save_config_keeps_export_arguments "--tf VHS --pal" (Some sample_config));
    [reflexivity |].
  intros l Hin. vm_compute in Hin.
  repeat (destruct Hin as [<- | Hin]; [vm_compute; congruence |]).
  destruct Hin.
Defined.

Lemma save_config_overwrites_witness :
  _save_config "--pal" (Some (_save_config "--tf VHS --pal" (Some sample_config)))
  = _save_config "--pal" (Some sample_config).
Proof.
  apply (save_config_overwrites "--tf VHS --pal" "--pal" (Some sample_config)).
  reflexivity.
Defined.

Definition export_output : list string :=
  ["tbc-video-export 0.1" ++ String NL "";
   String NL "";
   "  Info:  120 frames processed  -  24.50 FPS" ++ String NL "";
   "Info: 250 frames processed - 25. FPS" ++ String NL "";
   "done" ++ String NL ""].

Definition idle_export : ExportState := mkExport (init clock5) false None.


Lemma export_stops_at_unreadable_rate_witness :
  log_text_area
    (gui (_run_export_process idle_export None
            (export_output ++ "Info: 300 frames processed - 1.2.3 FPS" :: ["more"]) 0))
  = (log_text_area (gui idle_export)
     ++ map (fun l => LogText (strip l)) (filter nonempty export_output)
     ++ [LogText ("Failed to run command: " ++ float_error "1.2.3");
         LogText (export_finished (-1))])%list
  /\ export_in_progress
       (_run_export_process idle_export None
          (export_output ++ "Info: 300 frames processed - 1.2.3 FPS" :: ["more"]) 0) = false
  /\ export_process
       (_run_export_process idle_export None
          (export_output ++ "Info: 300 frames processed - 1.2.3 FPS" :: ["more"]) 0) = None
  /\ _cancel_export
       (_run_export_process idle_export None
          (export_output ++ "Info: 300 frames processed - 1.2.3 FPS" :: ["more"]) 0)
     = _run_export_process idle_export None
         (export_output ++ "Info: 300 frames processed - 1.2.3 FPS" :: ["more"]) 0.
Proof.
  apply (export_stops_at_unreadable_rate idle_export export_output ["more"]
           "Info: 300 frames processed - 1.2.3 FPS" "300" "1.2.3" 0);
    [vm_compute; reflexivity | discriminate | vm_compute; reflexivity
    | vm_compute; reflexivity].
Defined.
